(** * The field renderer of ngx-formly ([FormlyField], formly.field.ts)

    A shallow embedding of the component class [FormlyField]: the recursive
    wrapper/type rendering ([renderField]), the tracking of component
    references per field ([attachComponentRef], [resetRefs]), the lifecycle
    hook dispatcher ([triggerHook], [ngOnDestroy]), the host bindings
    ([renderHostBinding]) and the value wiring ([fieldChanges]).

    The JavaScript heap is an arena: field configurations, form controls,
    component references, view containers and subscriptions are held in
    lists and referred to by index, so that aliasing (one field shared by
    the renderer, its wrappers and its closures) is kept.  Code that can
    throw returns a [result]. *)

From Stdlib Require Import ZArith Lia Ascii.
From stdpp Require Import base option list strings gmap.

Open Scope Z_scope.
Open Scope nat_scope.

(** ** Values and errors *)

(** The JavaScript values a control or a model slot holds.  [!==] on these
    primitives is plain inequality. *)
Inductive jsval :=
| VUndefined
| VNull
| VBool (b : bool)
| VNum (z : Z)
| VStr (s : string).

#[global] Instance jsval_eq_dec : EqDecision jsval.
Proof. solve_decision. Defined.

Inductive error :=
| TypeError
| UnregisteredRendererError (name : string).

Inductive result (A : Type) :=
| OK (a : A)
| Err (e : error).
Arguments OK {A} a.
Arguments Err {A} e.

#[global] Instance result_ret : MRet result := λ A a, OK a.
#[global] Instance result_bind : MBind result :=
  λ A B f m, match m with OK a => f a | Err e => Err e end.

Definition is_OK {A} (r : result A) : Prop :=
  match r with OK _ => True | Err _ => False end.

(** A string in a condition: [undefined] and the empty string are falsy. *)
Definition truthy (s : option string) : bool :=
  match s with
  | Some s => bool_decide (s ≠ EmptyString)
  | None => false
  end.

(** ** The data model *)

Definition Component := string.

(** The registry [FormlyConfig]: [getType] and [getWrapper] throw for a name
    that is not registered. *)
Record FormlyConfig := {
  getType : string → option Component;
  getWrapper : string → option Component;
}.

Record Debounce := { debounce_default : option Z }.

Record ModelOptions := {
  updateOn : option string;
  debounce : option Debounce;
}.

(** What a hook callback returns: some plain value, or an observable. *)
Inductive hook := ReturnsPlain | ReturnsObservable.

(** [FormlyFieldConfigCache].  [fieldGroup] and [formControl] hold indices
    into the arenas of the state; [_componentRefs] is the hidden property
    that [defineHiddenProp] attaches. *)
Record FormlyFieldConfigCache := {
  key : option string;
  type : option string;
  wrappers : option (list string);
  fieldGroup : option (list nat);
  hide : option bool;
  className : option string;
  modelOptions : option ModelOptions;
  parsers : option (list (jsval → jsval));
  hooks : option (gmap string hook);
  formControl : option nat;
  model : gmap string jsval;
  _componentRefs : option (list nat);
}.

(** An [AbstractControl]; [_fields] is the list of fields bound to it. *)
Record AbstractControl := {
  value : jsval;
  isFormControl : bool;
  _fields : option (list nat);
}.

(** The operators [fieldChanges] pipes [control.valueChanges] through. *)
Inductive stream :=
| valueChanges
| distinctUntilChanged (s : stream)
| startWith (v : jsval) (s : stream)
| debounceTime (d : Z) (s : stream).

(** Which registry lookup a component came from. *)
Inductive renderer_kind := WrapperRenderer | TypeRenderer.

(** A [ComponentRef] together with its instance.  [observer] is the closure
    passed to [observe(ref.instance, ['fieldComponent'], ...)]: the field
    [f] and the remaining wrappers [wps] it captured. *)
Record ComponentRef := {
  component : Component;
  kind : renderer_kind;
  location : nat;
  instance_field : option nat;
  fieldComponent : option nat;
  observer : option (option nat * list string);
  destroyed : bool;
}.

(** Observers and subscriptions the renderer establishes. *)
Inductive subscription_kind :=
| ObserveHide
| ObserveClassName
| ObserveDeepTemplateOptions
| ObserveDeepFormState
| ObservePath (path : list string)
| ValueChangesSub (control : nat) (pipe : stream)
| HookSub (name : string).

Record Subscription := {
  target : nat;
  what : subscription_kind;
  active : bool;
}.

(** Calls into the host platform and into callbacks, in program order. *)
Inductive event :=
| CreateComponent (container : nat) (c : Component) (ref : nat)
| Clear (container : nat)
| Detach (container : nat) (view : option nat)
| Insert (container : nat) (view : nat)
| DetectChanges (ref : nat)
| SetStyleDisplay (v : string)
| SetAttributeClass (v : string)
| HookCall (name : string) (node : nat)
| OptionsDetectChanges (node : nat)
| Unsubscribe (sub : nat).

#[global] Instance event_eq_dec : EqDecision event.
Proof. solve_decision. Defined.

(** What is sent on [options.fieldChanges]. *)
Record FormlyValueChangeEvent := {
  ev_value : jsval;
  ev_field : nat;
  ev_type : string;
}.

(** The state: the fields of the [FormlyField] instance ([this]), the
    arenas, the trace of host calls and the shared [options.fieldChanges]
    channel. *)
Record State := {
  field : option nat;
  containerRef : nat;
  hostObservers : list nat;
  componentRefs : list nat;
  hooksObservers : list nat;
  valueChangesUnsubscribe : list nat;
  nodes : list FormlyFieldConfigCache;
  controls : list AbstractControl;
  refs : list ComponentRef;
  containers : list (list nat);
  subscriptions : list Subscription;
  trace : list event;
  fieldChangesChannel : list FormlyValueChangeEvent;
}.

(** *** Field updates *)

Definition set_field (v : option nat) (st : State) : State :=
  {| field := v; containerRef := containerRef st;
     hostObservers := hostObservers st; componentRefs := componentRefs st;
     hooksObservers := hooksObservers st;
     valueChangesUnsubscribe := valueChangesUnsubscribe st;
     nodes := nodes st; controls := controls st; refs := refs st;
     containers := containers st; subscriptions := subscriptions st;
     trace := trace st; fieldChangesChannel := fieldChangesChannel st |}.

Definition set_hostObservers (v : list nat) (st : State) : State :=
  {| field := field st; containerRef := containerRef st;
     hostObservers := v; componentRefs := componentRefs st;
     hooksObservers := hooksObservers st;
     valueChangesUnsubscribe := valueChangesUnsubscribe st;
     nodes := nodes st; controls := controls st; refs := refs st;
     containers := containers st; subscriptions := subscriptions st;
     trace := trace st; fieldChangesChannel := fieldChangesChannel st |}.

Definition set_componentRefs (v : list nat) (st : State) : State :=
  {| field := field st; containerRef := containerRef st;
     hostObservers := hostObservers st; componentRefs := v;
     hooksObservers := hooksObservers st;
     valueChangesUnsubscribe := valueChangesUnsubscribe st;
     nodes := nodes st; controls := controls st; refs := refs st;
     containers := containers st; subscriptions := subscriptions st;
     trace := trace st; fieldChangesChannel := fieldChangesChannel st |}.

Definition set_hooksObservers (v : list nat) (st : State) : State :=
  {| field := field st; containerRef := containerRef st;
     hostObservers := hostObservers st; componentRefs := componentRefs st;
     hooksObservers := v;
     valueChangesUnsubscribe := valueChangesUnsubscribe st;
     nodes := nodes st; controls := controls st; refs := refs st;
     containers := containers st; subscriptions := subscriptions st;
     trace := trace st; fieldChangesChannel := fieldChangesChannel st |}.

Definition set_valueChangesUnsubscribe (v : list nat) (st : State) : State :=
  {| field := field st; containerRef := containerRef st;
     hostObservers := hostObservers st; componentRefs := componentRefs st;
     hooksObservers := hooksObservers st;
     valueChangesUnsubscribe := v;
     nodes := nodes st; controls := controls st; refs := refs st;
     containers := containers st; subscriptions := subscriptions st;
     trace := trace st; fieldChangesChannel := fieldChangesChannel st |}.

Definition set_nodes (v : list FormlyFieldConfigCache) (st : State) : State :=
  {| field := field st; containerRef := containerRef st;
     hostObservers := hostObservers st; componentRefs := componentRefs st;
     hooksObservers := hooksObservers st;
     valueChangesUnsubscribe := valueChangesUnsubscribe st;
     nodes := v; controls := controls st; refs := refs st;
     containers := containers st; subscriptions := subscriptions st;
     trace := trace st; fieldChangesChannel := fieldChangesChannel st |}.

Definition set_controls (v : list AbstractControl) (st : State) : State :=
  {| field := field st; containerRef := containerRef st;
     hostObservers := hostObservers st; componentRefs := componentRefs st;
     hooksObservers := hooksObservers st;
     valueChangesUnsubscribe := valueChangesUnsubscribe st;
     nodes := nodes st; controls := v; refs := refs st;
     containers := containers st; subscriptions := subscriptions st;
     trace := trace st; fieldChangesChannel := fieldChangesChannel st |}.

Definition set_refs (v : list ComponentRef) (st : State) : State :=
  {| field := field st; containerRef := containerRef st;
     hostObservers := hostObservers st; componentRefs := componentRefs st;
     hooksObservers := hooksObservers st;
     valueChangesUnsubscribe := valueChangesUnsubscribe st;
     nodes := nodes st; controls := controls st; refs := v;
     containers := containers st; subscriptions := subscriptions st;
     trace := trace st; fieldChangesChannel := fieldChangesChannel st |}.

Definition set_containers (v : list (list nat)) (st : State) : State :=
  {| field := field st; containerRef := containerRef st;
     hostObservers := hostObservers st; componentRefs := componentRefs st;
     hooksObservers := hooksObservers st;
     valueChangesUnsubscribe := valueChangesUnsubscribe st;
     nodes := nodes st; controls := controls st; refs := refs st;
     containers := v; subscriptions := subscriptions st;
     trace := trace st; fieldChangesChannel := fieldChangesChannel st |}.

Definition set_subscriptions (v : list Subscription) (st : State) : State :=
  {| field := field st; containerRef := containerRef st;
     hostObservers := hostObservers st; componentRefs := componentRefs st;
     hooksObservers := hooksObservers st;
     valueChangesUnsubscribe := valueChangesUnsubscribe st;
     nodes := nodes st; controls := controls st; refs := refs st;
     containers := containers st; subscriptions := v;
     trace := trace st; fieldChangesChannel := fieldChangesChannel st |}.

Definition set_trace (v : list event) (st : State) : State :=
  {| field := field st; containerRef := containerRef st;
     hostObservers := hostObservers st; componentRefs := componentRefs st;
     hooksObservers := hooksObservers st;
     valueChangesUnsubscribe := valueChangesUnsubscribe st;
     nodes := nodes st; controls := controls st; refs := refs st;
     containers := containers st; subscriptions := subscriptions st;
     trace := v; fieldChangesChannel := fieldChangesChannel st |}.

Definition set_fieldChangesChannel (v : list FormlyValueChangeEvent)
    (st : State) : State :=
  {| field := field st; containerRef := containerRef st;
     hostObservers := hostObservers st; componentRefs := componentRefs st;
     hooksObservers := hooksObservers st;
     valueChangesUnsubscribe := valueChangesUnsubscribe st;
     nodes := nodes st; controls := controls st; refs := refs st;
     containers := containers st; subscriptions := subscriptions st;
     trace := trace st; fieldChangesChannel := v |}.

Definition set__componentRefs (v : option (list nat))
    (f : FormlyFieldConfigCache) : FormlyFieldConfigCache :=
  {| key := key f; type := type f; wrappers := wrappers f;
     fieldGroup := fieldGroup f; hide := hide f; className := className f;
     modelOptions := modelOptions f; parsers := parsers f; hooks := hooks f;
     formControl := formControl f; model := model f; _componentRefs := v |}.

Definition set_model (v : gmap string jsval)
    (f : FormlyFieldConfigCache) : FormlyFieldConfigCache :=
  {| key := key f; type := type f; wrappers := wrappers f;
     fieldGroup := fieldGroup f; hide := hide f; className := className f;
     modelOptions := modelOptions f; parsers := parsers f; hooks := hooks f;
     formControl := formControl f; model := v;
     _componentRefs := _componentRefs f |}.

Definition log (e : event) (st : State) : State :=
  set_trace (trace st ++ [e]) st.

(** Reading a property of a field that is [undefined] throws. *)
Definition get_node (n : nat) (st : State) : result FormlyFieldConfigCache :=
  match nodes st !! n with
  | Some f => OK f
  | None => Err TypeError
  end.

Definition set_instance_field (v : option nat) (r : ComponentRef) : ComponentRef :=
  {| component := component r; kind := kind r; location := location r;
     instance_field := v; fieldComponent := fieldComponent r;
     observer := observer r; destroyed := destroyed r |}.

Definition set_fieldComponent_prop (v : option nat) (r : ComponentRef) : ComponentRef :=
  {| component := component r; kind := kind r; location := location r;
     instance_field := instance_field r; fieldComponent := v;
     observer := observer r; destroyed := destroyed r |}.

Definition set_observer (v : option (option nat * list string))
    (r : ComponentRef) : ComponentRef :=
  {| component := component r; kind := kind r; location := location r;
     instance_field := instance_field r; fieldComponent := fieldComponent r;
     observer := v; destroyed := destroyed r |}.

Definition set_destroyed (v : bool) (r : ComponentRef) : ComponentRef :=
  {| component := component r; kind := kind r; location := location r;
     instance_field := instance_field r; fieldComponent := fieldComponent r;
     observer := observer r; destroyed := v |}.

Definition set_active (v : bool) (s : Subscription) : Subscription :=
  {| target := target s; what := what s; active := v |}.

Definition set_value (v : jsval) (c : AbstractControl) : AbstractControl :=
  {| value := v; isFormControl := isFormControl c; _fields := _fields c |}.

(** ** The host platform

    [ViewContainerRef] and [ComponentRef] belong to the host platform (§6 of
    the specification: instantiate, clear, detach, insert, request change
    detection).  A container holds its views in order; the host view of a
    component is named by the index of its [ComponentRef]. *)

Definition views (c : nat) (st : State) : list nat :=
  default [] (containers st !! c).

Section Renderer.

(** [this.config], the registry. *)
Variable config : FormlyConfig.

(** Whether the host resolves the [fieldComponent] view query of a wrapper
    component while it creates the component (a static query) or leaves it
    [undefined] until a later change detection. *)
Variable static_query : Component → bool.

(** [containerRef.createComponent(factory)]: a fresh [ComponentRef] whose
    host view is appended to the container. *)
Definition createComponent (c : nat) (comp : Component) (k : renderer_kind)
    (st : State) : State * nat :=
  let ref := length (refs st) in
  let static :=
    match k with
    | WrapperRenderer => static_query comp
    | TypeRenderer => false
    end in
  let r := {| component := comp; kind := k; location := c;
              instance_field := None;
              fieldComponent :=
                if static then Some (length (containers st)) else None;
              observer := None; destroyed := false |} in
  let cs := alter (λ vs, vs ++ [ref]) c (containers st) in
  (log (CreateComponent c comp ref)
     (set_containers (cs ++ if static then [[]] else [])
        (set_refs (refs st ++ [r]) st)),
   ref).

(** [containerRef.clear()]: destroys every view of the container. *)
Definition clear (c : nat) (st : State) : State :=
  log (Clear c)
    (set_containers (<[c := []]> (containers st))
       (set_refs (foldr (alter (set_destroyed true)) (refs st) (views c st)) st)).

(** [containerRef.detach()]: takes the last view out of the container, or
    returns [null] when the container is empty. *)
Definition detach (c : nat) (st : State) : State * option nat :=
  match last (views c st) with
  | Some v =>
      (log (Detach c (Some v))
         (set_containers (<[c := removelast (views c st)]> (containers st)) st),
       Some v)
  | None => (log (Detach c None) st, None)
  end.

(** [containerRef.insert(viewRef)]. *)
Definition insert_view (c v : nat) (st : State) : State :=
  log (Insert c v)
    (set_containers (alter (λ vs, vs ++ [v]) c (containers st)) st).

(** [viewRef.destroyed]. *)
Definition view_destroyed (v : nat) (st : State) : bool :=
  match refs st !! v with
  | Some r => destroyed r
  | None => false
  end.

(** ** Tracking component references *)

(** [attachComponentRef(ref, field)]. *)
Definition attachComponentRef (ref : nat) (f : option nat) (st : State)
    : result State :=
  let st1 := set_componentRefs (componentRefs st ++ [ref]) st in
  n ← match f with Some n => OK n | None => Err TypeError end;
  fld ← get_node n st1;
  l ← match _componentRefs fld with Some l => OK l | None => Err TypeError end;
  let st2 :=
    set_nodes (<[n := set__componentRefs (Some (l ++ [ref])) fld]> (nodes st1))
      st1 in
  OK (set_refs (alter (set_instance_field f) ref (refs st2)) st2).

(** Modelled from the spec: [defineHiddenProp] of ../utils, which attaches
    the hidden, non-enumerable property [_componentRefs] to a field; like
    [Object.defineProperty] it throws when the target is not an object. *)
Definition defineHiddenProp__componentRefs (target : option nat)
    (v : list nat) (st : State) : result State :=
  match target with
  | Some m =>
      fld ← get_node m st;
      OK (set_nodes (<[m := set__componentRefs (Some v) fld]> (nodes st)) st)
  | None => Err TypeError
  end.

(** [resetRefs(field)]. *)
Definition resetRefs (f : option nat) (st : State) : result State :=
  st1 ← match f with
        | Some n =>
            fld ← get_node n st;
            match _componentRefs fld with
            | Some l =>
                let l' := filter (λ ref, ref ∉ componentRefs st) l in
                OK (set_nodes
                      (<[n := set__componentRefs (Some l') fld]> (nodes st)) st)
            | None => defineHiddenProp__componentRefs (field st) [] st
            end
        | None => OK st
        end;
  OK (set_componentRefs [] st1).

(** ** Rendering *)

(** The callback [renderField] passes to
    [observe(ref.instance, ['fieldComponent'], ...)]; [render] stands for
    [(c) => this.renderField(c, f, wps)]. *)
Definition fieldComponent_observer (render : nat → State → result State)
    (ref : nat) (currentValue previousValue : option nat) (firstChange : bool)
    (st : State) : result State :=
  match currentValue with
  | Some cur =>
      let '(st1, viewRef) :=
        match previousValue with
        | Some prev => detach prev st
        | None => (st, None)
        end in
      st2 ← match viewRef with
            | Some v =>
                if view_destroyed v st1 then render cur st1
                else OK (insert_view cur v st1)
            | None => render cur st1
            end;
      OK (if firstChange then st2 else log (DetectChanges ref) st2)
  | None => OK st
  end.

(** Lines 75 to 78: on the renderer's own container, forget the tracked
    references and clear the container. *)
Definition reset_own_container (c : nat) (st : State) : result State :=
  if decide (containerRef st = c)
  then st' ← resetRefs (field st) st; OK (clear (containerRef st') st')
  else OK st.

(** Modelled from the spec: [observe] of ../utils on the property
    [fieldComponent] of a wrapper instance.  It keeps the callback (the
    [f] and [wps] its closure captured are recorded in [observer]) and
    calls it once at installation, with [firstChange] set, the current
    value of the property and no previous value; [set_fieldComponent] is
    the setter it installs for the later changes.  The handle it returns
    is dropped by [renderField]. *)
Definition observe_fieldComponent (render : nat → State → result State)
    (ref : nat) (f : option nat) (wps : list string) (st : State)
    : result State :=
  let st' := set_refs (alter (set_observer (Some (f, wps))) ref (refs st)) st in
  fieldComponent_observer render ref
    (match refs st' !! ref with Some r => fieldComponent r | None => None end)
    None true st'.

(** Lines 81 to 97: instantiate the first wrapper and observe its
    [fieldComponent]; [render] stands for
    [(c) => this.renderField(c, f, wps)]. *)
Definition render_wrapper (render : nat → State → result State)
    (c : nat) (f : option nat) (wrapper : string) (wps : list string)
    (st : State) : result State :=
  comp ← match getWrapper config wrapper with
         | Some comp => OK comp
         | None => Err (UnregisteredRendererError wrapper)
         end;
  let '(st1, ref) := createComponent c comp WrapperRenderer st in
  st2 ← attachComponentRef ref f st1;
  observe_fieldComponent render ref f wps st2.

(** Lines 98 to 102: instantiate the field type. *)
Definition render_type (c : nat) (f : option nat) (st : State)
    : result State :=
  match f with
  | Some n =>
      fld ← get_node n st;
      if truthy (type fld) then
        let ty := default EmptyString (type fld) in
        comp ← match getType config ty with
               | Some comp => OK comp
               | None => Err (UnregisteredRendererError ty)
               end;
        let '(st1, ref) := createComponent c comp TypeRenderer st in
        attachComponentRef ref f st1
      else OK st
  | None => OK st
  end.

(** [renderField(containerRef, f, wrappers)].  [wrappers] is the argument
    with [undefined] read as the empty array, which is how the test
    [wrappers && wrappers.length > 0] reads it. *)
Fixpoint renderField (c : nat) (f : option nat) (wrappers : list string)
    (st : State) : result State :=
  st0 ← reset_own_container c st;
  match wrappers with
  | wrapper :: wps =>
      render_wrapper (λ m, renderField m f wps) c f wrapper wps st0
  | [] => render_type c f st0
  end.

(** The argument [this.field ? this.field.wrappers : []] of the call in
    [triggerHook]. *)
Definition wrappers_of (f : option nat) (st : State) : list string :=
  match f with
  | Some n =>
      match nodes st !! n with
      | Some fld => default [] (wrappers fld)
      | None => []
      end
  | None => []
  end.

(** Modelled from the spec: the setter that [observe] of ../utils installs
    on [ref.instance.fieldComponent]: assigning a different value stores
    it and calls the observer with the previous value and [firstChange]
    unset; assigning the same value does nothing. *)
Definition set_fieldComponent (ref : nat) (v : option nat) (st : State)
    : result State :=
  match refs st !! ref with
  | Some r =>
      match observer r with
      | Some (f, wps) =>
          if decide (v = fieldComponent r) then OK st
          else
            fieldComponent_observer (λ m, renderField m f wps) ref v
              (fieldComponent r) false
              (set_refs (alter (set_fieldComponent_prop v) ref (refs st)) st)
      | None =>
          OK (set_refs (alter (set_fieldComponent_prop v) ref (refs st)) st)
      end
  | None => Err TypeError
  end.

(** *** The host resolving view queries

    A wrapper whose [fieldComponent] is still [undefined] gets it from the
    host at a later change detection: a fresh container of the wrapper's
    view is assigned to the property, which runs the observer. *)
Definition resolve_view_query (ref : nat) (st : State) : result State :=
  set_fieldComponent ref (Some (length (containers st)))
    (set_containers (containers st ++ [[]]) st).

(** The component created last, when it is a wrapper that has no
    [fieldComponent] yet. *)
Definition pending_wrapper (st : State) : option nat :=
  match last (refs st) with
  | Some r =>
      match kind r, fieldComponent r with
      | WrapperRenderer, None => Some (pred (length (refs st)))
      | _, _ => None
      end
  | None => None
  end.

(** The host resolving the view query of each pending wrapper in turn. *)
Fixpoint settle (fuel : nat) (st : State) : result State :=
  match fuel with
  | 0 => OK st
  | S k =>
      match pending_wrapper st with
      | Some ref => st' ← resolve_view_query ref st; settle k st'
      | None => OK st
      end
  end.

(** ** Observers and subscriptions *)

(** Modelled from the spec: what [observe] and [observeDeep] of ../utils
    return, and likewise an rxjs subscription: a new entry of the state,
    active until its [unsubscribe] is called; the index is what the
    [unsubscribe] closes over. *)
Definition subscribe (n : nat) (k : subscription_kind) (st : State)
    : State * nat :=
  (set_subscriptions
     (subscriptions st ++ [{| target := n; what := k; active := true |}]) st,
   length (subscriptions st)).

(** [unsubscribe()] of one observer or subscription: it stops being called;
    doing it again changes nothing more. *)
Definition unsubscribe (id : nat) (st : State) : State :=
  log (Unsubscribe id)
    (set_subscriptions (alter (set_active false) id (subscriptions st)) st).

(** [ids.forEach((u) => u())]. *)
Definition unsubscribe_all (ids : list nat) (st : State) : State :=
  foldl (λ s id, unsubscribe id s) st ids.

Definition is_active (id : nat) (st : State) : bool :=
  match subscriptions st !! id with
  | Some s => active s
  | None => false
  end.

(** [renderHostBinding()].  Each [observe] calls its callback at once with
    [firstChange] set, which acts only on a truthy current value. *)
Definition renderHostBinding (st : State) : result State :=
  match field st with
  | None => OK st
  | Some n =>
      let st1 := unsubscribe_all (hostObservers st) st in
      fld ← get_node n st1;
      let '(st2, o1) := subscribe n ObserveHide st1 in
      let st3 :=
        if default false (hide fld) then log (SetStyleDisplay "none") st2
        else st2 in
      let '(st4, o2) := subscribe n ObserveClassName st3 in
      let st5 :=
        if truthy (className fld)
        then log (SetAttributeClass (default EmptyString (className fld))) st4
        else st4 in
      OK (set_hostObservers [o1; o2] st5)
  end.

(** ** The value wiring *)

(** Modelled from the spec: [getFieldValue] of ../utils, the value-read
    accessor: the value stored for the field's key, [undefined] when there
    is none. *)
Definition getFieldValue (fld : FormlyFieldConfigCache) : jsval :=
  match key fld with
  | Some k => default VUndefined (model fld !! k)
  | None => VUndefined
  end.

(** Modelled from the spec: [assignFieldValue] of ../utils, the value-write
    accessor: stores the value for the field's key. *)
Definition assignFieldValue (n : nat) (v : jsval) (st : State) : result State :=
  fld ← get_node n st;
  match key fld with
  | Some k =>
      OK (set_nodes (<[n := set_model (<[k := v]> (model fld)) fld]> (nodes st)) st)
  | None => Err TypeError
  end.

(** [(!updateOn || updateOn === 'change') && debounce && debounce.default > 0],
    with the interval when the test holds. *)
Definition debounce_interval (mo : ModelOptions) : option Z :=
  if negb (truthy (updateOn mo)) || bool_decide (updateOn mo = Some "change"%string)
  then
    d ← debounce mo;
    z ← debounce_default d;
    if (0 <? z)%Z then Some z else None
  else None.

(** The stream [fieldChanges] subscribes to (lines 197 to 206). *)
Definition valueChanges_pipe (fld : FormlyFieldConfigCache)
    (control : AbstractControl) (mo : ModelOptions) : stream :=
  let vc := distinctUntilChanged valueChanges in
  let vc :=
    if bool_decide (value control ≠ getFieldValue fld)
    then startWith (value control) vc
    else vc in
  match debounce_interval mo with
  | Some d => debounceTime d valueChanges
  | None => vc
  end.

(** What a stream emits synchronously when it is subscribed to:
    [control.valueChanges] emits nothing by itself, [startWith] emits its
    value first, [debounceTime] holds everything back for its interval. *)
Fixpoint initial_emissions (s : stream) : list jsval :=
  match s with
  | valueChanges => []
  | distinctUntilChanged s => initial_emissions s
  | startWith v s => v :: initial_emissions s
  | debounceTime _ _ => []
  end.

(** [control.patchValue(value, { emitEvent: false, onlySelf: true })]. *)
Definition patchValue (c : nat) (v : jsval) (st : State) : State :=
  set_controls (alter (set_value v) c (controls st)) st.

(** The subscriber of the value stream (lines 208 to 220). *)
Definition valueChanges_subscriber (n c : nat) (v : jsval) (st : State)
    : result State :=
  control ← match controls st !! c with
            | Some control => OK control
            | None => Err TypeError
            end;
  let st1 :=
    if isFormControl control
       && bool_decide (1 < length (default [] (_fields control)))
    then patchValue c v st
    else st in
  fld ← get_node n st1;
  let v' := foldl (λ v parserFn, parserFn v) v (default [] (parsers fld)) in
  st2 ← assignFieldValue n v' st1;
  OK (set_fieldChangesChannel
        (fieldChangesChannel st2 ++
           [{| ev_value := v'; ev_field := n; ev_type := "valueChanges" |}])
        st2).

(** Delivering emissions to the subscriber, in order. *)
Fixpoint deliver (n c : nat) (vs : list jsval) (st : State) : result State :=
  match vs with
  | [] => OK st
  | v :: vs => st' ← valueChanges_subscriber n c v st; deliver n c vs st'
  end.

(** The three shallow observers of [fieldChanges]; at installation each
    callback runs with [firstChange] set and does nothing. *)
Definition observed_paths : list (list string) :=
  [["template"]; ["fieldGroupClassName"]; ["validation"; "show"]]%string.

Definition observe_paths (n : nat) (paths : list (list string))
    (acc : State * list nat) : State * list nat :=
  foldl (λ '(st, ids) path,
           let '(st', id) := subscribe n (ObservePath path) st in
           (st', ids ++ [id]))
        acc paths.

(** [fieldChanges(field)]: the state and the subscriptions the returned
    closure cancels. *)
Definition fieldChanges (f : option nat) (st : State)
    : result (State * list nat) :=
  let st0 := unsubscribe_all (valueChangesUnsubscribe st) st in
  match f with
  | None => OK (st0, [])
  | Some n =>
      fld ← get_node n st0;
      let '(st1, s1) := subscribe n ObserveDeepTemplateOptions st0 in
      let '(st2, s2) := subscribe n ObserveDeepFormState st1 in
      let '(st3, subscribes) := observe_paths n observed_paths (st2, [s1; s2]) in
      if truthy (key fld) && bool_decide (fieldGroup fld = None) then
        c ← match formControl fld with Some c => OK c | None => Err TypeError end;
        control ← match controls st3 !! c with
                  | Some control => OK control
                  | None => Err TypeError
                  end;
        mo ← match modelOptions fld with Some mo => OK mo | None => Err TypeError end;
        let pipe := valueChanges_pipe fld control mo in
        let '(st4, sub) := subscribe n (ValueChangesSub c pipe) st3 in
        st5 ← deliver n c (initial_emissions pipe) st4;
        OK (st5, subscribes ++ [sub])
      else OK (st3, subscribes)
  end.

(** *** Emissions in time

    The operators over emissions stamped with a logical time.
    [control.valueChanges] never completes, so [debounceTime] emits a value
    once its interval has passed with no newer emission, and always emits
    the last one. *)
Fixpoint distinct_adjacent (prev : option jsval) (evs : list (Z * jsval))
    : list (Z * jsval) :=
  match evs with
  | [] => []
  | (t, v) :: rest =>
      if decide (prev = Some v) then distinct_adjacent prev rest
      else (t, v) :: distinct_adjacent (Some v) rest
  end.

Fixpoint debounced (d : Z) (evs : list (Z * jsval)) : list (Z * jsval) :=
  match evs with
  | [] => []
  | (t, v) :: rest =>
      match rest with
      | [] => [((t + d)%Z, v)]
      | (t', _) :: _ =>
          if (t + d <=? t')%Z then ((t + d)%Z, v) :: debounced d rest
          else debounced d rest
      end
  end.

(** What a subscriber of [s] receives when it subscribes at [t0] and the
    control then emits [source]. *)
Fixpoint emissions (s : stream) (t0 : Z) (source : list (Z * jsval))
    : list (Z * jsval) :=
  match s with
  | valueChanges => source
  | distinctUntilChanged s => distinct_adjacent None (emissions s t0 source)
  | startWith v s => (t0, v) :: emissions s t0 source
  | debounceTime d s => debounced d (emissions s t0 source)
  end.


(** ** The hook dispatcher *)

(** [changes.field] of a [SimpleChanges]. *)
Record SimpleChange := {
  previousValue : option nat;
  firstChange : bool;
}.

(** The test of line 106: [name === 'onInit' || (name === 'onChanges' &&
    changes.field && !changes.field.firstChange)].  [changes] is [None]
    when the argument is left out, [Some None] for a [SimpleChanges]
    without [field]. *)
Definition resynchronizes (name : string)
    (changes : option (option SimpleChange)) : result bool :=
  if bool_decide (name = "onInit"%string) then OK true
  else if bool_decide (name = "onChanges"%string) then
    match changes with
    | Some (Some ch) => OK (negb (firstChange ch))
    | Some None => OK false
    | None => Err TypeError
    end
  else OK false.

(** [!changes || changes.field]. *)
Definition no_changes_or_field (changes : option (option SimpleChange)) : bool :=
  match changes with
  | Some None => false
  | _ => true
  end.

(** [this.field.hooks && this.field.hooks[name]]. *)
Definition hook_of (n : nat) (name : string) (st : State) : option hook :=
  match nodes st !! n with
  | Some fld =>
      match hooks fld with
      | Some hs => hs !! name
      | None => None
      end
  | None => None
  end.

(** Lines 110 to 118: the field's hook callback for [name].  A hook
    callback is user code: its call is recorded in the trace, and what it
    returns is given by the field's [hooks]. *)
Definition call_hook (name : string) (changes : option (option SimpleChange))
    (st : State) : State :=
  match field st with
  | Some n =>
      match hook_of n name st with
      | Some h =>
          if no_changes_or_field changes then
            let st' := log (HookCall name n) st in
            match h with
            | ReturnsObservable =>
                if bool_decide
                     (name ∈ ["onInit"; "afterContentInit"; "afterViewInit"]%string)
                then
                  let '(st'', sub) := subscribe n (HookSub name) st' in
                  set_hooksObservers (hooksObservers st'' ++ [sub]) st''
                else st'
            | ReturnsPlain => st'
            end
          else st
      | None => st
      end
  | None => st
  end.

(** Lines 106 to 108: the value wiring is established again. *)
Definition resync (name : string) (changes : option (option SimpleChange))
    (st : State) : result State :=
  again ← resynchronizes name changes;
  if again : bool then
    r ← fieldChanges (field st) st;
    OK (set_valueChangesUnsubscribe r.2 r.1)
  else OK st.

(** Lines 120 to 124: on a change of [field], the host bindings, the
    tracked references of the previous field, and the rendering. *)
Definition rerender (name : string) (changes : option (option SimpleChange))
    (st : State) : result State :=
  if bool_decide (name = "onChanges"%string) then
    match changes with
    | Some (Some ch) =>
        st1 ← renderHostBinding st;
        st2 ← resetRefs (previousValue ch) st1;
        renderField (containerRef st2) (field st2)
          (wrappers_of (field st2) st2) st2
    | Some None => OK st
    | None => Err TypeError
    end
  else OK st.

(** [triggerHook(name, changes)]. *)
Definition triggerHook (name : string) (changes : option (option SimpleChange))
    (st : State) : result State :=
  st1 ← resync name changes st;
  rerender name changes (call_hook name changes st1).

Definition ngAfterContentInit := triggerHook "afterContentInit" None.
Definition ngAfterViewInit := triggerHook "afterViewInit" None.
Definition ngOnInit := triggerHook "onInit" None.
Definition ngOnChanges (changes : option SimpleChange) :=
  triggerHook "onChanges" (Some changes).

(** [ngOnDestroy()]. *)
Definition ngOnDestroy (st : State) : result State :=
  st1 ← resetRefs (field st) st;
  let st2 := unsubscribe_all (hostObservers st1) st1 in
  let st3 := unsubscribe_all (hooksObservers st2) st2 in
  let st4 := unsubscribe_all (valueChangesUnsubscribe st3) st3 in
  triggerHook "onDestroy" None st4.

(** ** Vocabulary of the properties *)

(** The references tracked against a field: [field._componentRefs]. *)
Definition tracked (n : nat) (st : State) : option (list nat) :=
  match nodes st !! n with
  | Some fld => _componentRefs fld
  | None => None
  end.

(** The [createComponent] calls of a trace, in order. *)
Definition creations (t : list event) : list (nat * Component * nat) :=
  omap (λ e, match e with
             | CreateComponent c comp ref => Some (c, comp, ref)
             | _ => None
             end) t.

(** The references from [base] on, each with the container it was created
    in and its component. *)
Definition created_since (base : nat) (st : State)
    : list (nat * Component * nat) :=
  omap (λ h, match refs st !! h with
             | Some r => Some (location r, component r, h)
             | None => None
             end)
       (seq base (length (refs st) - base)).

(** [this.field], when set, is a field of the heap; the renderer's own
    container exists. *)
Definition well_formed (st : State) : Prop :=
  match field st with
  | Some m => is_Some (nodes st !! m)
  | None => True
  end ∧ containerRef st < length (containers st).

(** The part of [renderField] after the reset of the own container. *)
Definition render_rest (c : nat) (f : option nat) (wrappers : list string)
    (st : State) : result State :=
  match wrappers with
  | wrapper :: wps =>
      render_wrapper (λ m, renderField m f wps) c f wrapper wps st
  | [] => render_type c f st
  end.

(** The state once a component [comp] has been created in [c] and attached
    to the field [n], whose record is [fld] and tracked list [l]. *)
Definition component_attached (k : renderer_kind) (c n : nat)
    (comp : Component) (inner : option nat)
    (obs : option (option nat * list string))
    (fld : FormlyFieldConfigCache) (l : list nat) (st : State) : State :=
  let h := length (refs st) in
  set_refs
    (refs st ++
       [{| component := comp; kind := k; location := c;
           instance_field := Some n; fieldComponent := inner;
           observer := obs; destroyed := false |}])
    (set_nodes (<[n := set__componentRefs (Some (l ++ [h])) fld]> (nodes st))
       (set_componentRefs (componentRefs st ++ [h])
          (set_trace (trace st ++ [CreateComponent c comp h])
             (set_containers
                (alter (λ vs, vs ++ [h]) c (containers st) ++
                   match inner with Some _ => [[]] | None => [] end)
                st)))).

(** A chain of wrappers from container [c] and reference [h] on: each
    wrapper sits in the inner container of the one before it, and the field
    type, when there is one, in the inner container of the last. *)
Fixpoint wrapper_chain (st : State) (c h : nat) (comps : list Component)
    (leaf : option Component) : Prop :=
  match comps with
  | comp :: rest =>
      ∃ r m, refs st !! h = Some r ∧ component r = comp ∧
             kind r = WrapperRenderer ∧ location r = c ∧
             fieldComponent r = Some m ∧
             wrapper_chain st m (S h) rest leaf
  | [] =>
      match leaf with
      | Some comp =>
          ∃ r, refs st !! h = Some r ∧ component r = comp ∧
               kind r = TypeRenderer ∧ location r = c
      | None => True
      end
  end.

(** The component of the field type of a field, when its [type] is set. *)
Definition type_component (fld : FormlyFieldConfigCache) : option Component :=
  if truthy (type fld) then getType config (default EmptyString (type fld))
  else None.


(** *** The example of the specification

    A field [{type: "input", key: "name"}] whose model holds ["Ali"], a
    control holding ["Al"], and the parser [(v) => v.trim()]. *)
Definition is_space (a : ascii) : bool :=
  bool_decide (a = " "%char) || bool_decide (a = "009"%char) ||
  bool_decide (a = "010"%char) || bool_decide (a = "013"%char).

Fixpoint trim_start (s : list ascii) : list ascii :=
  match s with
  | a :: s' => if is_space a then trim_start s' else s
  | [] => []
  end.

Definition trim (s : string) : string :=
  String.string_of_list_ascii
    (rev (trim_start (rev (trim_start (String.list_ascii_of_string s))))).

Definition trim_parser (v : jsval) : jsval :=
  match v with
  | VStr s => VStr (trim s)
  | _ => v
  end.

Definition example_field : FormlyFieldConfigCache :=
  {| key := Some "name"%string; type := Some "input"%string;
     wrappers := None; fieldGroup := None; hide := None; className := None;
     modelOptions := Some {| updateOn := None; debounce := None |};
     parsers := Some [trim_parser]; hooks := None; formControl := Some 0;
     model := {[ "name"%string := VStr "Ali" ]}; _componentRefs := None |}.

Definition example_state : State :=
  {| field := Some 0; containerRef := 0; hostObservers := [];
     componentRefs := []; hooksObservers := []; valueChangesUnsubscribe := [];
     nodes := [example_field];
     controls := [{| value := VStr "Al"; isFormControl := true;
                     _fields := None |}];
     refs := []; containers := [[]]; subscriptions := []; trace := [];
     fieldChangesChannel := [] |}.

(** The example field with a debounce of 300 configured. *)
Definition debounced_field : FormlyFieldConfigCache :=
  {| key := Some "name"%string; type := Some "input"%string;
     wrappers := None; fieldGroup := None; hide := None; className := None;
     modelOptions :=
       Some {| updateOn := Some "change"%string;
               debounce := Some {| debounce_default := Some 300%Z |} |};
     parsers := Some [trim_parser]; hooks := None; formControl := Some 0;
     model := {[ "name"%string := VStr "Ali" ]}; _componentRefs := None |}.


(** The field has a type: [f && f.type]. *)
Definition typed (f : option nat) (st : State) : Prop :=
  ∃ n fld, f = Some n ∧ nodes st !! n = Some fld ∧ truthy (type fld) = true.

(** [previousValue ? previousValue.detach() : null]. *)
Definition detach_previous (previous : option nat) (st : State)
    : State * option nat :=
  match previous with
  | Some prev => detach prev st
  | None => (st, None)
  end.

(** What a completed rendering of the wrappers [comps] and the field type
    [leaf] from container [c] leaves behind. *)
Record chain_result (c : nat) (comps : list Component)
    (leaf : option Component) (st st' : State) : Prop := {
  cr_length :
    length (refs st') =
      length (refs st) + length comps +
        match leaf with Some _ => 1 | None => 0 end;
  cr_prefix : ∀ i, i < length (refs st) → refs st' !! i = refs st !! i;
  cr_chain : wrapper_chain st' c (length (refs st)) comps leaf;
  cr_creations :
    creations (trace st') =
      creations (trace st) ++ created_since (length (refs st)) st';
  cr_pending : pending_wrapper st' = None;
}.

(** *** The life of a renderer *)

(** A renderer as its constructor leaves it: the [field] input not yet
    set, nothing observed, nothing tracked. *)
Definition constructed (st : State) : Prop :=
  well_formed st ∧ field st = None ∧ subscriptions st = [] ∧
  hostObservers st = [] ∧ hooksObservers st = [] ∧
  valueChangesUnsubscribe st = [] ∧ componentRefs st = [].

(** What can happen to a renderer: the host changes the [field] input and
    calls the lifecycle methods, resolves a view query or assigns a
    wrapper's [fieldComponent], and a subscribed control emits a value. *)
Inductive lifecycle : State → State → Prop :=
| lifecycle_changes st f first st' :
    (∀ m, f = Some m → is_Some (nodes st !! m)) →
    ngOnChanges (Some {| previousValue := field st; firstChange := first |})
      (set_field f st) = OK st' →
    lifecycle st st'
| lifecycle_init st st' : ngOnInit st = OK st' → lifecycle st st'
| lifecycle_content st st' : ngAfterContentInit st = OK st' → lifecycle st st'
| lifecycle_view st st' : ngAfterViewInit st = OK st' → lifecycle st st'
| lifecycle_destroy st st' : ngOnDestroy st = OK st' → lifecycle st st'
| lifecycle_query st ref st' :
    resolve_view_query ref st = OK st' → lifecycle st st'
| lifecycle_inner st ref v st' :
    set_fieldComponent ref v st = OK st' → lifecycle st st'
| lifecycle_value st i n c pipe v st' :
    subscriptions st !! i =
      Some {| target := n; what := ValueChangesSub c pipe; active := true |} →
    valueChanges_subscriber n c v st = OK st' →
    lifecycle st st'.

Definition reachable (st : State) : Prop :=
  ∃ st0, constructed st0 ∧ rtc lifecycle st0 st.

(** Every active one of the subscriptions [subs] has its index in [held]. *)
Definition held_in (held : list nat) (subs : list Subscription) : Prop :=
  ∀ i sub, subs !! i = Some sub → active sub = true → i ∈ held.

(** Every observer or subscription that is still active is one the
    renderer holds the cancellation of. *)
Definition observers_held (st : State) : Prop :=
  held_in (hostObservers st ++ hooksObservers st ++ valueChangesUnsubscribe st)
    (subscriptions st).

(** The call of the [onDestroy] hook, when the field has one. *)
Definition onDestroy_call (st : State) : list event :=
  match field st with
  | Some n =>
      match hook_of n "onDestroy" st with
      | Some _ => [HookCall "onDestroy" n]
      | None => []
      end
  | None => []
  end.

(** A step that leaves the observers and what holds them alone. *)
Record keeps_observers (st st' : State) : Prop := {
  ko_field : field st' = field st;
  ko_containerRef : containerRef st' = containerRef st;
  ko_hostObservers : hostObservers st' = hostObservers st;
  ko_hooksObservers : hooksObservers st' = hooksObservers st;
  ko_unsubscribe : valueChangesUnsubscribe st' = valueChangesUnsubscribe st;
  ko_subscriptions : subscriptions st' = subscriptions st;
  ko_nodes : ∀ m, is_Some (nodes st !! m) → is_Some (nodes st' !! m);
  ko_tracked : ∀ m, is_Some (tracked m st) → is_Some (tracked m st');
  ko_containers : length (containers st) ≤ length (containers st');
}.

(** The field of the renderer, when set, has its list of tracked
    references. *)
Definition field_tracked (st : State) : Prop :=
  ∀ p, field st = Some p → is_Some (tracked p st).

(** What holds of a renderer through its whole life. *)
Definition renderer_invariant (st : State) : Prop :=
  well_formed st ∧ observers_held st ∧ field_tracked st.

(** What the reset of the own container leaves alone. *)
Record reset_frame (c : nat) (st st0 : State) : Prop := {
  rf_field : field st0 = field st;
  rf_containerRef : containerRef st0 = containerRef st;
  rf_hostObservers : hostObservers st0 = hostObservers st;
  rf_hooksObservers : hooksObservers st0 = hooksObservers st;
  rf_unsubscribe : valueChangesUnsubscribe st0 = valueChangesUnsubscribe st;
  rf_controls : controls st0 = controls st;
  rf_subscriptions : subscriptions st0 = subscriptions st;
  rf_channel : fieldChangesChannel st0 = fieldChangesChannel st;
  rf_componentRefs :
    componentRefs st0 =
      if decide (containerRef st = c) then [] else componentRefs st;
  rf_refs_length : length (refs st0) = length (refs st);
  rf_refs : ∀ h,
    refs st0 !! h =
      (if bool_decide (containerRef st = c ∧ h ∈ views c st)
       then set_destroyed true else id) <$> refs st !! h;
  rf_containers_length : length (containers st0) = length (containers st);
  rf_creations : creations (trace st0) = creations (trace st);
  rf_trace :
    trace st0 =
      trace st ++ if decide (containerRef st = c) then [Clear c] else [];
  rf_nodes : ∀ n fld,
    nodes st !! n = Some fld →
    nodes st0 !! n =
      Some (set__componentRefs
              (if bool_decide (containerRef st = c ∧ field st = Some n)
               then Some (filter (λ ref, ref ∉ componentRefs st)
                            (default [] (_componentRefs fld)))
               else _componentRefs fld)
              fld);
}.

(** Rendering for the field [f] outside the renderer's own container only
    adds: new references [new], each tracked by the renderer and by the
    field in creation order and each created by one [createComponent] call;
    everything that existed stays as it was. *)
Record render_frame (f : option nat) (st st' : State) (new : list ComponentRef)
    : Prop := {
  gf_field : field st' = field st;
  gf_containerRef : containerRef st' = containerRef st;
  gf_hostObservers : hostObservers st' = hostObservers st;
  gf_hooksObservers : hooksObservers st' = hooksObservers st;
  gf_unsubscribe : valueChangesUnsubscribe st' = valueChangesUnsubscribe st;
  gf_controls : controls st' = controls st;
  gf_subscriptions : subscriptions st' = subscriptions st;
  gf_channel : fieldChangesChannel st' = fieldChangesChannel st;
  gf_containers : length (containers st) ≤ length (containers st');
  gf_refs : refs st' = refs st ++ new;
  gf_componentRefs :
    componentRefs st' = componentRefs st ++ seq (length (refs st)) (length new);
  gf_creations :
    creations (trace st') =
      creations (trace st) ++
        imap (λ i r, (location r, component r, length (refs st) + i)) new;
  gf_trace : ∃ es, trace st' = trace st ++ es;
  gf_nodes : ∀ n fld,
    nodes st !! n = Some fld →
    nodes st' !! n =
      Some (if decide (f = Some n)
            then set__componentRefs
                   ((λ l, l ++ seq (length (refs st)) (length new))
                      <$> _componentRefs fld) fld
            else fld);
}.

End Renderer.

(** *** Examples

    A registry with one field type and two wrappers, a host that resolves
    the view query of the panel wrapper at creation and that of the other
    wrapper later, and the example field wrapped twice. *)
Definition example_config : FormlyConfig :=
  {| getType := λ name,
       if bool_decide (name = "input"%string)
       then Some "FormlyFieldInput"%string else None;
     getWrapper := λ name,
       if bool_decide (name = "panel"%string)
       then Some "PanelWrapper"%string
       else if bool_decide (name = "form-field"%string)
            then Some "FormFieldWrapper"%string else None |}.

Definition panel_is_static (comp : Component) : bool :=
  bool_decide (comp = "PanelWrapper"%string).

Definition wrapped_field : FormlyFieldConfigCache :=
  {| key := Some "name"%string; type := Some "input"%string;
     wrappers := Some ["panel"; "form-field"]%string;
     fieldGroup := None; hide := Some true;
     className := Some "col-6"%string;
     modelOptions := Some {| updateOn := None; debounce := None |};
     parsers := None;
     hooks := Some {[ "onDestroy"%string := ReturnsPlain;
                      "onInit"%string := ReturnsObservable ]};
     formControl := Some 0;
     model := {[ "name"%string := VStr "Ali" ]}; _componentRefs := None |}.

Definition wrapped_state : State := set_nodes [wrapped_field] example_state.

(** The renderer of [wrapped_field] after its first [ngOnChanges] and the
    host's resolution of the pending view query. *)
Definition rendered_state : State := Eval vm_compute in
  match
    st ← ngOnChanges example_config panel_is_static
           (Some {| previousValue := None; firstChange := true |})
           wrapped_state;
    st ← ngOnInit example_config panel_is_static st;
    settle example_config panel_is_static 2 st
  with
  | OK st => st
  | Err _ => wrapped_state
  end.


(** [rendered_state] with one more container, free to become the inner
    container of a wrapper. *)
Definition relocatable_state : State := Eval vm_compute in
  set_containers (containers rendered_state ++ [[]]) rendered_state.

(** [rendered_state] after [renderField] has run again on the own
    container. *)
Definition rerendered_state : State := Eval vm_compute in
  match
    renderField example_config panel_is_static 0 (Some 0)
      ["panel"; "form-field"]%string rendered_state
  with
  | OK st => st
  | Err _ => rendered_state
  end.

(** The field of [rendered_state], with its tracked references. *)
Definition rendered_field : FormlyFieldConfigCache := Eval vm_compute in
  default wrapped_field (nodes rendered_state !! 0).


(** [rendered_state] once the host has put a second field, without
    wrappers, in the place of the first. *)
Definition swapped_state : State := Eval vm_compute in
  set_field (Some 1)
    (set_nodes (nodes rendered_state ++ [example_field]) rendered_state).


(** [wrapped_state] after its first [ngOnChanges] alone. *)
Definition first_rendered_state : State := Eval vm_compute in
  match
    ngOnChanges example_config panel_is_static
      (Some {| previousValue := None; firstChange := true |}) wrapped_state
  with
  | OK st => st
  | Err _ => wrapped_state
  end.

(** [rendered_state] after a second [ngOnInit]. *)
Definition reinit_state : State := Eval vm_compute in
  match ngOnInit example_config panel_is_static rendered_state with
  | OK st => st
  | Err _ => rendered_state
  end.

(** [rendered_state] after [fieldChanges] has run again for its field. *)
Definition rewired_state : State := Eval vm_compute in
  match fieldChanges (Some 0) rendered_state with
  | OK r => r.1
  | Err _ => rendered_state
  end.

(** A field group: it has a key, and a [fieldGroup] in place of a control
    of its own. *)
Definition group_field : FormlyFieldConfigCache :=
  {| key := Some "address"%string; type := None; wrappers := None;
     fieldGroup := Some []; hide := None; className := None;
     modelOptions := None; parsers := None; hooks := None;
     formControl := None; model := ∅; _componentRefs := None |}.

Definition group_state : State := set_nodes [group_field] example_state.

(** The example field without its control. *)
Definition uncontrolled_field : FormlyFieldConfigCache :=
  {| key := Some "name"%string; type := Some "input"%string;
     wrappers := None; fieldGroup := None; hide := None; className := None;
     modelOptions := Some {| updateOn := None; debounce := None |};
     parsers := None; hooks := None; formControl := None;
     model := {[ "name"%string := VStr "Ali" ]}; _componentRefs := None |}.

Definition uncontrolled_state : State :=
  set_nodes [uncontrolled_field] example_state.

(** The wrapped example with its control bound to two fields. *)
Definition shared_state : State :=
  set_controls
    [{| value := VStr "Al"; isFormControl := true; _fields := Some [0; 1] |}]
    wrapped_state.

Section Properties.

Variable config : FormlyConfig.
Variable static_query : Component → bool.

Local Abbreviation createComponent := (createComponent static_query).
Local Abbreviation render_wrapper := (render_wrapper config static_query).
Local Abbreviation render_type := (render_type config static_query).
Local Abbreviation renderField := (renderField config static_query).
Local Abbreviation render_rest := (render_rest config static_query).
Local Abbreviation set_fieldComponent := (set_fieldComponent config static_query).
Local Abbreviation resolve_view_query := (resolve_view_query config static_query).
Local Abbreviation settle := (settle config static_query).
Local Abbreviation rerender := (rerender config static_query).
Local Abbreviation triggerHook := (triggerHook config static_query).
Local Abbreviation ngOnInit := (ngOnInit config static_query).
Local Abbreviation ngOnChanges := (ngOnChanges config static_query).
Local Abbreviation ngAfterContentInit := (ngAfterContentInit config static_query).
Local Abbreviation ngAfterViewInit := (ngAfterViewInit config static_query).
Local Abbreviation ngOnDestroy := (ngOnDestroy config static_query).
Local Abbreviation type_component := (type_component config).
Local Abbreviation lifecycle := (lifecycle config static_query).
Local Abbreviation reachable := (reachable config static_query).

(** ** Basic facts *)

Lemma bind_OK {A B} (a : A) (k : A → result B) : (OK a ≫= k) = k a.
Proof. reflexivity. Qed.

Lemma bind_inv {A B} (m : result A) (k : A → result B) b :
  m ≫= k = OK b → ∃ a, m = OK a ∧ k a = OK b.
Proof. destruct m; [eauto | discriminate]. Qed.

Lemma bind_ret {A} (m : result A) : (m ≫= λ a, OK a) = m.
Proof. by destruct m. Qed.

Lemma bind_assoc {A B C} (m : result A) (k : A → result B) (k' : B → result C) :
  (m ≫= k) ≫= k' = m ≫= (λ a, k a ≫= k').
Proof. by destruct m. Qed.

Lemma creations_app t1 t2 : creations (t1 ++ t2) = creations t1 ++ creations t2.
Proof. apply omap_app. Qed.

Lemma alter_snoc {A} (g : A → A) (l : list A) (x : A) :
  alter g (length l) (l ++ [x]) = l ++ [g x].
Proof.
  replace (length l) with (length l + 0) by lia.
  by rewrite alter_app_r.
Qed.

Lemma renderField_eq c f ws st :
  renderField c f ws st = reset_own_container c st ≫= render_rest c f ws.
Proof. by destruct ws. Qed.

Lemma reset_own_container_other c st :
  containerRef st ≠ c → reset_own_container c st = OK st.
Proof. intros H. unfold reset_own_container. by destruct (decide _). Qed.

Lemma renderField_other c f ws st :
  containerRef st ≠ c → renderField c f ws st = render_rest c f ws st.
Proof.
  intros H. by rewrite renderField_eq, reset_own_container_other.
Qed.

(** The first wrapper, step by step. *)
Lemma render_wrapper_eq render c n w wps st comp fld l :
  getWrapper config w = Some comp →
  nodes st !! n = Some fld →
  _componentRefs fld = Some l →
  render_wrapper render c (Some n) w wps st =
    if static_query comp then
      render (length (containers st))
        (component_attached WrapperRenderer c n comp
           (Some (length (containers st))) (Some (Some n, wps)) fld l st)
    else
      OK (component_attached WrapperRenderer c n comp None
            (Some (Some n, wps)) fld l st).
Proof.
  intros Hw Hn Hl. unfold render_wrapper. rewrite Hw. simpl.
  unfold attachComponentRef, get_node. simpl. rewrite Hn. simpl.
  rewrite Hl. simpl. unfold observe_fieldComponent. simpl.
  rewrite !alter_snoc. simpl.
  rewrite lookup_app_r by (simpl; lia).
  rewrite Nat.sub_diag. simpl.
  unfold component_attached.
  destruct (static_query comp); simpl; [|done].
  by rewrite bind_ret.
Qed.

(** The first wrapper fails exactly when the registry does not know it or
    the field has no tracked list. *)
Lemma render_wrapper_inv render c f w wps st st' :
  render_wrapper render c f w wps st = OK st' →
  ∃ n comp fld l,
    f = Some n ∧ getWrapper config w = Some comp ∧
    nodes st !! n = Some fld ∧ _componentRefs fld = Some l.
Proof.
  unfold render_wrapper.
  destruct (getWrapper config w) as [comp|] eqn:Hw; [|done].
  simpl. unfold attachComponentRef, get_node. simpl.
  destruct f as [n|]; [|done]. simpl.
  destruct (nodes st !! n) as [fld|] eqn:Hn; [|done]. simpl.
  destruct (_componentRefs fld) as [l|] eqn:Hl; [|done].
  intros _. by exists n, comp, fld, l.
Qed.

(** The field type, step by step. *)
Lemma render_type_eq c n st fld comp l :
  nodes st !! n = Some fld →
  type_component fld = Some comp →
  _componentRefs fld = Some l →
  render_type c (Some n) st =
    OK (component_attached TypeRenderer c n comp None None fld l st).
Proof.
  intros Hn Hc Hl. unfold render_type, get_node. rewrite Hn. simpl.
  unfold type_component in Hc. destruct (truthy (type fld)); [|done].
  rewrite Hc. simpl.
  unfold attachComponentRef, get_node. simpl. rewrite Hn. simpl.
  rewrite Hl. simpl. by rewrite !alter_snoc.
Qed.

Lemma render_type_none c n st fld :
  nodes st !! n = Some fld →
  truthy (type fld) = false →
  render_type c (Some n) st = OK st.
Proof.
  intros Hn Hc. unfold render_type, get_node. rewrite Hn. simpl.
  by rewrite Hc.
Qed.

Lemma render_type_inv c f st st' :
  render_type c f st = OK st' →
  st' = st ∨
  ∃ n fld comp l,
    f = Some n ∧ nodes st !! n = Some fld ∧
    type_component fld = Some comp ∧ _componentRefs fld = Some l.
Proof.
  unfold render_type, get_node. destruct f as [n|]; [|left; congruence].
  destruct (nodes st !! n) as [fld|] eqn:Hn; [|done]. simpl.
  destruct (truthy (type fld)) eqn:Ht; [|left; congruence].
  destruct (getType config _) as [comp|] eqn:Hc; [|done]. simpl.
  unfold attachComponentRef, get_node. simpl. rewrite Hn. simpl.
  destruct (_componentRefs fld) as [l|] eqn:Hl; [|done].
  intros _. right. exists n, fld, comp, l.
  unfold type_component. by rewrite Ht.
Qed.

(** *** Forgetting tracked references *)

Lemma resetRefs_tracked n fld l st :
  nodes st !! n = Some fld →
  _componentRefs fld = Some l →
  resetRefs (Some n) st =
    OK (set_componentRefs []
          (set_nodes
             (<[n := set__componentRefs
                       (Some (filter (λ ref, ref ∉ componentRefs st) l)) fld]>
                (nodes st)) st)).
Proof.
  intros Hn Hl. unfold resetRefs, get_node. rewrite Hn. simpl. by rewrite Hl.
Qed.

Lemma resetRefs_untracked n fld m fldm st :
  nodes st !! n = Some fld →
  _componentRefs fld = None →
  field st = Some m →
  nodes st !! m = Some fldm →
  resetRefs (Some n) st =
    OK (set_componentRefs []
          (set_nodes (<[m := set__componentRefs (Some []) fldm]> (nodes st)) st)).
Proof.
  intros Hn Hl Hf Hm. unfold resetRefs, get_node. rewrite Hn. simpl.
  rewrite Hl. unfold defineHiddenProp__componentRefs, get_node.
  rewrite Hf. by rewrite Hm.
Qed.

Lemma resetRefs_undefined st : resetRefs None st = OK (set_componentRefs [] st).
Proof. reflexivity. Qed.

Lemma clear_refs_lookup c st h :
  refs (clear c st) !! h =
    (if bool_decide (h ∈ views c st) then set_destroyed true else id)
      <$> refs st !! h.
Proof.
  unfold clear. simpl. generalize (views c st). intros vs.
  induction vs as [|v vs IH]; simpl.
  - by destruct (refs st !! h).
  - rewrite list_lookup_alter. destruct (decide (v = h)) as [->|Hne].
    + rewrite bool_decide_true by left. rewrite IH.
      destruct (refs st !! h) as [r|]; [|done]. simpl.
      by destruct (bool_decide _).
    + rewrite IH. destruct (decide (h ∈ vs)) as [Hin|Hnin].
      * rewrite !bool_decide_true; [done | by right | done].
      * rewrite !bool_decide_false; [done | | done].
        intros Hin. apply elem_of_cons in Hin as [->|?]; done.
Qed.

Lemma clear_refs_length c st : length (refs (clear c st)) = length (refs st).
Proof.
  unfold clear. simpl. induction (views c st) as [|v vs IH]; simpl; [done|].
  by rewrite length_alter.
Qed.

Lemma set__componentRefs_id fld :
  set__componentRefs (_componentRefs fld) fld = fld.
Proof. by destruct fld. Qed.

Lemma reset_own_container_ok c st :
  well_formed st →
  ∃ st0, reset_own_container c st = OK st0 ∧ reset_frame c st st0.
Proof.
  intros [Hf Hc]. unfold reset_own_container.
  destruct (decide (containerRef st = c)) as [Heq|Hne].
  - assert (∃ st1, resetRefs (field st) st = OK st1 ∧
              field st1 = field st ∧ containerRef st1 = containerRef st ∧
              hostObservers st1 = hostObservers st ∧
              hooksObservers st1 = hooksObservers st ∧
              valueChangesUnsubscribe st1 = valueChangesUnsubscribe st ∧
              controls st1 = controls st ∧
              subscriptions st1 = subscriptions st ∧
              fieldChangesChannel st1 = fieldChangesChannel st ∧
              componentRefs st1 = [] ∧ refs st1 = refs st ∧
              containers st1 = containers st ∧ trace st1 = trace st ∧
              ∀ n fld, nodes st !! n = Some fld →
                nodes st1 !! n =
                  Some (set__componentRefs
                          (if bool_decide (field st = Some n)
                           then Some (filter (λ ref, ref ∉ componentRefs st)
                                        (default [] (_componentRefs fld)))
                           else _componentRefs fld) fld))
      as (st1 & -> & H1 & H2 & H3 & H4 & H5 & H6 & H7 & H8 & H9 & H10 & H11 & H12 & H13).
    { destruct (field st) as [m|] eqn:Hm.
      - destruct Hf as [fldm Hfm].
        destruct (_componentRefs fldm) as [l|] eqn:Hl.
        + eexists. split; [by apply resetRefs_tracked|].
          simpl. repeat split; try done.
          intros n fld Hn. destruct (decide (m = n)) as [->|Hmn].
          * rewrite bool_decide_true by done.
            rewrite list_lookup_insert_eq by (by eapply lookup_lt_Some).
            replace fld with fldm by congruence. by rewrite Hl.
          * rewrite bool_decide_false by congruence.
            rewrite list_lookup_insert_ne by done.
            by rewrite set__componentRefs_id.
        + eexists. split; [by eapply resetRefs_untracked|].
          simpl. repeat split; try done.
          intros n fld Hn. destruct (decide (m = n)) as [->|Hmn].
          * rewrite bool_decide_true by done.
            rewrite list_lookup_insert_eq by (by eapply lookup_lt_Some).
            replace fld with fldm by congruence. by rewrite Hl.
          * rewrite bool_decide_false by congruence.
            rewrite list_lookup_insert_ne by done.
            by rewrite set__componentRefs_id.
      - eexists. split; [apply resetRefs_undefined|].
        simpl. repeat split; try done.
        intros n fld Hn. by rewrite set__componentRefs_id. }
    simpl. eexists. split; [done|].
    split; try done.
    + by rewrite decide_True.
    + by rewrite clear_refs_length, H10.
    + intros h. rewrite clear_refs_lookup. unfold views.
      rewrite H2, H11, H10, Heq.
      destruct (decide (h ∈ default [] (containers st !! c))).
      * rewrite !bool_decide_true; done.
      * rewrite !bool_decide_false; [done | tauto | done].
    + simpl. by rewrite length_insert, H11.
    + simpl. rewrite creations_app. simpl. by rewrite app_nil_r, H12.
    + simpl. by rewrite decide_True, H2, H12, Heq.
    + intros n fld Hn. simpl. rewrite (H13 n fld Hn).
      destruct (decide (field st = Some n)).
      * rewrite !bool_decide_true; done.
      * rewrite !bool_decide_false; [done | tauto | done].
  - exists st. split; [done|].
    split; try done.
    + by rewrite decide_False.
    + intros h. rewrite bool_decide_false by tauto.
      by destruct (refs st !! h).
    + by rewrite decide_False, app_nil_r.
    + intros n fld Hn. rewrite bool_decide_false by tauto.
      by rewrite set__componentRefs_id.
Qed.

(** ** A field without wrappers *)

Lemma tracked_component_attached k c n comp inner obs fld l st :
  n < length (nodes st) →
  tracked n (component_attached k c n comp inner obs fld l st) =
    Some (l ++ [length (refs st)]).
Proof.
  intros Hn. unfold tracked, component_attached. simpl.
  by rewrite list_lookup_insert_eq.
Qed.

(** C1: for a field whose wrapper sequence is empty and whose type is set,
    one call of [renderField] creates exactly one component, resolved by
    [getType] (a [TypeRenderer], not a wrapper), in the container it was
    called on, and appends it to the field's tracked list. *)
Theorem C1_type_renderer_instantiated_once c n fld ty comp st :
  well_formed st →
  nodes st !! n = Some fld →
  default [] (wrappers fld) = [] →
  type fld = Some ty →
  ty ≠ EmptyString →
  getType config ty = Some comp →
  (containerRef st = c ∧ field st = Some n) ∨ is_Some (_componentRefs fld) →
  ∃ st' base,
    renderField c (Some n) (default [] (wrappers fld)) st = OK st' ∧
    length (refs st') = S (length (refs st)) ∧
    refs st' !! length (refs st) =
      Some {| component := comp; kind := TypeRenderer; location := c;
              instance_field := Some n; fieldComponent := None;
              observer := None; destroyed := false |} ∧
    creations (trace st') =
      creations (trace st) ++ [(c, comp, length (refs st))] ∧
    tracked n st' = Some (base ++ [length (refs st)]) ∧
    (∀ h, h ∈ base → h ∈ default [] (_componentRefs fld)).
Proof.
  intros Hwf Hn Hws Hty Hne Hcomp Htr. rewrite Hws.
  destruct (reset_own_container_ok c st Hwf) as (st0 & Hreset & F).
  pose proof (rf_nodes _ _ _ F n fld Hn) as Hn0.
  set (fld0 := set__componentRefs _ fld) in Hn0.
  assert (∃ base, _componentRefs fld0 = Some base ∧
            ∀ h, h ∈ base → h ∈ default [] (_componentRefs fld))
    as (base & Hbase & Hsub).
  { subst fld0. simpl. case_bool_decide as Hd.
    - eexists. split; [done|]. intros h Hh.
      by apply list_elem_of_filter in Hh as [_ ?].
    - destruct Htr as [[? ?]|[l Hl]]; [tauto|].
      exists l. rewrite Hl. by split. }
  assert (type_component fld0 = Some comp) as Htc.
  { unfold type_component. subst fld0. simpl. rewrite Hty. simpl.
    by rewrite bool_decide_true. }
  exists (component_attached TypeRenderer c n comp None None fld0 base st0), base.
  split.
  { rewrite renderField_eq, Hreset. simpl. by eapply render_type_eq. }
  assert (length (refs st0) = length (refs st)) as Hlen by apply F.
  unfold tracked. simpl. rewrite length_app, Hlen. simpl.
  split; [lia|]. split.
  { rewrite lookup_app_r by lia. by rewrite Hlen, Nat.sub_diag. }
  split.
  { rewrite creations_app. simpl. by rewrite (rf_creations _ _ _ F). }
  split; [|done].
  rewrite list_lookup_insert_eq; [done|].
  by eapply lookup_lt_Some.
Qed.

(** ** A falsy inner container *)

(** C10: when the observed [fieldComponent] becomes falsy the observer does
    nothing: the state it returns is the state it was given (nothing
    detached, rendered, created or released, no change detection); the
    assignment itself only stores the new value of the property. *)
Theorem C10_falsy_inner_container_is_ignored ref r f wps st :
  refs st !! ref = Some r →
  observer r = Some (f, wps) →
  (∀ previous first,
     fieldComponent_observer (λ m, renderField m f wps) ref None previous first st
     = OK st) ∧
  ∃ st', set_fieldComponent ref None st = OK st' ∧
    containers st' = containers st ∧ trace st' = trace st ∧
    nodes st' = nodes st ∧ componentRefs st' = componentRefs st ∧
    subscriptions st' = subscriptions st ∧
    length (refs st') = length (refs st) ∧
    (∀ h, set_fieldComponent_prop None <$> refs st' !! h =
          set_fieldComponent_prop None <$> refs st !! h) ∧
    (fieldComponent <$> refs st' !! ref) = Some None.
Proof.
  intros Href Hobs. split; [done|].
  unfold set_fieldComponent. rewrite Href, Hobs.
  destruct (decide (None = fieldComponent r)) as [Heq|Hne].
  - exists st. repeat split; try done. rewrite Href. simpl. by rewrite <- Heq.
  - eexists. split; [done|]. simpl. repeat split; try done.
    + by rewrite length_alter.
    + intros h. rewrite list_lookup_alter.
      destruct (decide (ref = h)) as [->|]; [|done].
      by destruct (refs st !! h).
    + by rewrite list_lookup_alter_eq, Href.
Qed.

(** ** The value wiring *)

Lemma unsubscribe_all_frame ids st :
  let st' := unsubscribe_all ids st in
  field st' = field st ∧ containerRef st' = containerRef st ∧
  hostObservers st' = hostObservers st ∧
  componentRefs st' = componentRefs st ∧
  hooksObservers st' = hooksObservers st ∧
  valueChangesUnsubscribe st' = valueChangesUnsubscribe st ∧
  nodes st' = nodes st ∧ controls st' = controls st ∧ refs st' = refs st ∧
  containers st' = containers st ∧
  fieldChangesChannel st' = fieldChangesChannel st ∧
  length (subscriptions st') = length (subscriptions st) ∧
  trace st' = trace st ++ map Unsubscribe ids.
Proof.
  revert st. induction ids as [|id ids IH]; intros st; simpl.
  - repeat split; try done. by rewrite app_nil_r.
  - specialize (IH (unsubscribe id st)). simpl in IH.
    destruct IH as (?&?&?&?&?&?&?&?&?&?&?&Hl&Ht).
    repeat split; try done.
    + rewrite Hl. simpl. by rewrite length_alter.
    + rewrite Ht. simpl. by rewrite <- app_assoc.
Qed.


(** C4 (amended): the stream that [fieldChanges] subscribes to emits the
    control's current value at subscription exactly when that value differs
    from the value read off the field and no debounce applies; when the
    two values are equal, or when the debounced stream has replaced the
    first one, it emits nothing at subscription. *)
Theorem C4_initial_emission fld control mo :
  initial_emissions (valueChanges_pipe fld control mo) =
    if bool_decide (value control ≠ getFieldValue fld)
       && bool_decide (debounce_interval mo = None)
    then [value control]
    else [].
Proof.
  unfold valueChanges_pipe.
  destruct (debounce_interval mo) as [d|]; simpl.
  - by rewrite andb_false_r.
  - rewrite andb_true_r. by case_bool_decide.
Qed.

(** The subscriber: control patched when shared, parsers in order, value
    written, event sent. *)
Lemma valueChanges_subscriber_eq n c v st fld k control :
  nodes st !! n = Some fld →
  key fld = Some k →
  controls st !! c = Some control →
  let v' := foldl (λ v parserFn, parserFn v) v (default [] (parsers fld)) in
  let st1 :=
    if isFormControl control
       && bool_decide (1 < length (default [] (_fields control)))
    then patchValue c v st else st in
  valueChanges_subscriber n c v st =
    OK (set_fieldChangesChannel
          (fieldChangesChannel st ++
             [{| ev_value := v'; ev_field := n; ev_type := "valueChanges" |}])
          (set_nodes (<[n := set_model (<[k := v']> (model fld)) fld]> (nodes st))
             st1)).
Proof.
  intros Hn Hk Hc v' st1. unfold valueChanges_subscriber. rewrite Hc. simpl.
  subst st1 v'.
  destruct (isFormControl control && _); unfold get_node; simpl;
    rewrite Hn; simpl; unfold assignFieldValue, get_node; simpl;
    rewrite Hn; simpl; by rewrite Hk.
Qed.

(** C6: every value emitted on the subscribed stream goes through the
    field's parsers in their listed order, the result is written onto the
    field and sent on [options.fieldChanges] as
    [{value, field, type: "valueChanges"}]; and for the example field, with
    control value ["Al"], stored value ["Ali"] and the parser [trim], the
    initial emission is ["Al"], the stored value becomes ["Al"] and one
    event with value ["Al"] is sent. *)
Theorem C6_emitted_value_is_parsed_written_and_broadcast :
  (∀ n c v st fld k control,
     nodes st !! n = Some fld →
     key fld = Some k →
     controls st !! c = Some control →
     let v' := foldl (λ v parserFn, parserFn v) v (default [] (parsers fld)) in
     ∃ st', valueChanges_subscriber n c v st = OK st' ∧
       (getFieldValue <$> nodes st' !! n) = Some v' ∧
       fieldChangesChannel st' =
         fieldChangesChannel st ++
           [{| ev_value := v'; ev_field := n; ev_type := "valueChanges" |}]) ∧
  (∃ control st' unsubscribe,
     controls example_state !! 0 = Some control ∧
     initial_emissions
       (valueChanges_pipe example_field control
          {| updateOn := None; debounce := None |}) = [VStr "Al"] ∧
     fieldChanges (Some 0) example_state = OK (st', unsubscribe) ∧
     (getFieldValue <$> nodes st' !! 0) = Some (VStr "Al") ∧
     fieldChangesChannel st' =
       [{| ev_value := VStr "Al"; ev_field := 0; ev_type := "valueChanges" |}]).
Proof.
  split.
  - intros n c v st fld k control Hn Hk Hc v'.
    eexists. split; [by eapply valueChanges_subscriber_eq|].
    simpl. split; [|done].
    rewrite list_lookup_insert_eq by (by eapply lookup_lt_Some).
    simpl. unfold getFieldValue. simpl. rewrite Hk.
    by rewrite lookup_insert_eq.
  - eexists _, _, _. split; [reflexivity|].
    split; [reflexivity|]. split; [vm_compute; reflexivity|].
    split; reflexivity.
Qed.

(** *** Debouncing *)





(** ** What rendering changes *)

Lemma render_frame_refl f st : render_frame f st st [].
Proof.
  split; try done.
  - by rewrite app_nil_r.
  - by rewrite app_nil_r.
  - by rewrite app_nil_r.
  - exists []. by rewrite app_nil_r.
  - intros n fld Hn. rewrite Hn. f_equal. case_decide; [|done].
    destruct fld as [? ? ? ? ? ? ? ? ? ? ? [l|]]; simpl; [|done].
    unfold set__componentRefs. simpl. by rewrite app_nil_r.
Qed.

Lemma render_frame_trans f st1 st2 st3 new1 new2 :
  render_frame f st1 st2 new1 →
  render_frame f st2 st3 new2 →
  render_frame f st1 st3 (new1 ++ new2).
Proof.
  intros F1 F2. split.
  - by rewrite (gf_field _ _ _ _ F2), (gf_field _ _ _ _ F1).
  - by rewrite (gf_containerRef _ _ _ _ F2), (gf_containerRef _ _ _ _ F1).
  - by rewrite (gf_hostObservers _ _ _ _ F2), (gf_hostObservers _ _ _ _ F1).
  - by rewrite (gf_hooksObservers _ _ _ _ F2), (gf_hooksObservers _ _ _ _ F1).
  - by rewrite (gf_unsubscribe _ _ _ _ F2), (gf_unsubscribe _ _ _ _ F1).
  - by rewrite (gf_controls _ _ _ _ F2), (gf_controls _ _ _ _ F1).
  - by rewrite (gf_subscriptions _ _ _ _ F2), (gf_subscriptions _ _ _ _ F1).
  - by rewrite (gf_channel _ _ _ _ F2), (gf_channel _ _ _ _ F1).
  - pose proof (gf_containers _ _ _ _ F1). pose proof (gf_containers _ _ _ _ F2).
    lia.
  - by rewrite (gf_refs _ _ _ _ F2), (gf_refs _ _ _ _ F1), app_assoc.
  - rewrite (gf_componentRefs _ _ _ _ F2), (gf_componentRefs _ _ _ _ F1).
    rewrite (gf_refs _ _ _ _ F1), !length_app, seq_app, app_assoc. done.
  - rewrite (gf_creations _ _ _ _ F2), (gf_creations _ _ _ _ F1).
    rewrite (gf_refs _ _ _ _ F1), imap_app, <- app_assoc, length_app.
    do 2 f_equal. apply imap_ext. intros i r _. simpl. f_equal. lia.
  - destruct (gf_trace _ _ _ _ F1) as [es1 H1].
    destruct (gf_trace _ _ _ _ F2) as [es2 H2].
    exists (es1 ++ es2). by rewrite H2, H1, app_assoc.
  - intros n fld Hn.
    rewrite (gf_nodes _ _ _ _ F2 n _ (gf_nodes _ _ _ _ F1 n fld Hn)).
    f_equal. case_decide; [|done].
    rewrite (gf_refs _ _ _ _ F1), !length_app, seq_app.
    destruct fld as [? ? ? ? ? ? ? ? ? ? ? [l|]]; simpl; [|done].
    unfold set__componentRefs. simpl. by rewrite <- app_assoc.
Qed.

Lemma component_attached_frame k c n comp inner obs fld l st :
  nodes st !! n = Some fld →
  _componentRefs fld = Some l →
  render_frame (Some n) st (component_attached k c n comp inner obs fld l st)
    [{| component := comp; kind := k; location := c;
        instance_field := Some n; fieldComponent := inner;
        observer := obs; destroyed := false |}].
Proof.
  intros Hn Hl. split; try done.
  - simpl. rewrite length_app, length_alter. lia.
  - simpl. rewrite creations_app. simpl. by rewrite Nat.add_0_r.
  - by eexists.
  - intros m fldm Hm. simpl. destruct (decide (Some n = Some m)) as [Heq|Hne].
    + injection Heq as <-. rewrite list_lookup_insert_eq
        by (by eapply lookup_lt_Some).
      replace fldm with fld by congruence. by rewrite Hl.
    + rewrite list_lookup_insert_ne by congruence. done.
Qed.

Lemma render_type_frame c f st st' :
  render_type c f st = OK st' → ∃ new, render_frame f st st' new.
Proof.
  intros H. destruct (render_type_inv _ _ _ _ H)
    as [->|(n & fld & comp & l & -> & Hn & Hc & Hl)].
  - eexists. apply render_frame_refl.
  - rewrite (render_type_eq c n st fld comp l) in H by done.
    injection H as <-. eexists. by apply component_attached_frame.
Qed.

Lemma render_rest_frame f ws : ∀ c st st',
  containerRef st < length (containers st) →
  render_rest c f ws st = OK st' →
  ∃ new, render_frame f st st' new.
Proof.
  induction ws as [|w wps IH]; intros c st st' Hwf H.
  - by eapply render_type_frame.
  - simpl in H.
    destruct (render_wrapper_inv _ _ _ _ _ _ _ H)
      as (n & comp & fld & l & -> & Hw & Hn & Hl).
    rewrite (render_wrapper_eq _ c n w wps st comp fld l) in H by done.
    destruct (static_query comp).
    + rewrite renderField_other in H by (simpl; lia).
      apply IH in H as [new F].
      * eexists. eapply render_frame_trans; [|exact F].
        by apply component_attached_frame.
      * simpl. rewrite length_app, length_alter. simpl. lia.
    + injection H as <-. eexists. by apply component_attached_frame.
Qed.

Lemma renderField_frame f ws c st st' :
  containerRef st < length (containers st) →
  containerRef st ≠ c →
  renderField c f ws st = OK st' →
  ∃ new, render_frame f st st' new.
Proof.
  intros Hwf Hne H. rewrite renderField_other in H by done.
  by eapply render_rest_frame.
Qed.

(** Rendering creates at least one component when a wrapper remains or the
    field has a type. *)
Lemma render_rest_creates f ws c st st' :
  containerRef st < length (containers st) →
  render_rest c f ws st = OK st' →
  ws ≠ [] ∨ (∃ n fld, f = Some n ∧ nodes st !! n = Some fld ∧
                      truthy (type fld) = true) →
  length (refs st) < length (refs st').
Proof.
  intros Hwf H Hc.
  destruct ws as [|w wps].
  - destruct Hc as [?|(n & fld & -> & Hn & Ht)]; [done|].
    simpl in H. unfold render_type, get_node in H. rewrite Hn in H.
    simpl in H. rewrite Ht in H.
    destruct (getType config _) as [comp|]; [|done]. simpl in H.
    unfold attachComponentRef, get_node in H. simpl in H. rewrite Hn in H.
    simpl in H. destruct (_componentRefs fld); [|done].
    injection H as <-. simpl. rewrite length_alter, length_app. simpl. lia.
  - simpl in H.
    destruct (render_wrapper_inv _ _ _ _ _ _ _ H)
      as (n & comp & fld & l & -> & Hw & Hn & Hl).
    rewrite (render_wrapper_eq _ c n w wps st comp fld l) in H by done.
    destruct (static_query comp).
    + rewrite renderField_other in H by (simpl; lia).
      apply render_rest_frame in H as [new2 F2].
      * rewrite (gf_refs _ _ _ _ F2). simpl. rewrite !length_app. simpl. lia.
      * simpl. rewrite length_app, length_alter. simpl. lia.
    + injection H as <-. simpl. rewrite length_app. simpl. lia.
Qed.

(** ** A wrapper changing its inner container *)

Lemma detach_previous_frame previous st :
  let st1 := (detach_previous previous st).1 in
  refs st1 = refs st ∧ nodes st1 = nodes st ∧
  containerRef st1 = containerRef st ∧
  length (containers st1) = length (containers st) ∧
  creations (trace st1) = creations (trace st).
Proof.
  destruct previous as [prev|]; simpl; [|done].
  unfold detach. destruct (last (views prev st)); simpl.
  - rewrite length_insert, creations_app. simpl. by rewrite app_nil_r.
  - rewrite creations_app. simpl. by rewrite app_nil_r.
Qed.

Lemma fieldComponent_observer_rerender render ref cur previous first st :
  previous = None ∨
  (∃ prev, previous = Some prev ∧
     (last (views prev st) = None ∨
      ∃ v, last (views prev st) = Some v ∧ view_destroyed v st = true)) →
  fieldComponent_observer render ref (Some cur) previous first st =
    st2 ← render cur (detach_previous previous st).1;
    OK (if first then st2 else log (DetectChanges ref) st2).
Proof.
  intros [->|(prev & -> & [Hl|(v & Hl & Hd)])]; [done| |].
  - unfold fieldComponent_observer. simpl. unfold detach. by rewrite Hl.
  - unfold fieldComponent_observer. simpl. unfold detach. rewrite Hl.
    unfold view_destroyed in *. simpl.
    destruct (refs st !! v) as [r|]; [|done]. by rewrite Hd.
Qed.

(** C3: when a wrapper's [fieldComponent] becomes [cur] and the previous
    container held a view that is not destroyed, the view is detached and
    inserted into [cur] and no component is created; when there was no
    previous container, or it held no view, or the view is destroyed,
    [renderField] runs on [cur] with the remaining wrappers, and what it
    creates is new (at least one component when a wrapper remains or the
    field has a type); and an observation other than the first is the first
    one followed by [ref.changeDetectorRef.detectChanges()], which is then
    the last call made. *)
Theorem C3_inner_container_moved_or_rerendered ref f wps cur previous first st :
  containerRef st < length (containers st) →
  cur ≠ containerRef st →
  let observation first :=
    fieldComponent_observer (λ m, renderField m f wps) ref (Some cur)
      previous first st in
  (∀ prev v,
     previous = Some prev →
     last (views prev st) = Some v →
     view_destroyed v st = false →
     ∃ st', observation first = OK st' ∧
       refs st' = refs st ∧
       creations (trace st') = creations (trace st) ∧
       containers st' =
         alter (λ vs, vs ++ [v]) cur
           (<[prev := removelast (views prev st)]> (containers st)) ∧
       trace st' =
         trace st ++ [Detach prev (Some v); Insert cur v] ++
           if first then [] else [DetectChanges ref]) ∧
  (previous = None ∨
   (∃ prev, previous = Some prev ∧
      (last (views prev st) = None ∨
       ∃ v, last (views prev st) = Some v ∧ view_destroyed v st = true)) →
   observation first =
     (st2 ← renderField cur f wps (detach_previous previous st).1;
      OK (if first then st2 else log (DetectChanges ref) st2)) ∧
   ∀ st', observation first = OK st' →
     (∃ new, refs st' = refs st ++ new ∧
        creations (trace st') =
          creations (trace st) ++
            imap (λ i r, (location r, component r, length (refs st) + i)) new) ∧
     (wps ≠ [] ∨ typed f st → length (refs st) < length (refs st'))) ∧
  observation false =
    (st' ← observation true; OK (log (DetectChanges ref) st')) ∧
  (∀ st', observation false = OK st' →
     last (trace st') = Some (DetectChanges ref)).
Proof.
  intros Hwf Hcur. cbv zeta. split; [|split; [|split]].
  - intros prev v -> Hl Hd.
    unfold fieldComponent_observer. simpl. unfold detach. rewrite Hl.
    unfold view_destroyed in *. simpl.
    destruct (refs st !! v) as [r|] eqn:Hr.
    + rewrite Hd. simpl. eexists. split; [done|].
      destruct first; simpl; rewrite ?creations_app; simpl;
        rewrite ?creations_app; simpl; rewrite ?app_nil_r;
        repeat split; try done; by rewrite <- ?app_assoc.
    + simpl. eexists. split; [done|].
      destruct first; simpl; rewrite ?creations_app; simpl;
        rewrite ?creations_app; simpl; rewrite ?app_nil_r;
        repeat split; try done; by rewrite <- ?app_assoc.
  - intros Hcase.
    rewrite fieldComponent_observer_rerender by done.
    split; [done|]. intros st' H.
    apply bind_inv in H as (st2 & Hr & H).
    destruct (detach_previous_frame previous st) as (Hrefs & Hnodes & Hcr & Hlen & Hcre).
    set (st1 := (detach_previous previous st).1) in *.
    assert (refs st' = refs st2 ∧ creations (trace st') = creations (trace st2))
      as [Hr' Hc'].
    { destruct first; injection H as <-; [done|]. simpl.
      rewrite creations_app. simpl. by rewrite app_nil_r. }
    rewrite Hr', Hc'. split.
    + apply renderField_frame in Hr as [new F]; [|lia|congruence].
      exists new. rewrite (gf_refs _ _ _ _ F), (gf_creations _ _ _ _ F).
      by rewrite Hrefs, Hcre.
    + intros Hc. rewrite renderField_other in Hr by congruence.
      rewrite <- Hrefs. eapply render_rest_creates; [|exact Hr|]; [lia|].
      destruct Hc as [?|(n & fld & ? & ? & ?)]; [by left|right].
      exists n, fld. by rewrite Hnodes.
  - unfold fieldComponent_observer.
    destruct (match previous with Some prev => detach prev st | None => (st, None) end)
      as [st1 viewRef].
    rewrite bind_assoc. destruct viewRef as [v|].
    + destruct (view_destroyed v st1); [|done].
      by destruct (renderField cur f wps st1).
    + by destruct (renderField cur f wps st1).
  - unfold fieldComponent_observer.
    destruct (match previous with Some prev => detach prev st | None => (st, None) end)
      as [st1 viewRef].
    intros st' H. apply bind_inv in H as (st2 & _ & H).
    injection H as <-. simpl. by rewrite last_snoc.
Qed.

(** ** Rendering again on the own container *)

(** Any call of [renderField]: a reset that applies on the own container
    only, then additions. *)
Lemma renderField_frames c f ws st st' :
  well_formed st →
  renderField c f ws st = OK st' →
  ∃ st0 new, reset_frame c st st0 ∧ render_frame f st0 st' new.
Proof.
  intros Hwf H. rewrite renderField_eq in H.
  destruct (reset_own_container_ok c st Hwf) as (st0 & Hreset & F).
  rewrite Hreset in H. simpl in H.
  apply render_rest_frame in H as [new G].
  - by exists st0, new.
  - rewrite (rf_containerRef _ _ _ F), (rf_containers_length _ _ _ F).
    apply Hwf.
Qed.


(** ** The changed transition *)

Lemma unsubscribe_all_lookup ids st i :
  subscriptions (unsubscribe_all ids st) !! i =
    (if bool_decide (i ∈ ids) then set_active false else λ sub, sub)
      <$> subscriptions st !! i.
Proof.
  revert st. induction ids as [|j ids IH]; intros st; simpl.
  - by destruct (subscriptions st !! i).
  - rewrite IH. simpl. rewrite list_lookup_alter.
    destruct (decide (j = i)) as [->|Hne].
    + rewrite (bool_decide_true (i ∈ i :: ids)) by left.
      destruct (subscriptions st !! i) as [sub|]; [|done]. simpl.
      by destruct (bool_decide _).
    + destruct (decide (i ∈ ids)) as [Hin|Hnin].
      * rewrite !bool_decide_true; [done | by right | done].
      * rewrite !bool_decide_false; [done | | done].
        intros Hin. apply elem_of_cons in Hin as [->|?]; done.
Qed.

Lemma unsubscribe_all_inactive ids st i :
  i ∈ ids → is_active i (unsubscribe_all ids st) = false.
Proof.
  intros Hin. unfold is_active. rewrite unsubscribe_all_lookup.
  rewrite bool_decide_true by done.
  by destruct (subscriptions st !! i).
Qed.

Lemma unsubscribe_all_still_inactive ids st i :
  is_active i st = false → is_active i (unsubscribe_all ids st) = false.
Proof.
  unfold is_active. rewrite unsubscribe_all_lookup.
  destruct (subscriptions st !! i) as [sub|]; [|done]. simpl.
  by destruct (bool_decide _).
Qed.

(** [renderHostBinding] on a renderer that has a field. *)
Lemma renderHostBinding_ok n fld st :
  field st = Some n →
  nodes st !! n = Some fld →
  ∃ st1, renderHostBinding st = OK st1 ∧
    field st1 = field st ∧ containerRef st1 = containerRef st ∧
    componentRefs st1 = componentRefs st ∧
    hooksObservers st1 = hooksObservers st ∧
    valueChangesUnsubscribe st1 = valueChangesUnsubscribe st ∧
    nodes st1 = nodes st ∧ controls st1 = controls st ∧
    refs st1 = refs st ∧ containers st1 = containers st ∧
    fieldChangesChannel st1 = fieldChangesChannel st ∧
    hostObservers st1 =
      [length (subscriptions st); S (length (subscriptions st))] ∧
    subscriptions st1 =
      subscriptions (unsubscribe_all (hostObservers st) st) ++
        [{| target := n; what := ObserveHide; active := true |};
         {| target := n; what := ObserveClassName; active := true |}] ∧
    trace st1 =
      trace st ++ map Unsubscribe (hostObservers st) ++
        (if default false (hide fld) then [SetStyleDisplay "none"] else []) ++
        (if truthy (className fld)
         then [SetAttributeClass (default EmptyString (className fld))]
         else []).
Proof.
  intros Hf Hn. unfold renderHostBinding. rewrite Hf.
  destruct (unsubscribe_all_frame (hostObservers st) st)
    as (H1&H2&H3&H4&H5&H6&H7&H8&H9&H10&H11&H12&H13).
  unfold get_node. rewrite H7, Hn. simpl.
  eexists. split; [done|].
  destruct (default false (hide fld)), (truthy (className fld)); simpl;
    rewrite ?length_app, ?H12, ?H13; simpl;
    rewrite <- ?app_assoc, ?app_nil_r; simpl;
    repeat split; try done; try congruence; by rewrite Nat.add_1_r.
Qed.



(** ** A field with wrappers *)

Lemma created_since_cons h st r :
  refs st !! h = Some r →
  created_since h st = (location r, component r, h) :: created_since (S h) st.
Proof.
  intros Hr. unfold created_since.
  pose proof (lookup_lt_Some _ _ _ Hr) as Hlt.
  replace (length (refs st) - h) with (S (length (refs st) - S h)) by lia.
  simpl. by rewrite Hr.
Qed.

Lemma created_since_end st : created_since (length (refs st)) st = [].
Proof. unfold created_since. by rewrite Nat.sub_diag. Qed.

Lemma settle_done k st : pending_wrapper st = None → settle k st = OK st.
Proof. intros H. destruct k; simpl; [done|]. by rewrite H. Qed.

Lemma settle_S k st :
  settle (S k) st =
    match pending_wrapper st with
    | Some ref => resolve_view_query ref st ≫= settle k
    | None => OK st
    end.
Proof. reflexivity. Qed.

Lemma set_trace_same st : set_trace (trace st) st = st.
Proof. by destruct st. Qed.

Lemma chain_result_cons c comp comps leaf st s3 st' r m :
  refs s3 = refs st ++ [r] →
  component r = comp →
  kind r = WrapperRenderer →
  location r = c →
  fieldComponent r = Some m →
  creations (trace s3) = creations (trace st) ++ [(c, comp, length (refs st))] →
  chain_result m comps leaf s3 st' →
  chain_result c (comp :: comps) leaf st st'.
Proof.
  intros Hrefs Hcomp Hkind Hloc Hfc Hcre R.
  assert (length (refs s3) = S (length (refs st))) as Hlen
    by (rewrite Hrefs, length_app; simpl; lia).
  assert (refs st' !! length (refs st) = Some r) as Hr.
  { rewrite (cr_prefix _ _ _ _ _ R) by lia.
    rewrite Hrefs, lookup_app_r by lia. by rewrite Nat.sub_diag. }
  split.
  - rewrite (cr_length _ _ _ _ _ R), Hlen. simpl. lia.
  - intros i Hi. rewrite (cr_prefix _ _ _ _ _ R) by lia.
    by rewrite Hrefs, lookup_app_l.
  - simpl. exists r, m. repeat split; try done.
    rewrite <- Hlen. apply R.
  - rewrite (cr_creations _ _ _ _ _ R), Hcre, Hlen, <- app_assoc. simpl.
    rewrite (created_since_cons _ _ _ Hr). by rewrite Hloc, Hcomp.
  - apply R.
Qed.

(** Rendering the wrappers and letting the host resolve the pending view
    queries completes the chain. *)
Lemma render_rest_chain n leaf ws : ∀ comps c st k es fld,
  Forall2 (λ w comp, getWrapper config w = Some comp) ws comps →
  nodes st !! n = Some fld →
  type_component fld = leaf →
  (truthy (type fld) = true → is_Some leaf) →
  is_Some (_componentRefs fld) →
  containerRef st < length (containers st) →
  (ws = [] → leaf = None → pending_wrapper st = None) →
  creations es = [] →
  length ws ≤ k →
  ∃ st',
    (render_rest c (Some n) ws st ≫=
       λ s, settle k (set_trace (trace s ++ es) s)) = OK st' ∧
    chain_result c comps leaf st st'.
Proof.
  induction ws as [|w wps IH];
    intros comps c st k es fld Hres Hn Hleaf Hty [l Hl] Hwf Hpend Hes Hk.
  - apply Forall2_nil_inv_l in Hres as ->. unfold render_rest.
    destruct leaf as [comp|].
    + rewrite (render_type_eq c n st fld comp l) by done. simpl.
      rewrite settle_done.
      2: { unfold pending_wrapper. simpl. by rewrite last_snoc. }
      eexists. split; [done|]. split; simpl.
      * rewrite length_app. simpl. lia.
      * intros i Hi. by rewrite lookup_app_l.
      * eexists. split;
          [rewrite lookup_app_r by lia; by rewrite Nat.sub_diag | done].
      * rewrite !creations_app, Hes. simpl. rewrite app_nil_r.
        unfold created_since. simpl. rewrite length_app. simpl.
        replace (length (refs st) + 1 - length (refs st)) with 1 by lia.
        simpl. rewrite lookup_app_r by lia. by rewrite Nat.sub_diag.
      * unfold pending_wrapper. simpl. by rewrite last_snoc.
    + rewrite (render_type_none c n st fld) by
        (destruct (truthy (type fld)); [by destruct Hty|done]).
      simpl. rewrite settle_done by (by apply Hpend).
      eexists. split; [done|]. split; simpl.
      * lia.
      * done.
      * done.
      * rewrite creations_app, Hes. unfold created_since. simpl.
        by rewrite Nat.sub_diag.
      * by apply Hpend.
  - apply Forall2_cons_inv_l in Hres as (comp & comps' & Hw & Hres & ->).
    unfold render_rest.
    rewrite (render_wrapper_eq _ c n w wps st comp fld l) by done.
    simpl in Hk.
    destruct (static_query comp) eqn:Hstatic.
    + set (s3 := component_attached WrapperRenderer c n comp
                   (Some (length (containers st))) (Some (Some n, wps)) fld l st).
      rewrite renderField_other by (simpl; lia).
      destruct (IH comps' (length (containers st)) s3 k es
                  (set__componentRefs (Some (l ++ [length (refs st)])) fld))
        as (st' & Hrun & R); try done.
      * simpl. apply list_lookup_insert_eq. by eapply lookup_lt_Some.
      * simpl. rewrite length_app, length_alter. simpl. lia.
      * intros _ _. unfold pending_wrapper. simpl. by rewrite last_snoc.
      * lia.
      * exists st'. split; [done|].
        eapply chain_result_cons; [| | | | | |exact R]; try done.
        simpl. by rewrite creations_app.
    + destruct k as [|k]; [lia|].
      set (s3 := component_attached WrapperRenderer c n comp None
                   (Some (Some n, wps)) fld l st).
      rewrite bind_OK.
      assert (pending_wrapper (set_trace (trace s3 ++ es) s3)
              = Some (length (refs st))) as Hp.
      { unfold pending_wrapper. simpl. rewrite last_snoc. simpl.
        rewrite length_app. simpl. f_equal. lia. }
      rewrite settle_S, Hp.
      unfold resolve_view_query, set_fieldComponent. simpl.
      rewrite lookup_app_r by lia. rewrite Nat.sub_diag. simpl.
      rewrite alter_snoc. simpl.
      rewrite length_app, length_alter. simpl. rewrite Nat.add_0_r.
      match goal with
      | |- context [renderField ?m (Some n) wps ?s] => set (s4 := s); set (m' := m)
      end.
      rewrite renderField_other by (subst s4 m'; simpl; lia).
      rewrite bind_assoc.
      destruct (IH comps' m' s4 k [DetectChanges (length (refs st))]
                  (set__componentRefs (Some (l ++ [length (refs st)])) fld))
        as (st' & Hrun & R); try done.
      * subst s4. simpl. apply list_lookup_insert_eq. by eapply lookup_lt_Some.
      * subst s4. simpl. rewrite !length_app, length_alter. simpl. lia.
      * intros _ _. subst s4. unfold pending_wrapper. simpl. by rewrite last_snoc.
      * lia.
      * exists st'. split.
        { rewrite <- Hrun. by destruct (render_rest m' (Some n) wps s4). }
        eapply chain_result_cons; [| | | | | |exact R]; try done.
        subst s4. simpl. rewrite !creations_app, Hes. simpl.
        by rewrite app_nil_r.
Qed.

(** C2: for a field with a non-empty wrapper sequence of length N,
    [renderField], with the host resolving the view query of each wrapper
    that has no inner container yet, creates exactly N wrappers and then
    the field type when the field has a type, and nothing else: the
    references are created in sequence order (their indices and the
    [createComponent] calls of the trace follow it), the first wrapper in
    the container of the call, each further wrapper in the inner container
    of the one before it, the field type in the inner container of the
    last. *)
Theorem C2_wrappers_nested_outer_to_inner c n fld ws comps st k :
  well_formed st →
  nodes st !! n = Some fld →
  default [] (wrappers fld) = ws →
  ws ≠ [] →
  Forall2 (λ w comp, getWrapper config w = Some comp) ws comps →
  (truthy (type fld) = true → is_Some (type_component fld)) →
  (containerRef st = c ∧ field st = Some n) ∨ is_Some (_componentRefs fld) →
  length ws ≤ k →
  ∃ st',
    (renderField c (Some n) ws st ≫= settle k) = OK st' ∧
    length (refs st') =
      length (refs st) + length ws + (if truthy (type fld) then 1 else 0) ∧
    wrapper_chain st' c (length (refs st)) comps (type_component fld) ∧
    creations (trace st') =
      creations (trace st) ++ created_since (length (refs st)) st' ∧
    pending_wrapper st' = None.
Proof.
  intros Hwf Hn Hws Hne Hres Hty Htr Hk.
  destruct (reset_own_container_ok c st Hwf) as (st0 & Hreset & F).
  pose proof (rf_nodes _ _ _ F n fld Hn) as Hn0.
  set (fld0 := set__componentRefs _ fld) in Hn0.
  assert (is_Some (_componentRefs fld0)) as Hl0.
  { subst fld0. simpl. case_bool_decide; [done|].
    destruct Htr as [[? ?]|?]; [tauto|done]. }
  assert (type_component fld0 = type_component fld) as Htc by done.
  destruct (render_rest_chain n (type_component fld) ws comps c st0 k [] fld0)
    as (st' & Hrun & R); try done.
  { rewrite (rf_containerRef _ _ _ F), (rf_containers_length _ _ _ F).
    apply Hwf. }
  exists st'. split.
  { rewrite renderField_eq, Hreset, bind_OK, <- Hrun.
    destruct (render_rest c (Some n) ws st0) as [s|]; [|done]. simpl.
    by rewrite app_nil_r, set_trace_same. }
  pose proof (rf_refs_length _ _ _ F) as Hlen.
  split; [|split; [|split]].
  - rewrite (cr_length _ _ _ _ _ R), Hlen, (Forall2_length _ _ _ Hres).
    unfold type_component in *.
    destruct (truthy (type fld)); [|done].
    by destruct Hty as [comp ->].
  - rewrite <- Hlen. apply R.
  - rewrite (cr_creations _ _ _ _ _ R), (rf_creations _ _ _ F). by rewrite Hlen.
  - apply R.
Qed.

(** ** Teardown *)

Lemma keeps_intro st st' :
  field st' = field st →
  containerRef st' = containerRef st →
  hostObservers st' = hostObservers st →
  hooksObservers st' = hooksObservers st →
  valueChangesUnsubscribe st' = valueChangesUnsubscribe st →
  subscriptions st' = subscriptions st →
  (∀ m fld, nodes st !! m = Some fld →
     ∃ fld', nodes st' !! m = Some fld' ∧
             (is_Some (_componentRefs fld) → is_Some (_componentRefs fld'))) →
  length (containers st) ≤ length (containers st') →
  keeps_observers st st'.
Proof.
  intros H1 H2 H3 H4 H5 H6 Hn Hc. split; try done.
  - intros m [fld Hm]. destruct (Hn m fld Hm) as (fld' & -> & _). by eexists.
  - intros m. unfold tracked.
    destruct (nodes st !! m) as [fld|] eqn:Hm; [|by intros []].
    destruct (Hn m fld Hm) as (fld' & -> & Ht). exact Ht.
Qed.

Lemma keeps_same_nodes st st' :
  field st' = field st →
  containerRef st' = containerRef st →
  hostObservers st' = hostObservers st →
  hooksObservers st' = hooksObservers st →
  valueChangesUnsubscribe st' = valueChangesUnsubscribe st →
  subscriptions st' = subscriptions st →
  nodes st' = nodes st →
  length (containers st) ≤ length (containers st') →
  keeps_observers st st'.
Proof.
  intros H1 H2 H3 H4 H5 H6 Hn Hc. apply keeps_intro; try done.
  intros m fld Hm. exists fld. by rewrite Hn.
Qed.

Lemma nodes_insert_keeps (l : list FormlyFieldConfigCache) n fld0 fld1 :
  l !! n = Some fld0 →
  (is_Some (_componentRefs fld0) → is_Some (_componentRefs fld1)) →
  ∀ m fld, l !! m = Some fld →
    ∃ fld', <[n := fld1]> l !! m = Some fld' ∧
            (is_Some (_componentRefs fld) → is_Some (_componentRefs fld')).
Proof.
  intros Hn Ht m fld Hm. destruct (decide (n = m)) as [->|Hne].
  - rewrite list_lookup_insert_eq by (by eapply lookup_lt_Some).
    exists fld1. split; [done|]. by replace fld with fld0 by congruence.
  - rewrite list_lookup_insert_ne by done. by exists fld.
Qed.

Lemma keeps_observers_refl st : keeps_observers st st.
Proof. by apply keeps_same_nodes. Qed.

Lemma keeps_observers_trans st1 st2 st3 :
  keeps_observers st1 st2 → keeps_observers st2 st3 → keeps_observers st1 st3.
Proof.
  intros [] []. split; try congruence; auto; lia.
Qed.

Lemma keeps_well_formed st st' :
  keeps_observers st st' → well_formed st → well_formed st'.
Proof.
  intros K [Hf Hc]. split.
  - rewrite (ko_field _ _ K). destruct (field st); [|done].
    by apply (ko_nodes _ _ K).
  - rewrite (ko_containerRef _ _ K). pose proof (ko_containers _ _ K). lia.
Qed.

Lemma keeps_observers_held st st' :
  keeps_observers st st' → observers_held st → observers_held st'.
Proof.
  intros K Hheld i sub. unfold observers_held in *.
  rewrite (ko_subscriptions _ _ K), (ko_hostObservers _ _ K),
    (ko_hooksObservers _ _ K), (ko_unsubscribe _ _ K). apply Hheld.
Qed.

Lemma keeps_field_tracked st st' :
  keeps_observers st st' → field_tracked st → field_tracked st'.
Proof.
  intros K Ht p Hp. rewrite (ko_field _ _ K) in Hp.
  apply (ko_tracked _ _ K). by apply Ht.
Qed.

Lemma reset_frame_keeps c st st0 : reset_frame c st st0 → keeps_observers st st0.
Proof.
  intros F. apply keeps_intro; try apply F.
  - intros m fld Hm. rewrite (rf_nodes _ _ _ F m fld Hm).
    eexists. split; [done|]. simpl. by case_bool_decide.
  - by rewrite (rf_containers_length _ _ _ F).
Qed.

Lemma render_frame_keeps f st st' new :
  render_frame f st st' new → keeps_observers st st'.
Proof.
  intros F. apply keeps_intro; try apply F.
  intros m fld Hm. rewrite (gf_nodes _ _ _ _ F m fld Hm).
  eexists. split; [done|]. case_decide; [|done]. simpl.
  intros [l ->]. by eexists.
Qed.

Lemma renderField_keeps c f ws st st' :
  well_formed st →
  renderField c f ws st = OK st' →
  keeps_observers st st'.
Proof.
  intros Hwf H.
  destruct (renderField_frames _ _ _ _ _ Hwf H) as (st0 & new & F & G).
  eapply keeps_observers_trans;
    [by eapply reset_frame_keeps | by eapply render_frame_keeps].
Qed.

Lemma resetRefs_keeps f st st' :
  resetRefs f st = OK st' →
  keeps_observers st st' ∧ refs st' = refs st ∧ containers st' = containers st ∧
  trace st' = trace st ∧ componentRefs st' = [] ∧
  ∀ m fld, nodes st !! m = Some fld →
    ∃ l, nodes st' !! m = Some (set__componentRefs l fld).
Proof.
  assert (∀ n l fld0, nodes st !! n = Some fld0 →
            ∀ m fld, nodes st !! m = Some fld →
              ∃ l', <[n := set__componentRefs l fld0]> (nodes st) !! m =
                    Some (set__componentRefs l' fld)) as Hupd.
  { intros n l fld0 Hn m fld Hm. destruct (decide (n = m)) as [->|Hne].
    - rewrite list_lookup_insert_eq by (by eapply lookup_lt_Some).
      exists l. congruence.
    - rewrite list_lookup_insert_ne by done.
      exists (_componentRefs fld). by rewrite set__componentRefs_id. }
  unfold resetRefs, get_node. destruct f as [n|].
  - destruct (nodes st !! n) as [fld|] eqn:Hn; [|done]. simpl.
    destruct (_componentRefs fld).
    + intros [= <-]. split; [|repeat split; try done; by apply Hupd].
      apply keeps_intro; try done. simpl.
      by apply (nodes_insert_keeps _ n fld).
    + unfold defineHiddenProp__componentRefs, get_node.
      destruct (field st) as [m|]; [|done].
      destruct (nodes st !! m) eqn:Hm; [|done]. simpl.
      intros [= <-]. split; [|repeat split; try done; by apply Hupd].
      apply keeps_intro; try done. simpl.
      by eapply nodes_insert_keeps.
  - intros [= <-]. split; [by apply keeps_same_nodes|].
    repeat split; try done. simpl.
    intros m fld Hm. exists (_componentRefs fld).
    by rewrite set__componentRefs_id.
Qed.

Lemma valueChanges_subscriber_keeps n c v st st' :
  valueChanges_subscriber n c v st = OK st' →
  keeps_observers st st' ∧ refs st' = refs st ∧ containers st' = containers st.
Proof.
  unfold valueChanges_subscriber.
  destruct (controls st !! c) as [control|]; [|done]. simpl.
  destruct (isFormControl control && _); unfold get_node; simpl;
    (destruct (nodes st !! n) as [fld|] eqn:Hfld; [|done]); simpl;
    unfold assignFieldValue, get_node; simpl; rewrite Hfld; simpl;
    (destruct (key fld); [|done]); simpl; intros [= <-]; simpl;
    (split; [|done]); apply keeps_intro; try done; simpl;
    by apply (nodes_insert_keeps _ n fld).
Qed.

Lemma deliver_keeps n c vs : ∀ st st',
  deliver n c vs st = OK st' →
  keeps_observers st st' ∧ refs st' = refs st ∧ containers st' = containers st.
Proof.
  induction vs as [|v vs IH]; intros st st' H; simpl in H.
  - injection H as <-. split; [apply keeps_observers_refl|done].
  - apply bind_inv in H as (s & Hs & H).
    apply valueChanges_subscriber_keeps in Hs as (K1 & ? & ?).
    apply IH in H as (K2 & ? & ?).
    split; [by eapply keeps_observers_trans|]. split; congruence.
Qed.

Lemma fieldComponent_observer_keeps f wps ref cur previous first st st' :
  well_formed st →
  fieldComponent_observer (λ m, renderField m f wps) ref cur previous first st
    = OK st' →
  keeps_observers st st'.
Proof.
  intros Hwf. unfold fieldComponent_observer.
  destruct cur as [cur|]; [|intros [= <-]; apply keeps_observers_refl].
  set (d := match previous with Some prev => detach prev st | None => (st, None) end).
  assert (keeps_observers st d.1) as K1.
  { subst d. destruct previous as [prev|]; [|apply keeps_observers_refl].
    unfold detach. destruct (last (views prev st)); split; try done.
    simpl. by rewrite length_insert. }
  destruct d as [st1 viewRef]. simpl in K1.
  pose proof (keeps_well_formed _ _ K1 Hwf) as Hwf1.
  intros H. apply bind_inv in H as (st2 & H2 & H).
  assert (keeps_observers st1 st2) as K2.
  { destruct viewRef as [v|].
    - destruct (view_destroyed v st1).
      + by eapply renderField_keeps.
      + injection H2 as <-. split; try done. simpl.
        by rewrite length_alter.
    - by eapply renderField_keeps. }
  eapply keeps_observers_trans; [exact K1|].
  eapply keeps_observers_trans; [exact K2|].
  destruct first; injection H as <-; [apply keeps_observers_refl|by split].
Qed.

Lemma set_fieldComponent_keeps ref v st st' :
  well_formed st →
  set_fieldComponent ref v st = OK st' →
  keeps_observers st st'.
Proof.
  intros Hwf. unfold set_fieldComponent.
  destruct (refs st !! ref) as [r|]; [|done].
  destruct (observer r) as [[f wps]|].
  - destruct (decide (v = fieldComponent r)).
    + intros [= <-]. apply keeps_observers_refl.
    + intros H. apply fieldComponent_observer_keeps in H; [|done].
      eapply keeps_observers_trans; [|exact H]. by split.
  - intros [= <-]. by split.
Qed.

Lemma resolve_view_query_keeps ref st st' :
  well_formed st →
  resolve_view_query ref st = OK st' →
  keeps_observers st st'.
Proof.
  intros Hwf H. unfold resolve_view_query in H.
  apply set_fieldComponent_keeps in H.
  - eapply keeps_observers_trans; [|exact H]. split; try done.
    simpl. rewrite length_app. lia.
  - destruct Hwf as [Hf Hc]. split; [done|]. simpl. rewrite length_app. lia.
Qed.



Lemma held_in_app held subs news held' :
  held_in held subs →
  (∀ i, i ∈ held → i < length subs → i ∈ held') →
  (∀ j, j < length news → length subs + j ∈ held') →
  held_in held' (subs ++ news).
Proof.
  intros H Hsub Hnew i sub Hi Ha.
  destruct (decide (i < length subs)) as [Hlt|Hge].
  - rewrite lookup_app_l in Hi by done. apply Hsub; [|done]. by eapply H.
  - rewrite lookup_app_r in Hi by lia.
    apply lookup_lt_Some in Hi as Hlt.
    replace i with (length subs + (i - length subs)) by lia.
    by apply Hnew.
Qed.

Lemma held_in_unsubscribe_all held ids st :
  held_in held (subscriptions st) →
  ∀ i sub,
    subscriptions (unsubscribe_all ids st) !! i = Some sub →
    active sub = true →
    i ∈ held ∧ i ∉ ids.
Proof.
  intros H i sub Hi Ha. rewrite unsubscribe_all_lookup in Hi.
  destruct (subscriptions st !! i) as [sub0|] eqn:Hs; [|done].
  case_bool_decide; simpl in Hi; injection Hi as <-; [done|].
  split; [by eapply H | done].
Qed.

Lemma unsubscribe_all_length ids st :
  length (subscriptions (unsubscribe_all ids st)) = length (subscriptions st).
Proof. apply unsubscribe_all_frame. Qed.

(** What a successful [fieldChanges] has done. *)
Lemma fieldChanges_inv f st s ids :
  fieldChanges f st = OK (s, ids) →
  let st0 := unsubscribe_all (valueChangesUnsubscribe st) st in
  ∃ news,
    ids = seq (length (subscriptions st0)) (length news) ∧
    keeps_observers
      (set_subscriptions (subscriptions st0 ++ news) st0) s ∧
    refs s = refs st ∧ containers s = containers st.
Proof.
  intros H st0. unfold fieldChanges in H. fold st0 in H.
  destruct (unsubscribe_all_frame (valueChangesUnsubscribe st) st)
    as (_&_&_&_&_&_&_&_&Hrefs&Hcont&_).
  fold st0 in Hrefs, Hcont.
  destruct f as [n|].
  - unfold get_node in H. destruct (nodes st0 !! n) as [fld|]; [|done].
    simpl in H.
    destruct (truthy (key fld) && bool_decide (fieldGroup fld = None)).
    + destruct (formControl fld) as [c|]; [|done]. simpl in H.
      destruct (controls st0 !! c) as [control|]; [|done]. simpl in H.
      destruct (modelOptions fld) as [mo|]; [|done]. simpl in H.
      apply bind_inv in H as (s5 & Hd & H). injection H as <- <-.
      apply deliver_keeps in Hd as (K & Hr & Hc).
      eexists [_; _; _; _; _; _]. split; [|split; [|split]].
      * simpl. rewrite !length_app. simpl.
        repeat (f_equal; try lia).
      * rewrite <- !app_assoc in K. exact K.
      * by rewrite Hr.
      * by rewrite Hc.
    + injection H as <- <-.
      eexists [_; _; _; _; _]. split; [|split; [|split]].
      * simpl. rewrite !length_app. simpl.
        repeat (f_equal; try lia).
      * rewrite <- !app_assoc. simpl. by split.
      * done.
      * done.
  - injection H as <- <-. exists []. split; [done|]. split; [|done].
    split; try done. simpl. by rewrite app_nil_r.
Qed.


Lemma unsubscribe_all_well_formed ids st :
  well_formed st → well_formed (unsubscribe_all ids st).
Proof.
  intros [Hf Hc].
  destruct (unsubscribe_all_frame ids st) as (E1&E2&_&_&_&_&E7&_&_&E10&_).
  split; [by rewrite E1, E7 | by rewrite E2, E10].
Qed.

Lemma resync_preserves name changes st st1 :
  resync name changes st = OK st1 →
  well_formed st →
  observers_held st →
  well_formed st1 ∧ observers_held st1.
Proof.
  intros H Hwf Hheld. unfold resync in H.
  apply bind_inv in H as (again & _ & H).
  destruct again; [|by injection H as <-].
  apply bind_inv in H as ([s ids] & Hfc & H). injection H as <-. simpl.
  destruct (fieldChanges_inv _ _ _ _ Hfc) as (news & -> & K & _ & _).
  set (st0 := unsubscribe_all (valueChangesUnsubscribe st) st) in *.
  destruct (unsubscribe_all_frame (valueChangesUnsubscribe st) st)
    as (E1&E2&E3&_&E5&_&E7&_&_&E10&_).
  fold st0 in E1, E2, E3, E5, E7, E10.
  split.
  - assert (well_formed s) as [Hf Hc].
    { eapply keeps_well_formed; [exact K|].
      destruct (unsubscribe_all_well_formed (valueChangesUnsubscribe st) st Hwf).
      by split. }
    by split.
  - unfold observers_held. simpl.
    rewrite (ko_subscriptions _ _ K), (ko_hostObservers _ _ K),
      (ko_hooksObservers _ _ K). simpl. rewrite E3, E5.
    eapply (held_in_app (hostObservers st ++ hooksObservers st)).
    + intros i sub Hi Ha.
      destruct (held_in_unsubscribe_all _ _ _ Hheld i sub Hi Ha) as [Hin Hnin].
      rewrite app_assoc in Hin. apply elem_of_app in Hin as [?|?]; done.
    + intros i Hi _. rewrite app_assoc. apply elem_of_app. by left.
    + intros j Hj. rewrite !elem_of_app. right. right.
      apply elem_of_seq. lia.
Qed.

Lemma call_hook_preserves name changes st :
  well_formed st →
  observers_held st →
  well_formed (call_hook name changes st) ∧
  observers_held (call_hook name changes st).
Proof.
  intros Hwf Hheld. unfold call_hook.
  destruct (field st) as [n|] eqn:Hf; [|done].
  destruct (hook_of n name st) as [h|]; [|done].
  destruct (no_changes_or_field changes); [|done].
  assert (well_formed (log (HookCall name n) st) ∧
          observers_held (log (HookCall name n) st)) as Hlog by done.
  destruct h; [done|].
  case_bool_decide; [|done]. simpl. split.
  - destruct Hwf as [Hwf1 Hwf2]. split; simpl; [by rewrite Hf in *|done].
  - unfold observers_held. simpl.
    eapply held_in_app; [exact Hheld| |].
    + intros i. rewrite !elem_of_app. tauto.
    + intros j Hj. simpl in Hj. rewrite !elem_of_app, !list_elem_of_singleton.
      right. left. right. lia.
Qed.

Lemma renderHostBinding_preserves st st1 :
  renderHostBinding st = OK st1 →
  well_formed st →
  observers_held st →
  well_formed st1 ∧ observers_held st1.
Proof.
  intros H Hwf Hheld.
  destruct (field st) as [n|] eqn:Hf.
  2: { unfold renderHostBinding in H. rewrite Hf in H. by injection H as <-. }
  destruct Hwf as [Hwf1 Hwf2]. rewrite Hf in Hwf1. destruct Hwf1 as [fld Hn].
  destruct (renderHostBinding_ok n fld st Hf Hn)
    as (s & Hhb & E1 & E2 & E3 & E4 & E5 & E6 & E7 & E8 & E9 & E10 & E11 & E12 & E13).
  rewrite Hhb in H. injection H as <-. split.
  - split; [by rewrite E1, Hf, E6, Hn | by rewrite E2, E9].
  - unfold observers_held. rewrite E11, E12, E4, E5.
    eapply (held_in_app (hooksObservers st ++ valueChangesUnsubscribe st)).
    + intros i sub Hi Ha.
      destruct (held_in_unsubscribe_all _ _ _ Hheld i sub Hi Ha) as [Hin Hnin].
      apply elem_of_app in Hin as [?|?]; done.
    + intros i Hi _. apply elem_of_app. by right.
    + intros j Hj. rewrite unsubscribe_all_length. simpl in Hj.
      apply elem_of_app. left.
      destruct j as [|[|j]]; [| |lia].
      * rewrite Nat.add_0_r. by left.
      * rewrite Nat.add_1_r. right. by left.
Qed.

Lemma rerender_preserves name changes st st1 :
  rerender name changes st = OK st1 →
  well_formed st →
  observers_held st →
  well_formed st1 ∧ observers_held st1.
Proof.
  intros H Hwf Hheld. unfold rerender in H.
  case_bool_decide; [|by injection H as <-].
  destruct changes as [[ch|]|]; [| by injection H as <- | done].
  apply bind_inv in H as (s1 & H1 & H).
  apply bind_inv in H as (s2 & H2 & H).
  destruct (renderHostBinding_preserves _ _ H1 Hwf Hheld) as [Hwf1 Hheld1].
  apply resetRefs_keeps in H2 as (K2 & _).
  pose proof (keeps_well_formed _ _ K2 Hwf1) as Hwf2.
  pose proof (renderField_keeps _ _ _ _ _ Hwf2 H) as K3.
  split.
  - by eapply keeps_well_formed.
  - eapply keeps_observers_held; [exact K3|].
    by eapply keeps_observers_held.
Qed.

Lemma triggerHook_preserves name changes st st1 :
  triggerHook name changes st = OK st1 →
  well_formed st →
  observers_held st →
  well_formed st1 ∧ observers_held st1.
Proof.
  intros H Hwf Hheld. unfold triggerHook in H.
  apply bind_inv in H as (s1 & H1 & H).
  destruct (resync_preserves _ _ _ _ H1 Hwf Hheld) as [Hwf1 Hheld1].
  destruct (call_hook_preserves name changes s1 Hwf1 Hheld1) as [Hwf2 Hheld2].
  by eapply rerender_preserves.
Qed.


Lemma unsubscribe_all_app ids1 ids2 st :
  unsubscribe_all (ids1 ++ ids2) st = unsubscribe_all ids2 (unsubscribe_all ids1 st).
Proof. apply foldl_app. Qed.

Lemma set_active_false_inactive sub :
  active sub = false → set_active false sub = sub.
Proof. destruct sub. simpl. by intros ->. Qed.

Lemma resetRefs_field_ok st :
  well_formed st → ∃ st1, resetRefs (field st) st = OK st1.
Proof.
  intros [Hf _]. destruct (field st) as [m|] eqn:Hm.
  - destruct Hf as [fld Hfld].
    destruct (_componentRefs fld) eqn:Hl.
    + eexists. by eapply resetRefs_tracked.
    + eexists. by eapply resetRefs_untracked.
  - eexists. apply resetRefs_undefined.
Qed.

(** One teardown. *)
Lemma ngOnDestroy_spec st :
  well_formed st →
  observers_held st →
  ∃ st',
    ngOnDestroy st = OK st' ∧
    well_formed st' ∧
    subscriptions st' = set_active false <$> subscriptions st ∧
    refs st' = refs st ∧ containers st' = containers st ∧
    componentRefs st' = [] ∧
    hostObservers st' = hostObservers st ∧
    hooksObservers st' = hooksObservers st ∧
    valueChangesUnsubscribe st' = valueChangesUnsubscribe st ∧
    trace st' =
      trace st ++
        map Unsubscribe
          (hostObservers st ++ hooksObservers st ++ valueChangesUnsubscribe st) ++
        onDestroy_call st ∧
    (field_tracked st → field_tracked st').
Proof.
  intros Hwf Hheld. unfold ngOnDestroy.
  destruct (resetRefs_field_ok st Hwf) as [st1 H1]. rewrite H1. simpl.
  apply resetRefs_keeps in H1 as (K1 & Hr1 & Hc1 & Ht1 & Hcr1 & Hnodes1).
  destruct (unsubscribe_all_frame (hostObservers st1) st1)
    as (_&_&A3&_&A5&A6&_).
  rewrite A5.
  destruct (unsubscribe_all_frame (hooksObservers st1)
              (unsubscribe_all (hostObservers st1) st1)) as (_&_&B3&_&B5&B6&_).
  rewrite B6, A6.
  rewrite <- !unsubscribe_all_app.
  set (ids := hostObservers st1 ++ hooksObservers st1 ++ valueChangesUnsubscribe st1).
  set (st4 := unsubscribe_all ids st1).
  assert (ids = hostObservers st ++ hooksObservers st ++ valueChangesUnsubscribe st)
    as Hids.
  { subst ids. by rewrite (ko_hostObservers _ _ K1), (ko_hooksObservers _ _ K1),
      (ko_unsubscribe _ _ K1). }
  destruct (unsubscribe_all_frame ids st1)
    as (E1&E2&E3&E4&E5&E6&E7&E8&E9&E10&E11&E12&E13).
  fold st4 in E1, E2, E3, E4, E5, E6, E7, E8, E9, E10, E11, E12, E13.
  assert (subscriptions st4 = set_active false <$> subscriptions st) as Hsubs.
  { apply list_eq. intros i. subst st4.
    rewrite unsubscribe_all_lookup, list_lookup_fmap, (ko_subscriptions _ _ K1).
    destruct (subscriptions st !! i) as [sub|] eqn:Hi; [|done]. simpl.
    case_bool_decide as Hin; [done|]. f_equal.
    symmetry. apply set_active_false_inactive.
    destruct (active sub) eqn:Ha; [|done].
    exfalso. apply Hin. rewrite Hids. by eapply Hheld. }
  assert (well_formed st4) as Hwf4.
  { apply unsubscribe_all_well_formed. by eapply keeps_well_formed. }
  assert (triggerHook "onDestroy" None st4 = OK (call_hook "onDestroy" None st4))
    as -> by done.
  assert (hook_events : trace (call_hook "onDestroy" None st4) =
                        trace st4 ++ onDestroy_call st).
  { unfold call_hook, onDestroy_call, hook_of.
    rewrite E1, E7, (ko_field _ _ K1).
    destruct (field st) as [n|] eqn:Hf; [|by rewrite app_nil_r].
    destruct Hwf as [Hwf1 _]. rewrite Hf in Hwf1. destruct Hwf1 as [fld Hn].
    destruct (Hnodes1 n fld Hn) as [l ->]. rewrite Hn. simpl.
    destruct (hooks fld) as [hs|]; [|by rewrite app_nil_r].
    destruct (hs !! "onDestroy"%string) as [[|]|]; simpl;
      by rewrite ?app_nil_r. }
  exists (call_hook "onDestroy" None st4). split; [done|].
  assert (∀ s, well_formed s →
            well_formed (call_hook "onDestroy" None s) ∧
            subscriptions (call_hook "onDestroy" None s) = subscriptions s ∧
            refs (call_hook "onDestroy" None s) = refs s ∧
            containers (call_hook "onDestroy" None s) = containers s ∧
            componentRefs (call_hook "onDestroy" None s) = componentRefs s ∧
            hostObservers (call_hook "onDestroy" None s) = hostObservers s ∧
            hooksObservers (call_hook "onDestroy" None s) = hooksObservers s ∧
            valueChangesUnsubscribe (call_hook "onDestroy" None s) =
              valueChangesUnsubscribe s ∧
            field (call_hook "onDestroy" None s) = field s ∧
            nodes (call_hook "onDestroy" None s) = nodes s) as Hcall.
  { intros s Hs. unfold call_hook.
    destruct (field s) as [n|] eqn:Hf; [|done].
    destruct (hook_of n "onDestroy" s) as [[|]|]; simpl; done. }
  destruct (Hcall st4 Hwf4) as (C1 & C2 & C3 & C4 & C5 & C6 & C7 & C8 & C9 & C10).
  split; [done|].
  rewrite C2, C3, C4, C5, C6, C7, C8, hook_events.
  rewrite E3, E4, E5, E6, E9, E10, E13, Hsubs, Hr1, Hc1, Ht1, Hcr1, Hids.
  rewrite (ko_hostObservers _ _ K1), (ko_hooksObservers _ _ K1),
    (ko_unsubscribe _ _ K1), <- app_assoc.
  repeat split; try done.
  intros Htr p Hp. rewrite C9, E1, (ko_field _ _ K1) in Hp.
  unfold tracked. rewrite C10, E7.
  apply (ko_tracked _ _ K1). by apply Htr.
Qed.



Lemma all_cancelled_held st :
  (∀ i, is_active i st = false) → observers_held st.
Proof.
  intros H i sub Hi Ha. specialize (H i). unfold is_active in H.
  rewrite Hi in H. congruence.
Qed.

Lemma deactivated_inactive st st' :
  subscriptions st' = set_active false <$> subscriptions st →
  ∀ i, is_active i st' = false.
Proof.
  intros H i. unfold is_active. rewrite H, list_lookup_fmap.
  by destruct (subscriptions st !! i).
Qed.

Lemma resync_tracked name changes st st1 :
  resync name changes st = OK st1 →
  field st1 = field st ∧ ∀ m, is_Some (tracked m st) → is_Some (tracked m st1).
Proof.
  intros H. unfold resync in H.
  apply bind_inv in H as (again & _ & H).
  destruct again; [|by injection H as <-].
  apply bind_inv in H as ([s ids] & Hfc & H). injection H as <-. simpl.
  destruct (fieldChanges_inv _ _ _ _ Hfc) as (news & _ & K & _ & _).
  destruct (unsubscribe_all_frame (valueChangesUnsubscribe st) st)
    as (E1&_&_&_&_&_&E7&_).
  split.
  - by rewrite (ko_field _ _ K).
  - intros m Hm. apply (ko_tracked _ _ K). unfold tracked in *. simpl.
    by rewrite E7.
Qed.

Lemma call_hook_nodes name changes st :
  field (call_hook name changes st) = field st ∧
  nodes (call_hook name changes st) = nodes st.
Proof.
  unfold call_hook. destruct (field st) as [n|] eqn:Hf; [|done].
  destruct (hook_of n name st) as [h|]; [|done].
  destruct (no_changes_or_field changes); [|done].
  destruct h; [done|]. by case_bool_decide.
Qed.

(** After the rendering of a changed transition the field has its tracked
    list. *)
Lemma rerender_tracked name changes st st1 :
  rerender name changes st = OK st1 →
  well_formed st →
  field_tracked st ∨
    (name = "onChanges"%string ∧ ∃ ch, changes = Some (Some ch)) →
  field_tracked st1.
Proof.
  intros H Hwf Hcase. unfold rerender in H.
  case_bool_decide as Hname.
  2: { injection H as <-. by destruct Hcase as [?|[? _]]. }
  destruct changes as [[ch|]|]; [| |done].
  2: { injection H as <-. by destruct Hcase as [?|(_ & ? & ?)]. }
  clear Hcase.
  apply bind_inv in H as (s1 & H1 & H).
  apply bind_inv in H as (s2 & H2 & H).
  assert (well_formed s1) as Hwf1.
  { destruct (field st) as [n|] eqn:Hf.
    - destruct Hwf as [Hwf1 Hwf2]. rewrite Hf in Hwf1.
      destruct Hwf1 as [fld Hn].
      destruct (renderHostBinding_ok n fld st Hf Hn)
        as (s & Hhb & E1 & E2 & _ & _ & _ & E6 & _ & _ & E9 & _).
      rewrite Hhb in H1. injection H1 as <-.
      split; [by rewrite E1, Hf, E6, Hn | by rewrite E2, E9].
    - unfold renderHostBinding in H1. rewrite Hf in H1.
      injection H1 as <-. split; [by rewrite Hf | apply Hwf]. }
  apply resetRefs_keeps in H2 as (K2 & _).
  pose proof (keeps_well_formed _ _ K2 Hwf1) as Hwf2.
  destruct (renderField_frames _ _ _ _ _ Hwf2 H) as (s0 & new & F & G).
  intros p Hp.
  rewrite (gf_field _ _ _ _ G), (rf_field _ _ _ F) in Hp.
  destruct Hwf2 as [Hwf2 _]. rewrite Hp in Hwf2. destruct Hwf2 as [fld Hfld].
  pose proof (rf_nodes _ _ _ F p fld Hfld) as Hn0.
  rewrite bool_decide_true in Hn0 by done.
  unfold tracked. rewrite (gf_nodes _ _ _ _ G p _ Hn0).
  case_decide; simpl; by eexists.
Qed.

Lemma triggerHook_tracked name changes st st1 :
  triggerHook name changes st = OK st1 →
  well_formed st →
  observers_held st →
  field_tracked st ∨
    (name = "onChanges"%string ∧ ∃ ch, changes = Some (Some ch)) →
  field_tracked st1.
Proof.
  intros H Hwf Hheld Hcase. unfold triggerHook in H.
  apply bind_inv in H as (s1 & H1 & H).
  destruct (resync_preserves _ _ _ _ H1 Hwf Hheld) as [Hwf1 Hheld1].
  destruct (call_hook_preserves name changes s1 Hwf1 Hheld1) as [Hwf2 _].
  eapply rerender_tracked; [exact H|done|].
  destruct Hcase as [Htr|?]; [left|by right].
  destruct (resync_tracked _ _ _ _ H1) as [Hf Ht].
  destruct (call_hook_nodes name changes s1) as [Hf2 Hn2].
  intros p Hp. rewrite Hf2, Hf in Hp. unfold tracked. rewrite Hn2.
  apply Ht. by apply Htr.
Qed.

(** The renderer stays well formed, keeps hold of its observers and has
    the tracked list of its field through its whole life. *)
Lemma lifecycle_preserves st st' :
  lifecycle st st' → renderer_invariant st → renderer_invariant st'.
Proof.
  intros Hstep (Hwf & Hheld & Htr). destruct Hstep as
    [st f first st' Hf H | st st' H | st st' H | st st' H | st st' H
    | st ref st' H | st ref v st' H | st i n c pipe v st' _ H].
  - assert (well_formed (set_field f st)) as Hwf'.
    { destruct Hwf as [_ Hc]. split; [|done]. simpl.
      destruct f as [m|]; [by apply Hf|done]. }
    destruct (triggerHook_preserves _ _ _ _ H Hwf' Hheld) as [? ?].
    split; [done|]. split; [done|].
    eapply triggerHook_tracked; [exact H|done|done|]. right. by eauto.
  - destruct (triggerHook_preserves _ _ _ _ H Hwf Hheld) as [? ?].
    split; [done|]. split; [done|]. eapply triggerHook_tracked; eauto.
  - destruct (triggerHook_preserves _ _ _ _ H Hwf Hheld) as [? ?].
    split; [done|]. split; [done|]. eapply triggerHook_tracked; eauto.
  - destruct (triggerHook_preserves _ _ _ _ H Hwf Hheld) as [? ?].
    split; [done|]. split; [done|]. eapply triggerHook_tracked; eauto.
  - destruct (ngOnDestroy_spec st Hwf Hheld)
      as (s & Hs & Hwf' & Hsubs & _ & _ & _ & _ & _ & _ & _ & Htr').
    rewrite Hs in H. injection H as <-. split; [done|]. split.
    + apply all_cancelled_held. by eapply deactivated_inactive.
    + by apply Htr'.
  - pose proof (resolve_view_query_keeps _ _ _ Hwf H) as K.
    split; [by eapply keeps_well_formed|].
    split; [by eapply keeps_observers_held | by eapply keeps_field_tracked].
  - pose proof (set_fieldComponent_keeps _ _ _ _ Hwf H) as K.
    split; [by eapply keeps_well_formed|].
    split; [by eapply keeps_observers_held | by eapply keeps_field_tracked].
  - apply valueChanges_subscriber_keeps in H as (K & _).
    split; [by eapply keeps_well_formed|].
    split; [by eapply keeps_observers_held | by eapply keeps_field_tracked].
Qed.

Lemma reachable_invariant st : reachable st → renderer_invariant st.
Proof.
  intros (st0 & (Hwf & Hf & Hsubs & _) & Hsteps).
  assert (renderer_invariant st0) as Hinv.
  { split; [done|]. split.
    - intros i sub Hi. by rewrite Hsubs in Hi.
    - intros p Hp. by rewrite Hf in Hp. }
  clear Hwf Hf Hsubs. revert Hinv.
  induction Hsteps as [|s1 s2 s3 Hstep _ IH]; intros Hinv; [done|].
  apply IH. by eapply lifecycle_preserves.
Qed.

(** The preconditions of the changed transition hold whenever a renderer
    gets there: at line 120 the renderer is well formed, its field is the
    new one, and the previous field has its tracked list. *)
Lemma changed_transition_previous_tracked st0 f first s :
  reachable st0 →
  (∀ m, f = Some m → is_Some (nodes st0 !! m)) →
  let changes :=
    Some (Some {| previousValue := field st0; firstChange := first |}) in
  resync "onChanges" changes (set_field f st0) = OK s →
  let st := call_hook "onChanges" changes s in
  well_formed st ∧ field st = f ∧
  ∀ p, field st0 = Some p → is_Some (tracked p st).
Proof.
  intros Hreach Hf changes H st.
  destruct (reachable_invariant st0 Hreach) as (Hwf & Hheld & Htr).
  assert (well_formed (set_field f st0)) as Hwf'.
  { destruct Hwf as [_ Hc]. split; [|done]. simpl.
    destruct f as [m|]; [by apply Hf|done]. }
  destruct (resync_preserves _ _ _ _ H Hwf' Hheld) as [Hwf1 Hheld1].
  destruct (call_hook_preserves "onChanges" changes s Hwf1 Hheld1) as [Hwf2 _].
  destruct (resync_tracked _ _ _ _ H) as [Hfs Hts].
  destruct (call_hook_nodes "onChanges" changes s) as [Hf2 Hn2].
  subst st. split; [done|]. split; [by rewrite Hf2, Hfs|].
  intros p Hp. unfold tracked. rewrite Hn2.
  apply Hts. by apply Htr.
Qed.


(** * Further properties of the renderer *)

(** ** Rendering: what is created, what fails, what is left alone *)

Lemma reset_own_container_cleared st st0 :
  reset_own_container (containerRef st) st = OK st0 →
  containers st0 = <[containerRef st := []]> (containers st).
Proof.
  unfold reset_own_container. rewrite decide_True by done.
  intros H. apply bind_inv in H as (st1 & H1 & H).
  apply resetRefs_keeps in H1 as (K & _ & Hc & _).
  injection H as <-. simpl. by rewrite Hc, (ko_containerRef _ _ K).
Qed.

(** X1: [renderField] without wrappers for a field that has no type, or for
    no field at all, creates no component; on a container other than the
    renderer's own it changes nothing at all, and on the own container it
    only resets: the container is emptied and [componentRefs] too. *)
Theorem renderField_without_type_creates_nothing c f st :
  well_formed st →
  f = None ∨
    (∃ n fld, f = Some n ∧ nodes st !! n = Some fld ∧
              truthy (type fld) = false) →
  ∃ st',
    renderField c f [] st = OK st' ∧
    length (refs st') = length (refs st) ∧
    creations (trace st') = creations (trace st) ∧
    (containerRef st ≠ c → st' = st) ∧
    (containerRef st = c → views c st' = [] ∧ componentRefs st' = []).
Proof.
  intros Hwf Hf.
  destruct (reset_own_container_ok c st Hwf) as (st0 & Hreset & F).
  assert (render_type c f st0 = OK st0) as Hrt.
  { destruct Hf as [->|(n & fld & -> & Hn & Ht)]; [done|].
    by eapply render_type_none; [apply (rf_nodes _ _ _ F n fld Hn)|]. }
  exists st0. split; [by rewrite renderField_eq, Hreset|].
  split; [apply F|]. split; [apply F|]. split.
  - intros Hne. rewrite reset_own_container_other in Hreset by done.
    congruence.
  - intros <-. split.
    + unfold views. rewrite (reset_own_container_cleared _ _ Hreset).
      rewrite list_lookup_insert_eq; [done|apply Hwf].
    + by rewrite (rf_componentRefs _ _ _ F), decide_True.
Qed.

(** X2: a wrapper or a type that the registry does not know makes
    [renderField] fail with the error of the registry, naming it; it is
    not skipped. *)
Theorem renderField_unregistered_renderer c f st :
  well_formed st →
  (∀ w wps,
     getWrapper config w = None →
     renderField c f (w :: wps) st = Err (UnregisteredRendererError w)) ∧
  (∀ n fld ty,
     f = Some n →
     nodes st !! n = Some fld →
     type fld = Some ty →
     ty ≠ EmptyString →
     getType config ty = None →
     renderField c f [] st = Err (UnregisteredRendererError ty)).
Proof.
  intros Hwf.
  destruct (reset_own_container_ok c st Hwf) as (st0 & Hreset & F).
  split.
  - intros w wps Hw. rewrite renderField_eq, Hreset. simpl.
    unfold render_wrapper. by rewrite Hw.
  - intros n fld ty -> Hn Hty Hne Hg. rewrite renderField_eq, Hreset. simpl.
    unfold render_type, get_node.
    rewrite (rf_nodes _ _ _ F n fld Hn). simpl. rewrite Hty. simpl.
    rewrite bool_decide_true by done. by rewrite Hg.
Qed.


(** X4: a successful [renderField] touches nothing but references: the
    controls, the subscriptions and observers, the broadcast channel and
    the renderer's field are as before, and a field changes in its tracked
    list only.  On a container other than the renderer's own nothing is
    pruned or destroyed either: references and [componentRefs] are only
    extended, and the fields other than the rendered one are untouched. *)
Theorem renderField_only_tracks c f ws st st' :
  well_formed st →
  renderField c f ws st = OK st' →
  controls st' = controls st ∧
  subscriptions st' = subscriptions st ∧
  fieldChangesChannel st' = fieldChangesChannel st ∧
  hostObservers st' = hostObservers st ∧
  hooksObservers st' = hooksObservers st ∧
  valueChangesUnsubscribe st' = valueChangesUnsubscribe st ∧
  field st' = field st ∧
  (∀ n fld, nodes st !! n = Some fld →
     ∃ l, nodes st' !! n = Some (set__componentRefs l fld)) ∧
  (containerRef st ≠ c →
   ∃ new,
     refs st' = refs st ++ new ∧
     componentRefs st' = componentRefs st ++ seq (length (refs st)) (length new) ∧
     ∀ n fld, f ≠ Some n → nodes st !! n = Some fld →
       nodes st' !! n = Some fld).
Proof.
  intros Hwf H.
  destruct (renderField_frames _ _ _ _ _ Hwf H) as (st0 & new & F & G).
  split; [by rewrite (gf_controls _ _ _ _ G), (rf_controls _ _ _ F)|].
  split; [by rewrite (gf_subscriptions _ _ _ _ G), (rf_subscriptions _ _ _ F)|].
  split; [by rewrite (gf_channel _ _ _ _ G), (rf_channel _ _ _ F)|].
  split; [by rewrite (gf_hostObservers _ _ _ _ G), (rf_hostObservers _ _ _ F)|].
  split; [by rewrite (gf_hooksObservers _ _ _ _ G), (rf_hooksObservers _ _ _ F)|].
  split; [by rewrite (gf_unsubscribe _ _ _ _ G), (rf_unsubscribe _ _ _ F)|].
  split; [by rewrite (gf_field _ _ _ _ G), (rf_field _ _ _ F)|].
  split.
  - intros n fld Hn.
    rewrite (gf_nodes _ _ _ _ G n _ (rf_nodes _ _ _ F n fld Hn)).
    case_decide; by eexists.
  - intros Hne. rewrite renderField_other in H by done.
    apply render_rest_frame in H as [new' G']; [|apply Hwf].
    exists new'. split; [apply G'|]. split; [apply G'|].
    intros n fld Hf Hn. rewrite (gf_nodes _ _ _ _ G' n fld Hn).
    by rewrite decide_False.
Qed.


(** ** The own container and the tracked lists *)

Lemma render_rest_views f ws : ∀ c st st',
  containerRef st < length (containers st) →
  c < length (containers st) →
  render_rest c f ws st = OK st' →
  views c st' =
    views c st ++
      (if decide (length (refs st') = length (refs st)) then []
       else [length (refs st)]) ∧
  ∀ c', c' < length (containers st) → c' ≠ c →
    containers st' !! c' = containers st !! c'.
Proof.
  assert (∀ k c n comp inner obs fld l st,
            c < length (containers st) →
            let s := component_attached k c n comp inner obs fld l st in
            views c s = views c st ++ [length (refs st)] ∧
            ∀ c', c' < length (containers st) → c' ≠ c →
              containers s !! c' = containers st !! c') as Hatt.
  { intros k c n comp inner obs fld l st Hc. simpl. split.
    - unfold views. simpl.
      rewrite lookup_app_l by (by rewrite length_alter).
      rewrite list_lookup_alter_eq.
      destruct (lookup_lt_is_Some_2 _ _ Hc) as [vs ->]. done.
    - intros c' Hc' Hne.
      rewrite lookup_app_l by (by rewrite length_alter).
      by rewrite list_lookup_alter_ne. }
  induction ws as [|w wps IH]; intros c st st' Hwf Hc H.
  - destruct (render_type_inv _ _ _ _ H)
      as [->|(n & fld & comp & l & -> & Hn & Htc & Hl)].
    + rewrite decide_True by done. by rewrite app_nil_r.
    + unfold render_rest in H.
      rewrite (render_type_eq c n st fld comp l) in H by done.
      injection H as <-.
      destruct (Hatt TypeRenderer c n comp None None fld l st Hc) as [Hv Ho].
      split; [|done]. rewrite Hv, decide_False; [done|].
      simpl. rewrite length_app. simpl. lia.
  - unfold render_rest in H.
    destruct (render_wrapper_inv _ _ _ _ _ _ _ H)
      as (n & comp & fld & l & -> & Hw & Hn & Hl).
    rewrite (render_wrapper_eq _ c n w wps st comp fld l) in H by done.
    destruct (static_query comp).
    + set (s3 := component_attached WrapperRenderer c n comp
                   (Some (length (containers st))) (Some (Some n, wps)) fld l st)
        in *.
      destruct (Hatt WrapperRenderer c n comp (Some (length (containers st)))
                  (Some (Some n, wps)) fld l st Hc) as [Hv Ho].
      fold s3 in Hv, Ho.
      assert (length (containers s3) = S (length (containers st))) as Hlen.
      { subst s3. simpl. rewrite length_app, length_alter. simpl. lia. }
      rewrite renderField_other in H by (subst s3; simpl; lia).
      pose proof H as H'.
      apply IH in H as [_ Hother]; [| subst s3; simpl in *; lia | lia].
      apply render_rest_frame in H' as [new G]; [|subst s3; simpl in *; lia].
      split.
      * unfold views in *. rewrite Hother by lia. rewrite Hv.
        rewrite decide_False; [done|].
        rewrite (gf_refs _ _ _ _ G). subst s3. simpl.
        rewrite !length_app. simpl. lia.
      * intros c' Hc' Hne. rewrite Hother by lia. by apply Ho.
    + injection H as <-.
      destruct (Hatt WrapperRenderer c n comp None (Some (Some n, wps)) fld l
                  st Hc) as [Hv Ho].
      split; [|done]. rewrite Hv, decide_False; [done|].
      simpl. rewrite length_app. simpl. lia.
Qed.

(** X5: after [renderField] on the renderer's own container, every view
    that was in the container is destroyed, and the container holds the
    view of the one component created at the top (the first wrapper, or
    the field type when there is no wrapper), or nothing when nothing was
    created: views never pile up in the own container. *)
Theorem own_container_holds_the_new_view f ws st st' :
  well_formed st →
  renderField (containerRef st) f ws st = OK st' →
  views (containerRef st) st' =
    (if decide (length (refs st') = length (refs st)) then []
     else [length (refs st)]) ∧
  (∀ v r, v ∈ views (containerRef st) st →
          refs st !! v = Some r →
          refs st' !! v = Some (set_destroyed true r)).
Proof.
  intros Hwf H. rewrite renderField_eq in H.
  destruct (reset_own_container_ok (containerRef st) st Hwf)
    as (st0 & Hreset & F).
  rewrite Hreset in H. simpl in H.
  pose proof (reset_own_container_cleared _ _ Hreset) as Hcs.
  pose proof (rf_refs_length _ _ _ F) as Hlen.
  assert (containerRef st0 < length (containers st0)) as Hwf0.
  { rewrite (rf_containerRef _ _ _ F), (rf_containers_length _ _ _ F).
    apply Hwf. }
  split.
  - apply render_rest_views in H as [Hv _];
      [|done|rewrite (rf_containers_length _ _ _ F); apply Hwf].
    rewrite Hv, Hlen. unfold views at 1. rewrite Hcs.
    rewrite list_lookup_insert_eq; [done|apply Hwf].
  - intros v r Hin Hr.
    apply render_rest_frame in H as [new G]; [|done].
    rewrite (gf_refs _ _ _ _ G).
    rewrite lookup_app_l by (rewrite Hlen; by eapply lookup_lt_Some).
    rewrite (rf_refs _ _ _ F), Hr. by rewrite bool_decide_true.
Qed.

Lemma filter_not_in_nil (l : list nat) : filter (λ ref, ref ∉ []) l = l.
Proof.
  induction l as [|x l IH]; [done|].
  rewrite filter_cons_True by apply not_elem_of_nil. by rewrite IH.
Qed.

(** X6: [resetRefs] is idempotent: a second call with the same argument
    returns the state of the first. *)
Theorem resetRefs_idempotent f st st1 :
  resetRefs f st = OK st1 → resetRefs f st1 = OK st1.
Proof.
  unfold resetRefs, get_node. destruct f as [n|]; [|by intros [= <-]].
  destruct (nodes st !! n) as [fld|] eqn:Hn; [|done]. simpl.
  pose proof (lookup_lt_Some _ _ _ Hn) as Hlt.
  destruct (_componentRefs fld) as [l|] eqn:Hl.
  - intros [= <-]. simpl.
    rewrite list_lookup_insert_eq by done. simpl.
    by rewrite filter_not_in_nil, list_insert_insert_eq.
  - unfold defineHiddenProp__componentRefs, get_node.
    destruct (field st) as [m|] eqn:Hf; [|done].
    destruct (nodes st !! m) as [fldm|] eqn:Hm; [|done]. simpl.
    pose proof (lookup_lt_Some _ _ _ Hm) as Hltm.
    intros [= <-]. simpl. destruct (decide (m = n)) as [->|Hne].
    + rewrite list_lookup_insert_eq by done. simpl.
      by rewrite list_insert_insert_eq.
    + rewrite list_lookup_insert_ne by done. rewrite Hn. simpl. rewrite Hl.
      rewrite Hf. rewrite list_lookup_insert_eq by done. simpl.
      by rewrite list_insert_insert_eq.
Qed.

(** X7: [resetRefs] on a field that has no tracked list yet defines the
    list on the renderer's own field, not on its argument: the own
    field's list becomes empty whatever it held, the argument stays
    without a list when it is another field, and without an own field
    the call throws. *)
Theorem resetRefs_of_untracked_field p fld st :
  nodes st !! p = Some fld →
  _componentRefs fld = None →
  (field st = None → resetRefs (Some p) st = Err TypeError) ∧
  (∀ m fldm,
     field st = Some m →
     nodes st !! m = Some fldm →
     ∃ st', resetRefs (Some p) st = OK st' ∧
       tracked m st' = Some [] ∧
       (m ≠ p → tracked p st' = None) ∧
       componentRefs st' = []).
Proof.
  intros Hp Hl. split.
  - intros Hf. unfold resetRefs, get_node. rewrite Hp. simpl. rewrite Hl.
    unfold defineHiddenProp__componentRefs. by rewrite Hf.
  - intros m fldm Hf Hm. eexists.
    split; [by eapply resetRefs_untracked|].
    unfold tracked. simpl.
    rewrite list_lookup_insert_eq by (by eapply lookup_lt_Some).
    split; [done|]. split; [|done].
    intros Hne. rewrite list_lookup_insert_ne by done. by rewrite Hp.
Qed.


(** ** The value wiring of [fieldChanges] *)

(** The subscriptions a call of [fieldChanges] adds come after the old
    ones, are the ones the returned closure cancels, and are active. *)
Lemma fieldChanges_subscriptions f st s ids :
  fieldChanges f st = OK (s, ids) →
  let st0 := unsubscribe_all (valueChangesUnsubscribe st) st in
  ∃ news,
    subscriptions s = subscriptions st0 ++ news ∧
    ids = seq (length (subscriptions st0)) (length news) ∧
    Forall (λ sub, active sub = true) news.
Proof.
  intros H st0. unfold fieldChanges in H. fold st0 in H.
  destruct f as [n|].
  - unfold get_node in H. destruct (nodes st0 !! n) as [fld|]; [|done].
    simpl in H.
    destruct (truthy (key fld) && bool_decide (fieldGroup fld = None)).
    + destruct (formControl fld) as [c|]; [|done]. simpl in H.
      destruct (controls st0 !! c) as [control|]; [|done]. simpl in H.
      destruct (modelOptions fld) as [mo|]; [|done]. simpl in H.
      apply bind_inv in H as (s5 & Hd & H). injection H as <- <-.
      apply deliver_keeps in Hd as (K & _ & _).
      eexists [_; _; _; _; _; _]. split; [|split].
      * rewrite (ko_subscriptions _ _ K). simpl.
        rewrite <- !app_assoc. reflexivity.
      * simpl. rewrite !length_app. simpl.
        repeat (f_equal; try lia).
      * by repeat constructor.
    + injection H as <- <-.
      eexists [_; _; _; _; _]. split; [|split].
      * simpl. rewrite <- !app_assoc. reflexivity.
      * simpl. rewrite !length_app. simpl.
        repeat (f_equal; try lia).
      * by repeat constructor.
  - injection H as <- <-. exists []. split; [by rewrite app_nil_r|].
    by split.
Qed.

(** X8: for a field without a key, or with a [fieldGroup], [fieldChanges]
    installs its five observers and nothing else: it subscribes to no
    control, and neither the fields, the controls nor the channel of field
    changes are touched. *)
Theorem fieldChanges_of_unbound_field n fld st :
  nodes st !! n = Some fld →
  truthy (key fld) = false ∨ fieldGroup fld ≠ None →
  let st0 := unsubscribe_all (valueChangesUnsubscribe st) st in
  let base := length (subscriptions st) in
  ∃ s,
    fieldChanges (Some n) st =
      OK (s, [base; base + 1; base + 2; base + 3; base + 4]) ∧
    subscriptions s =
      subscriptions st0 ++
        ((λ k, {| target := n; what := k; active := true |}) <$>
           (ObserveDeepTemplateOptions :: ObserveDeepFormState ::
              (ObservePath <$> observed_paths))) ∧
    nodes s = nodes st ∧ controls s = controls st ∧
    fieldChangesChannel s = fieldChangesChannel st ∧
    refs s = refs st ∧ trace s = trace st0.
Proof.
  intros Hn Hu st0 base.
  destruct (unsubscribe_all_frame (valueChangesUnsubscribe st) st)
    as (_&_&_&_&_&_&Hnodes&Hcontrols&Hrefs&_&Hch&Hlen&_).
  fold st0 in Hnodes, Hcontrols, Hrefs, Hch, Hlen.
  unfold fieldChanges. fold st0. unfold get_node. rewrite Hnodes, Hn. simpl.
  assert (truthy (key fld) && bool_decide (fieldGroup fld = None) = false)
    as ->.
  { destruct Hu as [->|Hg]; [done|].
    rewrite bool_decide_false by done. apply andb_false_r. }
  eexists. split; [|split].
  - apply (f_equal OK). apply (f_equal2 pair); [reflexivity|].
    rewrite !length_app, Hlen. simpl. unfold base.
    repeat (f_equal; try lia).
  - simpl. rewrite <- !app_assoc. reflexivity.
  - by repeat split.
Qed.

(** X9: a field with a key and no [fieldGroup] needs its [formControl] and
    its [modelOptions]: without either, [fieldChanges] throws. *)
Theorem fieldChanges_needs_control_and_options n fld st :
  nodes st !! n = Some fld →
  truthy (key fld) = true →
  fieldGroup fld = None →
  formControl fld = None ∨ modelOptions fld = None →
  fieldChanges (Some n) st = Err TypeError.
Proof.
  intros Hn Hk Hg Hmiss.
  destruct (unsubscribe_all_frame (valueChangesUnsubscribe st) st)
    as (_&_&_&_&_&_&Hnodes&_).
  unfold fieldChanges, get_node. rewrite Hnodes, Hn. simpl.
  rewrite Hk, Hg. simpl.
  destruct (formControl fld) as [c|]; [|done]. simpl.
  destruct Hmiss as [|Hmo]; [done|].
  destruct (controls _ !! c); [|done]. simpl. by rewrite Hmo.
Qed.

(** X10: [fieldChanges] replaces the wiring: every observer of the earlier
    call is cancelled, the observers the returned closure cancels are new
    and active, and no other observer is touched. *)
Theorem fieldChanges_replaces_wiring f st s ids :
  (∀ i, i ∈ valueChangesUnsubscribe st → i < length (subscriptions st)) →
  fieldChanges f st = OK (s, ids) →
  (∀ i, i ∈ valueChangesUnsubscribe st → is_active i s = false) ∧
  (∀ i, i ∈ ids →
        length (subscriptions st) ≤ i ∧ is_active i s = true) ∧
  (∀ i, i < length (subscriptions st) →
        i ∉ valueChangesUnsubscribe st →
        subscriptions s !! i = subscriptions st !! i) ∧
  length (subscriptions s) = length (subscriptions st) + length ids.
Proof.
  intros Hvalid H.
  destruct (fieldChanges_subscriptions _ _ _ _ H) as (news & Hs & -> & Hact).
  pose proof (unsubscribe_all_length (valueChangesUnsubscribe st) st) as Hlen.
  rewrite Hlen. repeat split.
  - intros i Hi. unfold is_active. rewrite Hs.
    rewrite lookup_app_l by (rewrite Hlen; auto).
    by apply unsubscribe_all_inactive.
  - by apply elem_of_seq in H0 as [? _].
  - apply elem_of_seq in H0 as [Hle Hlt]. unfold is_active. rewrite Hs.
    rewrite lookup_app_r by (rewrite Hlen; lia). rewrite Hlen.
    destruct (lookup_lt_is_Some_2 news (i - length (subscriptions st)))
      as [sub Hsub]; [lia|].
    rewrite Hsub. by eapply (Forall_lookup_1 _ _ _ _ Hact).
  - intros i Hi Hnot. rewrite Hs.
    rewrite lookup_app_l by (rewrite Hlen; auto).
    rewrite unsubscribe_all_lookup, bool_decide_false by done.
    by destruct (subscriptions st !! i).
  - rewrite Hs, length_app, Hlen, length_seq. done.
Qed.


(** ** The hook dispatcher *)

Lemma resetRefs_frame f st st' :
  resetRefs f st = OK st' →
  controls st' = controls st ∧
  fieldChangesChannel st' = fieldChangesChannel st ∧
  subscriptions st' = subscriptions st ∧
  valueChangesUnsubscribe st' = valueChangesUnsubscribe st ∧
  hooksObservers st' = hooksObservers st ∧
  hostObservers st' = hostObservers st ∧
  field st' = field st ∧ containerRef st' = containerRef st.
Proof.
  unfold resetRefs, defineHiddenProp__componentRefs, get_node.
  destruct f as [n|]; [|by intros [= <-]].
  destruct (nodes st !! n) as [fld|]; [|done]. simpl.
  destruct (_componentRefs fld); [by intros [= <-]|].
  destruct (field st) as [m|] eqn:Hf; [|done].
  destruct (nodes st !! m); [|done]. by intros [= <-].
Qed.

(** What the last part of [triggerHook] leaves alone, and the one change
    it makes to the observers: the two host observers are replaced. *)
Lemma rerender_frame name changes st st' :
  well_formed st →
  rerender name changes st = OK st' →
  controls st' = controls st ∧
  fieldChangesChannel st' = fieldChangesChannel st ∧
  valueChangesUnsubscribe st' = valueChangesUnsubscribe st ∧
  hooksObservers st' = hooksObservers st ∧
  field st' = field st ∧
  subscriptions st' =
    match bool_decide (name = "onChanges"%string), changes, field st with
    | true, Some (Some _), Some n =>
        subscriptions (unsubscribe_all (hostObservers st) st) ++
          [{| target := n; what := ObserveHide; active := true |};
           {| target := n; what := ObserveClassName; active := true |}]
    | _, _, _ => subscriptions st
    end.
Proof.
  intros Hwf H. unfold rerender in H.
  case_bool_decide; [|by injection H as <-].
  destruct changes as [[ch|]|]; [| by injection H as <- | done].
  apply bind_inv in H as (s1 & H1 & H).
  apply bind_inv in H as (s2 & H2 & H).
  assert (controls s1 = controls st ∧
          fieldChangesChannel s1 = fieldChangesChannel st ∧
          valueChangesUnsubscribe s1 = valueChangesUnsubscribe st ∧
          hooksObservers s1 = hooksObservers st ∧
          field s1 = field st ∧
          subscriptions s1 =
            match field st with
            | Some n =>
                subscriptions (unsubscribe_all (hostObservers st) st) ++
                  [{| target := n; what := ObserveHide; active := true |};
                   {| target := n; what := ObserveClassName; active := true |}]
            | None => subscriptions st
            end ∧ well_formed s1) as (E1 & E2 & E3 & E4 & E5 & E6 & Hwf1).
  { destruct (field st) as [n|] eqn:Hf.
    - destruct Hwf as [Hnode Hc]. rewrite Hf in Hnode.
      destruct Hnode as [fld Hn].
      destruct (renderHostBinding_ok n fld st Hf Hn)
        as (s & Hs & F1 & F2 & _ & F4 & F5 & F6 & F7 & _ & F9 & F10 & _ & F12 & _).
      rewrite Hs in H1. injection H1 as <-.
      do 4 (split; [done|]). split; [by rewrite F1|]. split; [done|].
      split; [|by rewrite F2, F9].
      rewrite F1, Hf, F6. by eexists.
    - unfold renderHostBinding in H1. rewrite Hf in H1. injection H1 as <-.
      by rewrite Hf. }
  pose proof (resetRefs_frame _ _ _ H2) as (R1 & R2 & R3 & R4 & R5 & _ & R7 & _).
  apply resetRefs_keeps in H2 as (K2 & _).
  pose proof (keeps_well_formed _ _ K2 Hwf1) as Hwf2.
  destruct (renderField_frames _ _ _ _ _ Hwf2 H) as (s0 & new & F & G).
  rewrite (gf_controls _ _ _ _ G), (rf_controls _ _ _ F), R1, E1.
  rewrite (gf_channel _ _ _ _ G), (rf_channel _ _ _ F), R2, E2.
  rewrite (gf_unsubscribe _ _ _ _ G), (rf_unsubscribe _ _ _ F), R4, E3.
  rewrite (gf_hooksObservers _ _ _ _ G), (rf_hooksObservers _ _ _ F), R5, E4.
  rewrite (gf_field _ _ _ _ G), (rf_field _ _ _ F), R7, E5.
  rewrite (gf_subscriptions _ _ _ _ G), (rf_subscriptions _ _ _ F), R3, E6.
  done.
Qed.

(** X11: the hooks other than [onInit] and [onChanges]
    ([afterContentInit], [afterViewInit], [onDestroy]) never fail, and they
    neither render nor wire: references, containers, fields, controls, the
    channel and the value wiring stay as they are.  At most the observable
    returned by the field's hook is subscribed to, and then the
    subscription is kept for the teardown. *)
Theorem triggerHook_other_hooks name changes st :
  name ≠ "onInit"%string →
  name ≠ "onChanges"%string →
  ∃ st',
    triggerHook name changes st = OK st' ∧
    refs st' = refs st ∧ containers st' = containers st ∧
    nodes st' = nodes st ∧ controls st' = controls st ∧
    fieldChangesChannel st' = fieldChangesChannel st ∧
    componentRefs st' = componentRefs st ∧
    hostObservers st' = hostObservers st ∧
    valueChangesUnsubscribe st' = valueChangesUnsubscribe st ∧
    ((subscriptions st' = subscriptions st ∧
      hooksObservers st' = hooksObservers st) ∨
     (∃ n, field st = Some n ∧
        hook_of n name st = Some ReturnsObservable ∧
        name ∈ ["afterContentInit"; "afterViewInit"]%string ∧
        subscriptions st' =
          subscriptions st ++
            [{| target := n; what := HookSub name; active := true |}] ∧
        hooksObservers st' =
          hooksObservers st ++ [length (subscriptions st)])).
Proof.
  intros Hi Hc. exists (call_hook name changes st). split.
  - unfold triggerHook, resync, resynchronizes, rerender.
    by rewrite !bool_decide_false by done.
  - unfold call_hook.
    destruct (field st) as [n|] eqn:Hf; [|by repeat split; try left].
    destruct (hook_of n name st) as [h|] eqn:Hh; [|by repeat split; try left].
    destruct (no_changes_or_field changes); [|by repeat split; try left].
    destruct h; [by repeat split; try left|].
    case_bool_decide as Hin; [|by repeat split; try left].
    simpl. repeat split. right. exists n. repeat split; try done.
    apply elem_of_cons in Hin as [->|Hin]; [done|]. exact Hin.
Qed.

(** X12: a call of [triggerHook] keeps at most one more hook subscription,
    and only for [onInit], [afterContentInit] and [afterViewInit]: an
    observable returned by an [onChanges] or [onDestroy] hook is never
    subscribed to.  The kept subscription is the one just made to the
    hook's observable. *)
Theorem hook_subscriptions_only_for_three_hooks name changes st st' :
  well_formed st →
  triggerHook name changes st = OK st' →
  hooksObservers st' = hooksObservers st ∨
  (name ∈ ["onInit"; "afterContentInit"; "afterViewInit"]%string ∧
   ∃ n k, field st = Some n ∧
     hooksObservers st' = hooksObservers st ++ [k] ∧
     subscriptions st' !! k =
       Some {| target := n; what := HookSub name; active := true |}).
Proof.
  intros Hwf H. unfold triggerHook in H.
  apply bind_inv in H as (s1 & H1 & H).
  assert (hooksObservers s1 = hooksObservers st ∧ field s1 = field st ∧
          well_formed s1) as (E1 & E2 & Hwf1).
  { unfold resync in H1. apply bind_inv in H1 as (again & _ & H1).
    destruct again; [|by injection H1 as <-].
    apply bind_inv in H1 as ([s ids] & Hfc & H1). injection H1 as <-. simpl.
    destruct (fieldChanges_inv _ _ _ _ Hfc) as (news & _ & K & _ & _).
    destruct (unsubscribe_all_frame (valueChangesUnsubscribe st) st)
      as (F1 & _ & _ & _ & F5 & _).
    rewrite (ko_hooksObservers _ _ K), (ko_field _ _ K). simpl.
    split; [done|]. split; [done|].
    apply (keeps_well_formed _ _ K).
    apply (unsubscribe_all_well_formed (valueChangesUnsubscribe st)) in Hwf.
    destruct Hwf as [Hn Hc]. by split. }
  assert (well_formed (call_hook name changes s1)) as Hwf2.
  { destruct (call_hook_nodes name changes s1) as [Ef En].
    destruct Hwf1 as [Hn Hc]. split; [by rewrite Ef, En|].
    unfold call_hook.
    destruct (field s1) as [n|]; [|done].
    destruct (hook_of n name s1) as [h|]; [|done].
    destruct (no_changes_or_field changes); [|done].
    destruct h; [done|]. by case_bool_decide. }
  destruct (rerender_frame _ _ _ _ Hwf2 H) as (_ & _ & _ & R4 & _ & R6).
  rewrite R4. unfold call_hook in *.
  destruct (field s1) as [n|] eqn:Hf; [|by left].
  destruct (hook_of n name s1) as [h|]; [|by left].
  destruct (no_changes_or_field changes); [|by left].
  destruct h; [left; exact E1|].
  destruct (decide (name ∈ ["onInit"; "afterContentInit"; "afterViewInit"]%string))
    as [Hin|Hin]; [|rewrite (bool_decide_false _ Hin); left; exact E1].
  rewrite (bool_decide_true _ Hin) in R6 |- *.
  right. split; [done|]. exists n, (length (subscriptions s1)).
  split; [by rewrite <- E2|]. simpl. rewrite E1. split; [done|].
  rewrite R6. rewrite bool_decide_false.
  - simpl. by rewrite lookup_app_r, Nat.sub_diag.
  - intros ->. repeat (apply elem_of_cons in Hin as [Hin|Hin]; [done|]).
    by apply elem_of_nil in Hin.
Qed.

(** X13: [ngOnChanges] with changes that do not concern [field] does
    nothing at all: no wiring, no rendering, and the field's [onChanges]
    hook is not called. *)
Theorem ngOnChanges_without_field_change st : ngOnChanges None st = OK st.
Proof.
  unfold ngOnChanges, triggerHook, resync, resynchronizes.
  simpl. unfold call_hook.
  destruct (field st) as [n|]; [|done].
  by destruct (hook_of n "onChanges" st).
Qed.

(** X14: the first [ngOnChanges] renders and binds the host, but leaves
    the value wiring to [ngOnInit]: nothing is subscribed besides the two
    host observers, and controls, channel and the wiring's cancellation
    are as before. *)
Theorem first_change_leaves_value_wiring p st st' :
  well_formed st →
  ngOnChanges (Some {| previousValue := p; firstChange := true |}) st = OK st' →
  valueChangesUnsubscribe st' = valueChangesUnsubscribe st ∧
  controls st' = controls st ∧
  fieldChangesChannel st' = fieldChangesChannel st ∧
  hooksObservers st' = hooksObservers st ∧
  subscriptions st' =
    match field st with
    | Some n =>
        subscriptions (unsubscribe_all (hostObservers st) st) ++
          [{| target := n; what := ObserveHide; active := true |};
           {| target := n; what := ObserveClassName; active := true |}]
    | None => subscriptions st
    end.
Proof.
  intros Hwf H. unfold ngOnChanges, triggerHook in H.
  unfold resync, resynchronizes in H. simpl in H.
  set (changes := Some (Some {| previousValue := p; firstChange := true |}))
    in *.
  assert (∃ es, call_hook "onChanges" changes st = set_trace (trace st ++ es) st)
    as [es Hcall].
  { unfold call_hook. destruct (field st) as [n|]; [|exists []].
    - destruct (hook_of n "onChanges" st) as [h|]; [|exists []].
      + simpl. destruct h; by eexists [_].
      + destruct st. simpl. by rewrite app_nil_r.
    - destruct st. simpl. by rewrite app_nil_r. }
  rewrite Hcall in H.
  apply rerender_frame in H as (R1 & R2 & R3 & R4 & R5 & R6); [|done].
  simpl in *. rewrite R1, R2, R3, R4, R6. do 4 (split; [done|]).
  destruct (field st); [|done]. f_equal.
  apply list_eq; intros i. by rewrite !unsubscribe_all_lookup.
Qed.

(** X15: the subscriber writes the emitted value back into the control,
    as emitted and before the parsers run, exactly when the control is a
    [FormControl] shared by more than one field; no other control is
    touched. *)
Theorem subscriber_patches_shared_control n c v st st' control :
  controls st !! c = Some control →
  valueChanges_subscriber n c v st = OK st' →
  controls st' !! c =
    Some (if isFormControl control
             && bool_decide (1 < length (default [] (_fields control)))
          then set_value v control else control) ∧
  (∀ c', c' ≠ c → controls st' !! c' = controls st !! c') ∧
  length (controls st') = length (controls st).
Proof.
  intros Hc H. unfold valueChanges_subscriber in H. rewrite Hc in H.
  simpl in H.
  apply bind_inv in H as (fld & Hfld & H).
  apply bind_inv in H as (s2 & H2 & H). injection H as <-. simpl.
  unfold assignFieldValue in H2.
  apply bind_inv in H2 as (fld' & _ & H2).
  destruct (key fld'); [|done]. injection H2 as <-. simpl.
  destruct (isFormControl control && _); simpl.
  - rewrite list_lookup_alter_eq, Hc. split; [done|].
    split; [|by rewrite length_alter].
    intros c' Hne. by rewrite list_lookup_alter_ne.
  - by rewrite Hc.
Qed.


(** ** The emissions that reach the subscriber *)

Lemma distinct_adjacent_sublist evs : ∀ prev,
  sublist (distinct_adjacent prev evs) evs.
Proof.
  induction evs as [|[t v] evs IH]; intros prev; simpl; [constructor|].
  destruct (decide (prev = Some v)); by constructor.
Qed.

Lemma distinct_adjacent_no_repeat evs : ∀ prev,
  (∀ e, head (distinct_adjacent prev evs) = Some e → prev ≠ Some e.2) ∧
  (∀ i a b,
     distinct_adjacent prev evs !! i = Some a →
     distinct_adjacent prev evs !! S i = Some b →
     a.2 ≠ b.2).
Proof.
  induction evs as [|[t v] evs IH]; intros prev; simpl; [done|].
  destruct (decide (prev = Some v)) as [->|Hne]; [apply IH|].
  destruct (IH (Some v)) as [IHh IHp]. split.
  - by intros e [= <-].
  - intros [|i] a b; simpl.
    + intros [= <-] Hb Heq. simpl in Heq.
      apply (IHh b); [|by rewrite Heq].
      by rewrite head_lookup.
    + apply IHp.
Qed.

Lemma distinct_adjacent_complete evs : ∀ prev i t v,
  evs !! i = Some (t, v) →
  match i with 0 => prev | S j => snd <$> evs !! j end ≠ Some v →
  (t, v) ∈ distinct_adjacent prev evs.
Proof.
  induction evs as [|[t0 v0] evs IH]; intros prev i t v Hi Hne; [done|].
  simpl. destruct i as [|j]; simpl in *.
  - injection Hi as -> ->. rewrite decide_False by done.
    apply list_elem_of_here.
  - destruct (decide (prev = Some v0)) as [->|Hp].
    + apply (IH _ j); [done|]. by destruct j.
    + apply list_elem_of_further, (IH _ j); [done|]. by destruct j.
Qed.

Lemma debounced_cons d t v t' v' rest :
  debounced d ((t, v) :: (t', v') :: rest) =
    if (t + d <=? t')%Z then ((t + d)%Z, v) :: debounced d ((t', v') :: rest)
    else debounced d ((t', v') :: rest).
Proof. reflexivity. Qed.

(** X16: without a debounce the subscriber receives the control's value at
    subscription when it differs from the field's, and then the control's
    emissions with adjacent repetitions left out: what it receives after
    the start is taken from the emissions in their order, never holds the
    same value twice in a row, and holds every emission whose value
    differs from the one emitted just before it (the first one always). *)
Theorem undebounced_stream_drops_adjacent_repeats fld control mo t0 source :
  debounce_interval mo = None →
  ∃ rest,
    emissions (valueChanges_pipe fld control mo) t0 source =
      (if bool_decide (value control ≠ getFieldValue fld)
       then [(t0, value control)] else []) ++ rest ∧
    sublist rest source ∧
    (∀ i a b, rest !! i = Some a → rest !! S i = Some b → a.2 ≠ b.2) ∧
    (∀ i t v,
       source !! i = Some (t, v) →
       match i with 0 => None | S j => snd <$> source !! j end ≠ Some v →
       (t, v) ∈ rest).
Proof.
  intros Hd. exists (distinct_adjacent None source). split; [|split; [|split]].
  - unfold valueChanges_pipe. rewrite Hd. by case_bool_decide.
  - apply distinct_adjacent_sublist.
  - apply distinct_adjacent_no_repeat.
  - intros i t v. apply distinct_adjacent_complete.
Qed.

(** X17: with a debounce of [d], emissions of the control that are at
    least [d] apart all reach the subscriber, each [d] later, repeated
    values included; the control's value at subscription is not among
    them. *)
Theorem debounced_stream_passes_separated_emissions fld control mo d t0 source :
  debounce_interval mo = Some d →
  (∀ i a b, source !! i = Some a → source !! S i = Some b →
            (a.1 + d <= b.1)%Z) →
  emissions (valueChanges_pipe fld control mo) t0 source =
    (λ e, ((e.1 + d)%Z, e.2)) <$> source.
Proof.
  intros Hd. unfold valueChanges_pipe. rewrite Hd. simpl. clear Hd.
  induction source as [|[t v] source IH]; intros Hsep; [done|].
  destruct source as [|[t' v'] rest]; [done|].
  rewrite debounced_cons.
  pose proof (Hsep 0 (t, v) (t', v') eq_refl eq_refl) as Hle. simpl in Hle.
  destruct (Z.leb_spec (t + d) t'); [|lia].
  rewrite IH; [done|].
  intros i a b Ha Hb. by apply (Hsep (S i)).
Qed.

(** X18: each value handed to the subscriber yields one event on the
    channel of field changes, in the order of the values, and the field
    ends up holding the last value, as parsed. *)
Theorem deliver_one_event_per_emission n c vs : ∀ st fld k control,
  nodes st !! n = Some fld →
  key fld = Some k →
  controls st !! c = Some control →
  let parse v := foldl (λ v parserFn, parserFn v) v (default [] (parsers fld)) in
  ∃ st',
    deliver n c vs st = OK st' ∧
    fieldChangesChannel st' =
      fieldChangesChannel st ++
        ((λ v, {| ev_value := parse v; ev_field := n;
                  ev_type := "valueChanges" |}) <$> vs) ∧
    (∀ v, last vs = Some v →
          (getFieldValue <$> nodes st' !! n) = Some (parse v)).
Proof.
  induction vs as [|v vs IH]; intros st fld k control Hn Hk Hc parse.
  - exists st. simpl. by rewrite app_nil_r.
  - pose proof (valueChanges_subscriber_eq n c v st fld k control Hn Hk Hc)
      as Hsub.
    cbv zeta in Hsub. fold (parse v) in Hsub.
    set (st1 := if isFormControl control && _ then patchValue c v st else st)
      in Hsub.
    assert (nodes st1 = nodes st ∧
            fieldChangesChannel st1 = fieldChangesChannel st ∧
            ∃ control1, controls st1 !! c = Some control1)
      as (En & Ech & control1 & Hc1).
    { subst st1. destruct (isFormControl control && _); simpl; [|by eauto].
      rewrite list_lookup_alter_eq, Hc. by eauto. }
    change (deliver n c (v :: vs) st)
      with (valueChanges_subscriber n c v st ≫= deliver n c vs).
    rewrite Hsub, bind_OK.
    set (s1 := set_fieldChangesChannel _ _).
    assert (nodes s1 !! n = Some (set_model (<[k := parse v]> (model fld)) fld))
      as Hn1.
    { subst s1. simpl. rewrite list_lookup_insert_eq; [done|].
      by eapply lookup_lt_Some. }
    destruct (IH s1 _ k control1 Hn1 Hk Hc1) as (st' & Hd & Hch & Hlast).
    exists st'. split; [exact Hd|]. split.
    + rewrite Hch. subst s1. simpl. by rewrite <- app_assoc.
    + intros v0 Hv0. destruct vs as [|v1 vs].
      * injection Hv0 as <-. simpl in Hd. injection Hd as <-.
        rewrite Hn1. simpl. unfold getFieldValue. simpl. rewrite Hk.
        by rewrite lookup_insert_eq.
      * by apply Hlast.
Qed.

(** ** The host binding *)

Lemma not_elem_of_map_Unsubscribe e ids :
  (∀ i, e ≠ Unsubscribe i) → e ∉ map Unsubscribe ids.
Proof.
  intros He. induction ids as [|i ids IH]; simpl; [apply not_elem_of_nil|].
  apply not_elem_of_cons. split; [apply He|exact IH].
Qed.

(** X19: [renderHostBinding] never fails, and while it installs the host
    observers it touches the host element only so: the display style is
    set, to ["none"], exactly when the field is hidden, and the class
    attribute is set exactly when the field has a non-empty [className];
    without a field it does nothing. *)
Theorem host_binding_at_installation st :
  well_formed st →
  ∃ st' es,
    renderHostBinding st = OK st' ∧
    trace st' = trace st ++ es ∧
    (field st = None → st' = st) ∧
    (∀ s, SetStyleDisplay s ∈ es ↔
          s = "none"%string ∧
          ∃ n fld, field st = Some n ∧ nodes st !! n = Some fld ∧
                   hide fld = Some true) ∧
    (∀ cls, SetAttributeClass cls ∈ es ↔
            cls ≠ EmptyString ∧
            ∃ n fld, field st = Some n ∧ nodes st !! n = Some fld ∧
                     className fld = Some cls).
Proof.
  intros [Hnode _]. destruct (field st) as [n|] eqn:Hf.
  - destruct Hnode as [fld Hn].
    destruct (renderHostBinding_ok n fld st Hf Hn) as (st' & H & F).
    destruct F as (_&_&_&_&_&_&_&_&_&_&_&_&Htr).
    exists st'. eexists. split; [exact H|]. split; [exact Htr|].
    split; [done|]. split.
    + intros s. rewrite !elem_of_app. split.
      * intros [Hin|[Hin|Hin]].
        -- by apply not_elem_of_map_Unsubscribe in Hin.
        -- destruct (hide fld) as [[|]|] eqn:Hh; simpl in Hin;
             try by apply elem_of_nil in Hin.
           apply list_elem_of_singleton in Hin. injection Hin as ->.
           split; [done|]. by exists n, fld.
        -- destruct (truthy (className fld)); simpl in Hin.
           ++ by apply list_elem_of_singleton in Hin.
           ++ by apply elem_of_nil in Hin.
      * intros [-> (n' & fld' & [= <-] & Hn' & Hh)].
        rewrite Hn in Hn'. injection Hn' as <-. rewrite Hh. simpl.
        right. left. apply list_elem_of_here.
    + intros cls. rewrite !elem_of_app. split.
      * intros [Hin|[Hin|Hin]].
        -- by apply not_elem_of_map_Unsubscribe in Hin.
        -- destruct (default false (hide fld)); simpl in Hin.
           ++ by apply list_elem_of_singleton in Hin.
           ++ by apply elem_of_nil in Hin.
        -- destruct (className fld) as [cl|] eqn:Hcl; simpl in Hin;
             [|by apply elem_of_nil in Hin].
           case_bool_decide as Hne; [|by apply elem_of_nil in Hin].
           apply list_elem_of_singleton in Hin. injection Hin as ->.
           split; [done|]. by exists n, fld.
      * intros [Hne (n' & fld' & [= <-] & Hn' & Hcl)].
        rewrite Hn in Hn'. injection Hn' as <-. rewrite Hcl. simpl.
        rewrite bool_decide_true by done.
        right. right. apply list_elem_of_here.
  - exists st, []. unfold renderHostBinding. rewrite Hf.
    split; [done|]. split; [by rewrite app_nil_r|]. split; [done|].
    split; intros x; split.
    + by intros ?%elem_of_nil.
    + by intros [_ (? & ? & ? & _)].
    + by intros ?%elem_of_nil.
    + by intros [_ (? & ? & ? & _)].
Qed.


(** ** An inner container lost and given back *)

(** X20: when a wrapper's [fieldComponent] becomes falsy and later a
    container again, the observer has no previous container to take the
    view from, and renders the rest of the field anew in the new
    container: the view in the old inner container stays where it was,
    the components that existed are left as they were, and with a wrapper
    left or a typed field at least one more component is created; change
    detection of the wrapper is requested last. *)
Theorem inner_container_lost_then_restored ref r f wps old cur st :
  containerRef st < length (containers st) →
  refs st !! ref = Some r →
  observer r = Some (f, wps) →
  fieldComponent r = Some old →
  old < length (containers st) →
  cur < length (containers st) →
  cur ≠ containerRef st →
  cur ≠ old →
  ∃ st1,
    set_fieldComponent ref None st = OK st1 ∧
    ∀ st2,
      set_fieldComponent ref (Some cur) st1 = OK st2 →
      views old st2 = views old st ∧
      (∀ v rv, v ≠ ref → refs st !! v = Some rv → refs st2 !! v = Some rv) ∧
      (wps ≠ [] ∨ typed f st → length (refs st) < length (refs st2)) ∧
      last (trace st2) = Some (DetectChanges ref).
Proof.
  intros Hwf Hr Hobs Hfc Hold Hcur Hown Hne.
  pose proof (lookup_lt_Some _ _ _ Hr) as Hlt.
  eexists. split.
  { unfold set_fieldComponent. rewrite Hr, Hobs, Hfc.
    rewrite decide_False by done. reflexivity. }
  intros st2 H2. unfold set_fieldComponent in H2. simpl in H2.
  rewrite list_lookup_alter_eq, Hr in H2. simpl in H2. rewrite Hobs in H2.
  set (sX := set_refs _ _) in H2.
  apply bind_inv in H2 as (s3 & H3 & H2). injection H2 as <-.
  assert (containerRef sX = containerRef st) as EcR by done.
  assert (containers sX = containers st) as Ecs by done.
  assert (nodes sX = nodes st) as Ens by done.
  assert (length (refs sX) = length (refs st)) as Elen.
  { subst sX. simpl. by rewrite !length_alter. }
  rewrite renderField_other in H3 by (by rewrite EcR).
  pose proof H3 as Hviews. pose proof H3 as Hcreates.
  apply render_rest_views in Hviews as [_ Hother];
    [|by rewrite EcR, Ecs|by rewrite Ecs].
  apply render_rest_frame in H3 as [new G]; [|by rewrite EcR, Ecs].
  split; [|split; [|split]].
  - unfold views. simpl. rewrite Hother by (rewrite ?Ecs; done).
    by rewrite Ecs.
  - intros v rv Hv Hrv. simpl. rewrite (gf_refs _ _ _ _ G).
    rewrite lookup_app_l by (rewrite Elen; by eapply lookup_lt_Some).
    subst sX. simpl. by rewrite !list_lookup_alter_ne.
  - intros Hsome. simpl. rewrite <- Elen.
    apply render_rest_creates in Hcreates; [done|by rewrite EcR, Ecs|].
    destruct Hsome as [?|(n & fld & -> & Hn & Ht)]; [by left|].
    right. exists n, fld. by rewrite Ens.
  - simpl. by rewrite last_snoc.
Qed.

(** ** What [ngOnInit] does *)

Lemma call_hook_frame name changes st :
  refs (call_hook name changes st) = refs st ∧
  containers (call_hook name changes st) = containers st ∧
  hostObservers (call_hook name changes st) = hostObservers st ∧
  valueChangesUnsubscribe (call_hook name changes st) =
    valueChangesUnsubscribe st ∧
  componentRefs (call_hook name changes st) = componentRefs st.
Proof.
  unfold call_hook. destruct (field st) as [n|]; [|done].
  destruct (hook_of n name st) as [h|]; [|done].
  destruct (no_changes_or_field changes); [|done].
  destruct h; [done|]. by case_bool_decide.
Qed.

(** X21: [ngOnInit] wires and calls the hook but does not render: no
    component is created and no view is moved or destroyed, and the host
    observers stay; the cancellation it keeps is that of the observers it
    has just installed, which are active, and for a renderer without a
    field there is none. *)
Theorem ngOnInit_wires_without_rendering st st' :
  ngOnInit st = OK st' →
  refs st' = refs st ∧ containers st' = containers st ∧
  hostObservers st' = hostObservers st ∧
  (∀ i, i ∈ valueChangesUnsubscribe st' →
        length (subscriptions st) ≤ i ∧ is_active i st' = true) ∧
  (field st = None → valueChangesUnsubscribe st' = []).
Proof.
  intros H. unfold ngOnInit, triggerHook, resync in H. simpl in H.
  apply bind_inv in H as (s1 & H1 & H).
  apply bind_inv in H1 as ([s ids] & Hfc & H1). injection H1 as <-.
  simpl in H. unfold rerender in H. simpl in H. injection H as <-.
  destruct (call_hook_frame "onInit" None (set_valueChangesUnsubscribe ids s))
    as (E1 & E2 & E3 & E4 & _).
  rewrite E1, E2, E3, E4. simpl.
  destruct (fieldChanges_inv _ _ _ _ Hfc) as (news0 & _ & K & Hrefs & Hcont).
  destruct (fieldChanges_subscriptions _ _ _ _ Hfc) as (news & Hs & Hids & Hact).
  pose proof (unsubscribe_all_length (valueChangesUnsubscribe st) st) as Hlen.
  destruct (unsubscribe_all_frame (valueChangesUnsubscribe st) st)
    as (_ & _ & F3 & _).
  split; [done|]. split; [done|]. split.
  { rewrite (ko_hostObservers _ _ K). simpl. exact F3. }
  split.
  - intros i Hi. rewrite Hids, Hlen in Hi.
    apply elem_of_seq in Hi as [Hle Hlt]. split; [done|].
    assert (∃ sub, subscriptions s !! i = Some sub ∧ active sub = true)
      as (sub & Hsub & Ha).
    { rewrite Hs. rewrite lookup_app_r by (rewrite Hlen; lia). rewrite Hlen.
      destruct (lookup_lt_is_Some_2 news (i - length (subscriptions st)))
        as [sub Hsub]; [lia|].
      exists sub. split; [done|]. by eapply (Forall_lookup_1 _ _ _ _ Hact). }
    unfold is_active, call_hook. simpl.
    destruct (field s) as [n|]; [|by simpl; rewrite Hsub].
    destruct (hook_of n "onInit" _) as [h|]; [|by simpl; rewrite Hsub].
    destruct h; simpl; [by rewrite Hsub|].
    rewrite lookup_app_l by (by eapply lookup_lt_Some). by rewrite Hsub.
  - intros Hf. rewrite Hf in Hfc. simpl in Hfc. by injection Hfc as <- <-.
Qed.

End Properties.

(** ** The properties on the examples *)

(** C1 on the example field of the specification. *)
Lemma C1_witness :
  ∃ st',
    renderField example_config panel_is_static 0 (Some 0)
      (default [] (wrappers example_field)) example_state = OK st' ∧
    length (refs st') = 1 ∧
    (kind <$> refs st' !! 0) = Some TypeRenderer ∧
    tracked 0 st' = Some [0].
Proof.
  destruct (C1_type_renderer_instantiated_once example_config panel_is_static
              0 0 example_field "input" "FormlyFieldInput" example_state)
    as (st' & base & H & Hlen & Href & _ & Htr & Hbase).
  - split; [by eexists | simpl; lia].
  - reflexivity.
  - reflexivity.
  - reflexivity.
  - discriminate.
  - reflexivity.
  - left. by split.
  - exists st'. split; [exact H|]. split; [exact Hlen|].
    simpl in Href, Htr. split; [by rewrite Href|].
    rewrite Htr. destruct base as [|h base]; [done|].
    exfalso. specialize (Hbase h (list_elem_of_here _ _)).
    simpl in Hbase. by apply elem_of_nil in Hbase.
Defined.

(** C2 on the field with two wrappers, the first resolved by the host at
    creation, the second later. *)
Lemma C2_witness :
  ∃ st',
    (renderField example_config panel_is_static 0 (Some 0)
       ["panel"; "form-field"]%string wrapped_state
     ≫= settle example_config panel_is_static 2) = OK st' ∧
    length (refs st') = 3 ∧
    wrapper_chain st' 0 0 ["PanelWrapper"; "FormFieldWrapper"]%string
      (Some "FormlyFieldInput"%string).
Proof.
  destruct (C2_wrappers_nested_outer_to_inner example_config panel_is_static
              0 0 wrapped_field ["panel"; "form-field"]%string
              ["PanelWrapper"; "FormFieldWrapper"]%string wrapped_state 2)
    as (st' & H & Hlen & Hchain & _).
  - split; [by eexists | simpl; lia].
  - reflexivity.
  - reflexivity.
  - discriminate.
  - repeat constructor.
  - intros _. by eexists.
  - left. by split.
  - simpl. lia.
  - exists st'. split; [exact H|]. split; [exact Hlen|]. exact Hchain.
Defined.

(** C3 on the rendered example: the inner wrapper moves its inner
    container from 2 to 3, and the view of the field type moves with it. *)
Lemma C3_witness :
  ∃ st',
    fieldComponent_observer
      (λ m, renderField example_config panel_is_static m (Some 0) [])
      1 (Some 3) (Some 2) false relocatable_state = OK st' ∧
    refs st' = refs relocatable_state ∧
    containers st' = [[0]; [1]; []; [2]].
Proof.
  destruct (C3_inner_container_moved_or_rerendered example_config
              panel_is_static 1 (Some 0) [] 3 (Some 2) false relocatable_state)
    as (Hmove & _).
  - vm_compute. lia.
  - vm_compute. discriminate.
  - destruct (Hmove 2 2) as (st' & H & Hrefs & _ & Hcont & _);
      [reflexivity | reflexivity | reflexivity |].
    exists st'. split; [exact H|]. split; [exact Hrefs|].
    rewrite Hcont. reflexivity.
Defined.


(** C6 on the example field: a padded value is trimmed, written and sent. *)
Lemma C6_witness :
  ∃ st',
    valueChanges_subscriber 0 0 (VStr "  Al ") example_state = OK st' ∧
    (getFieldValue <$> nodes st' !! 0) = Some (VStr "Al") ∧
    fieldChangesChannel st' =
      [{| ev_value := VStr "Al"; ev_field := 0; ev_type := "valueChanges" |}].
Proof.
  destruct (proj1 C6_emitted_value_is_parsed_written_and_broadcast
              0 0 (VStr "  Al ") example_state example_field "name"%string
              {| value := VStr "Al"; isFormControl := true; _fields := None |})
    as (st' & H & Hv & Hc).
  - reflexivity.
  - reflexivity.
  - reflexivity.
  - exists st'. split; [exact H|]. split; [exact Hv|exact Hc].
Defined.

(** The statement of C4, which fails: with a debounce configured the
    control's differing value is not emitted at subscription. *)
Lemma C4_counterexample :
  ¬ (∀ fld control mo,
       initial_emissions (valueChanges_pipe fld control mo) = [value control]
       ↔ value control ≠ getFieldValue fld).
Proof.
  intros H.
  specialize (H debounced_field
                {| value := VStr "Al"; isFormControl := true; _fields := None |}
                {| updateOn := Some "change"%string;
                   debounce := Some {| debounce_default := Some 300%Z |} |}).
  destruct H as [_ H]. by specialize (H ltac:(discriminate)).
Qed.






(** C10 on the rendered example: the inner wrapper loses its inner
    container. *)
Lemma C10_witness :
  ∃ st',
    set_fieldComponent example_config panel_is_static 1 None rendered_state
      = OK st' ∧
    containers st' = containers rendered_state ∧
    trace st' = trace rendered_state ∧
    length (refs st') = length (refs rendered_state).
Proof.
  destruct (C10_falsy_inner_container_is_ignored example_config
              panel_is_static 1
              {| component := "FormFieldWrapper"; kind := WrapperRenderer;
                 location := 1; instance_field := Some 0;
                 fieldComponent := Some 2; observer := Some (Some 0, []);
                 destroyed := false |}
              (Some 0) [] rendered_state)
    as (_ & st' & H & Hc & Ht & _ & _ & _ & Hl & _).
  - reflexivity.
  - reflexivity.
  - exists st'. split; [exact H|]. split; [exact Hc|]. split; [exact Ht|].
    exact Hl.
Defined.

(** ** The further properties on the examples *)

Lemma rendered_state_well_formed : well_formed rendered_state.
Proof. split; [vm_compute; by eexists | vm_compute; lia]. Qed.

Lemma wrapped_state_well_formed : well_formed wrapped_state.
Proof. split; [by eexists | simpl; lia]. Qed.

(** X1 on the rendered example: a rendering for no field empties the own
    container and creates nothing. *)
Lemma renderField_without_type_creates_nothing_witness :
  ∃ st',
    renderField example_config panel_is_static 0 None [] rendered_state
      = OK st' ∧
    length (refs st') = length (refs rendered_state) ∧
    views 0 st' = [].
Proof.
  destruct (renderField_without_type_creates_nothing example_config
              panel_is_static 0 None rendered_state)
    as (st' & H & Hl & _ & _ & Hown).
  - apply rendered_state_well_formed.
  - by left.
  - exists st'. split; [exact H|]. split; [exact Hl|].
    by apply Hown.
Defined.

(** X2 on the example field with a wrapper that is not registered. *)
Lemma renderField_unregistered_renderer_witness :
  renderField example_config panel_is_static 0 (Some 0) ["tooltip"]%string
    example_state
  = Err (UnregisteredRendererError "tooltip").
Proof.
  destruct (renderField_unregistered_renderer example_config panel_is_static
              0 (Some 0) example_state) as [Hw _].
  - split; [by eexists | simpl; lia].
  - apply Hw. vm_compute. reflexivity.
Defined.


(** X4 on the rendered example, rendered again. *)
Lemma renderField_only_tracks_witness :
  controls rerendered_state = controls rendered_state ∧
  subscriptions rerendered_state = subscriptions rendered_state ∧
  fieldChangesChannel rerendered_state = fieldChangesChannel rendered_state.
Proof.
  destruct (renderField_only_tracks example_config panel_is_static 0 (Some 0)
              ["panel"; "form-field"]%string rendered_state rerendered_state)
    as (Hc & Hs & Hch & _).
  - apply rendered_state_well_formed.
  - vm_compute. reflexivity.
  - by split.
Defined.

(** X5 on the rendered example, rendered again: the own container holds
    the new panel wrapper alone, and the old one is destroyed. *)
Lemma own_container_holds_the_new_view_witness :
  views 0 rerendered_state = [3] ∧
  (destroyed <$> refs rerendered_state !! 0) = Some true.
Proof.
  destruct (own_container_holds_the_new_view example_config panel_is_static
              (Some 0) ["panel"; "form-field"]%string rendered_state
              rerendered_state)
    as (Hv & Hd).
  - apply rendered_state_well_formed.
  - vm_compute. reflexivity.
  - split; [exact Hv|].
    erewrite (Hd 0); [reflexivity | apply list_elem_of_here | reflexivity].
Defined.

(** X6 on the rendered example. *)
Lemma resetRefs_idempotent_witness :
  ∃ st1,
    resetRefs (Some 0) rendered_state = OK st1 ∧
    resetRefs (Some 0) st1 = OK st1.
Proof.
  eexists. split; [vm_compute; reflexivity|].
  apply (resetRefs_idempotent (Some 0) rendered_state).
  vm_compute. reflexivity.
Defined.

(** X7: a renderer of the first field resets the references of the
    second, which has no list yet; the list of the first is emptied. *)
Lemma resetRefs_of_untracked_field_witness :
  ∃ st',
    resetRefs (Some 1) (set_field (Some 0) swapped_state) = OK st' ∧
    tracked 0 st' = Some [] ∧ tracked 1 st' = None.
Proof.
  destruct (resetRefs_of_untracked_field 1 example_field
              (set_field (Some 0) swapped_state)) as [_ H].
  - vm_compute. reflexivity.
  - reflexivity.
  - destruct (H 0 rendered_field) as (st' & Hr & Ht & Hp & _).
    + reflexivity.
    + vm_compute. reflexivity.
    + exists st'. split; [exact Hr|]. split; [exact Ht|].
      apply Hp. discriminate.
Defined.

(** X8 on a field group. *)
Lemma fieldChanges_of_unbound_field_witness :
  ∃ s,
    fieldChanges (Some 0) group_state = OK (s, [0; 1; 2; 3; 4]) ∧
    nodes s = nodes group_state ∧
    fieldChangesChannel s = [].
Proof.
  pose proof (fieldChanges_of_unbound_field 0 group_field group_state) as H.
  cbv zeta in H.
  destruct H as (s & H & _ & Hn & _ & Hch & _).
  - reflexivity.
  - right. discriminate.
  - exists s. split; [exact H|]. split; [exact Hn|exact Hch].
Defined.

(** X9 on the example field without its control. *)
Lemma fieldChanges_needs_control_and_options_witness :
  fieldChanges (Some 0) uncontrolled_state = Err TypeError.
Proof.
  apply (fieldChanges_needs_control_and_options 0 uncontrolled_field).
  - reflexivity.
  - reflexivity.
  - reflexivity.
  - by left.
Defined.

(** X10 on the rendered example, wired again. *)
Lemma fieldChanges_replaces_wiring_witness :
  (∀ i, i ∈ [2; 3; 4; 5; 6; 7] → is_active i rewired_state = false) ∧
  (∀ i, i ∈ [9; 10; 11; 12; 13; 14] → is_active i rewired_state = true) ∧
  subscriptions rewired_state !! 8 = subscriptions rendered_state !! 8.
Proof.
  destruct (fieldChanges_replaces_wiring (Some 0) rendered_state rewired_state
              [9; 10; 11; 12; 13; 14])
    as (Hold & Hnew & Hother & _).
  - intros i Hi. change (i ∈ [2; 3; 4; 5; 6; 7]) in Hi.
    change (i < 9).
    repeat (apply elem_of_cons in Hi as [->|Hi]; [lia|]).
    by apply elem_of_nil in Hi.
  - vm_compute. reflexivity.
  - split; [exact Hold|]. split.
    + intros i Hi. by apply Hnew.
    + apply Hother; [vm_compute; lia|].
      change (8 ∉ [2; 3; 4; 5; 6; 7]). intros Hi.
      repeat (apply elem_of_cons in Hi as [Hi|Hi]; [discriminate|]).
      by apply elem_of_nil in Hi.
Defined.

(** X11 on the rendered example: [ngAfterViewInit]. *)
Lemma triggerHook_other_hooks_witness :
  ∃ st',
    triggerHook example_config panel_is_static "afterViewInit" None
      rendered_state = OK st' ∧
    refs st' = refs rendered_state ∧
    valueChangesUnsubscribe st' = valueChangesUnsubscribe rendered_state.
Proof.
  destruct (triggerHook_other_hooks example_config panel_is_static
              "afterViewInit" None rendered_state)
    as (st' & H & Hr & _ & _ & _ & _ & _ & _ & Hv & _).
  - discriminate.
  - discriminate.
  - exists st'. split; [exact H|]. split; [exact Hr|exact Hv].
Defined.

(** X12 on the rendered example, whose [onInit] hook returns an
    observable. *)
Lemma hook_subscriptions_only_for_three_hooks_witness :
  hooksObservers reinit_state = hooksObservers rendered_state ∨
  ("onInit"%string ∈ ["onInit"; "afterContentInit"; "afterViewInit"]%string ∧
   ∃ n k, field rendered_state = Some n ∧
     hooksObservers reinit_state = hooksObservers rendered_state ++ [k] ∧
     subscriptions reinit_state !! k =
       Some {| target := n; what := HookSub "onInit"; active := true |}).
Proof.
  apply (hook_subscriptions_only_for_three_hooks example_config
           panel_is_static "onInit" None rendered_state reinit_state).
  - apply rendered_state_well_formed.
  - vm_compute. reflexivity.
Defined.

(** X14 on the wrapped example: after the first [ngOnChanges] nothing is
    wired yet. *)
Lemma first_change_leaves_value_wiring_witness :
  valueChangesUnsubscribe first_rendered_state = [] ∧
  fieldChangesChannel first_rendered_state = [] ∧
  length (subscriptions first_rendered_state) = 2.
Proof.
  destruct (first_change_leaves_value_wiring example_config panel_is_static
              None wrapped_state first_rendered_state)
    as (Hv & _ & Hch & _ & Hs).
  - apply wrapped_state_well_formed.
  - vm_compute. reflexivity.
  - split; [exact Hv|]. split; [exact Hch|]. by rewrite Hs.
Defined.

(** X15 on a control shared by two fields. *)
Lemma subscriber_patches_shared_control_witness :
  ∃ st',
    valueChanges_subscriber 0 0 (VStr "Bo") shared_state = OK st' ∧
    (value <$> controls st' !! 0) = Some (VStr "Bo").
Proof.
  eexists. split; [vm_compute; reflexivity|].
  erewrite (proj1 (subscriber_patches_shared_control 0 0 (VStr "Bo")
                     shared_state _
                     {| value := VStr "Al"; isFormControl := true;
                        _fields := Some [0; 1] |} _ _)).
  - reflexivity.
  Unshelve.
  + reflexivity.
  + vm_compute. reflexivity.
Defined.

(** X16 on the example field: the value at subscription, then the
    emissions without the repeated one. *)
Lemma undebounced_stream_drops_adjacent_repeats_witness :
  ∃ rest,
    emissions
      (valueChanges_pipe example_field
         {| value := VStr "Al"; isFormControl := true; _fields := None |}
         {| updateOn := None; debounce := None |})
      0%Z [(10%Z, VStr "A"); (20%Z, VStr "A"); (30%Z, VStr "B")]
    = [(0%Z, VStr "Al")] ++ rest ∧
    (30%Z, VStr "B") ∈ rest.
Proof.
  destruct (undebounced_stream_drops_adjacent_repeats example_field
              {| value := VStr "Al"; isFormControl := true; _fields := None |}
              {| updateOn := None; debounce := None |} 0%Z
              [(10%Z, VStr "A"); (20%Z, VStr "A"); (30%Z, VStr "B")])
    as (rest & H & _ & _ & Hin).
  - reflexivity.
  - exists rest. split; [exact H|].
    apply (Hin 2); [reflexivity|discriminate].
Defined.

(** X17 on the example with a debounce of 300. *)
Lemma debounced_stream_passes_separated_emissions_witness :
  emissions
    (valueChanges_pipe debounced_field
       {| value := VStr "Al"; isFormControl := true; _fields := None |}
       {| updateOn := Some "change"%string;
          debounce := Some {| debounce_default := Some 300%Z |} |})
    0%Z [(0%Z, VStr "A"); (300%Z, VStr "A"); (700%Z, VStr "B")]
  = [(300%Z, VStr "A"); (600%Z, VStr "A"); (1000%Z, VStr "B")].
Proof.
  apply (debounced_stream_passes_separated_emissions debounced_field
           {| value := VStr "Al"; isFormControl := true; _fields := None |}
           {| updateOn := Some "change"%string;
              debounce := Some {| debounce_default := Some 300%Z |} |}
           300%Z 0%Z [(0%Z, VStr "A"); (300%Z, VStr "A"); (700%Z, VStr "B")]).
  - reflexivity.
  - intros [|[|[|i]]] a b; simpl; intros Ha Hb; try discriminate;
      injection Ha as <-; injection Hb as <-; simpl; lia.
Defined.

(** X18 on the example field: two padded values. *)
Lemma deliver_one_event_per_emission_witness :
  ∃ st',
    deliver 0 0 [VStr " Al "; VStr "Bo "] example_state = OK st' ∧
    fieldChangesChannel st' =
      [{| ev_value := VStr "Al"; ev_field := 0; ev_type := "valueChanges" |};
       {| ev_value := VStr "Bo"; ev_field := 0; ev_type := "valueChanges" |}] ∧
    (getFieldValue <$> nodes st' !! 0) = Some (VStr "Bo").
Proof.
  destruct (deliver_one_event_per_emission 0 0 [VStr " Al "; VStr "Bo "]
              example_state example_field "name"%string
              {| value := VStr "Al"; isFormControl := true; _fields := None |})
    as (st' & H & Hch & Hlast).
  - reflexivity.
  - reflexivity.
  - reflexivity.
  - exists st'. split; [exact H|]. split; [exact Hch|].
    exact (Hlast (VStr "Bo ") eq_refl).
Defined.

(** X19 on the wrapped example, which is hidden and has a class. *)
Lemma host_binding_at_installation_witness :
  ∃ st' es,
    renderHostBinding wrapped_state = OK st' ∧
    trace st' = trace wrapped_state ++ es ∧
    SetStyleDisplay "none" ∈ es ∧ SetAttributeClass "col-6" ∈ es.
Proof.
  destruct (host_binding_at_installation wrapped_state)
    as (st' & es & H & Ht & _ & Hd & Hc).
  - apply wrapped_state_well_formed.
  - exists st', es. split; [exact H|]. split; [exact Ht|]. split.
    + apply Hd. split; [done|]. by exists 0, wrapped_field.
    + apply Hc. split; [done|]. by exists 0, wrapped_field.
Defined.

(** X20 on the rendered example: the inner wrapper loses its container 2
    and is given container 3. *)
Lemma inner_container_lost_then_restored_witness :
  ∃ st1,
    set_fieldComponent example_config panel_is_static 1 None relocatable_state
      = OK st1 ∧
    ∀ st2,
      set_fieldComponent example_config panel_is_static 1 (Some 3) st1
        = OK st2 →
      views 2 st2 = views 2 relocatable_state ∧
      length (refs relocatable_state) < length (refs st2).
Proof.
  destruct (inner_container_lost_then_restored example_config panel_is_static
              1
              {| component := "FormFieldWrapper"; kind := WrapperRenderer;
                 location := 1; instance_field := Some 0;
                 fieldComponent := Some 2; observer := Some (Some 0, []);
                 destroyed := false |}
              (Some 0) [] 2 3 relocatable_state)
    as (st1 & H1 & H2).
  - vm_compute. lia.
  - reflexivity.
  - reflexivity.
  - reflexivity.
  - vm_compute. lia.
  - vm_compute. lia.
  - vm_compute. discriminate.
  - discriminate.
  - exists st1. split; [exact H1|]. intros st2 Hst2.
    destruct (H2 st2 Hst2) as (Hv & _ & Hl & _).
    split; [exact Hv|]. apply Hl. right.
    exists 0, rendered_field. split; [done|]. split; vm_compute; reflexivity.
Defined.

(** X21 on the rendered example, initialised a second time. *)
Lemma ngOnInit_wires_without_rendering_witness :
  refs reinit_state = refs rendered_state ∧
  containers reinit_state = containers rendered_state ∧
  hostObservers reinit_state = hostObservers rendered_state.
Proof.
  destruct (ngOnInit_wires_without_rendering example_config panel_is_static
              rendered_state reinit_state)
    as (Hr & Hc & Hh & _).
  - vm_compute. reflexivity.
  - by split.
Defined.
